(** * Auto-Clicker: the background click worker

    A shallow embedding of [ClickWorker] from [src/main.py] (the worker
    that lives in a [QThread] and drives the mouse), together with the
    properties of its [run] loop.

    The worker talks to four things outside of itself: the Qt signals it
    emits, the pynput mouse controller, the pynput keyboard listener and
    the clock.  Every such interaction is recorded as an [event]; what the
    outside answers (whether a driver call raises, how long it takes, when
    another thread calls [request_stop]) is read from an environment
    [Env].  Time is counted in integer nanoseconds; [time.sleep d] is
    taken to last exactly [d], and bookkeeping between two calls takes no
    time.

    Around the worker, the file embeds what [MainWindow] does with a run
    (the validation of the inputs, the resolution of the target, the
    slots that the worker's signals are connected to) and the placement
    of the coordinates HUD. *)

From Stdlib Require Import ZArith List String Bool Lia DecimalString.
Import ListNotations.
Local Open Scope Z_scope.

Set Implicit Arguments.

(** ** Time *)

Definition time := Z.

Definition ns_per_ms : Z := 1000000.

Definition ns_per_s : Z := 1000000000.

(** [time.sleep(1)] of the countdown. *)
Definition countdown_tick : time := 1 * ns_per_s.

(** The [0.01] of [time.sleep(min(0.01, target - now))]. *)
Definition poll_quantum : time := 10 * ns_per_ms.

(** The [0.001] of [max(0.001, self.interval_ms / 1000.0)]. *)
Definition min_interval : time := 1 * ns_per_ms.

(** ** Data *)

(** [pynput.mouse.Button.left] and [Button.right]. *)
Inductive Button := ButtonLeft | ButtonRight.

(** Python exceptions, as far as [run] tells them apart: its first handler
    takes [RuntimeError], its second every other [Exception]. *)
Inductive exn_class := RuntimeError | OtherException.

Record exn := mkExn { exn_cls : exn_class; exn_str : string }.

(** What the worker does to the outside world, in the order it does it. *)
Inductive event :=
| Status (msg : string)            (* self.status.emit(msg) *)
| Progress (performed : Z)         (* self.progress.emit(performed) *)
| Error (msg : string)             (* self.error.emit(msg) *)
| Finished                         (* self.finished.emit() *)
| MoveTo (pos : Z * Z)             (* self._mouse.position = pos *)
| Click (b : Button) (count : Z)   (* self._mouse.click(b, count) *)
| Sleep (d : time)                 (* time.sleep(d) *)
| Poll (flag : bool)               (* a read of self._stop_requested *)
| ListenerNew (ok : bool)          (* keyboard.Listener(on_press=...) *)
| ListenerStart (ok : bool)        (* self._kb_listener.start() *)
| ListenerStop (ok : bool).        (* self._kb_listener.stop() *)

(** The fields of a [ClickWorker] object. *)
Record ClickWorker := mkClickWorker {
  _stop_requested : bool;
  interval_ms : Z;
  mode : string;                   (* "Left" | "Right" | "Double (left)" *)
  total_clicks : option Z;         (* None for continuous *)
  countdown : bool;
  target_mode : string;            (* "follow" | "fixed" *)
  target_pos : option (Z * Z);
  _kb_listener : option unit       (* None, or the listener object *)
}.

(** [ClickWorker.__init__]. *)
Definition init : ClickWorker :=
  {| _stop_requested := false;
     interval_ms := 100;
     mode := "Left";
     total_clicks := None;
     countdown := true;
     target_mode := "follow";
     target_pos := None;
     _kb_listener := None |}.

(** [ClickWorker.configure]. *)
Definition configure (interval : Z) (m : string) (total : option Z)
    (cd : bool) (tmode : string) (tpos : option (Z * Z))
    (self : ClickWorker) : ClickWorker :=
  {| _stop_requested := _stop_requested self;
     interval_ms := Z.max 1 interval;
     mode := m;
     total_clicks := total;
     countdown := cd;
     target_mode := tmode;
     target_pos := tpos;
     _kb_listener := _kb_listener self |}.

Definition set_stop_requested (b : bool) (self : ClickWorker) : ClickWorker :=
  {| _stop_requested := b;
     interval_ms := interval_ms self;
     mode := mode self;
     total_clicks := total_clicks self;
     countdown := countdown self;
     target_mode := target_mode self;
     target_pos := target_pos self;
     _kb_listener := _kb_listener self |}.

Definition set_kb_listener (l : option unit) (self : ClickWorker) : ClickWorker :=
  {| _stop_requested := _stop_requested self;
     interval_ms := interval_ms self;
     mode := mode self;
     total_clicks := total_clicks self;
     countdown := countdown self;
     target_mode := target_mode self;
     target_pos := target_pos self;
     _kb_listener := l |}.

(** [ClickWorker.request_stop]. *)
Definition request_stop (self : ClickWorker) : ClickWorker :=
  set_stop_requested true self.

(** ** The environment *)

(** The answers of the outside world.  [stop_at] is the instant, counted
    from the moment [run] resets the flag, at which another thread (the
    Stop command, or the ESC hook) calls [request_stop]; a call made
    before that moment is overwritten by the reset and is the same as no
    call.  A driver call is answered by how long it took and, when it
    raises, the text of the exception. *)
Record Env := mkEnv {
  stop_at : option time;
  move_call : nat -> time * option string;
  click_call : nat -> time * option string;
  listener_new : option exn;
  listener_start : option exn;
  listener_stop : option exn
}.

(** The worker object, the clock and the number of driver calls so far. *)
Record World := mkWorld {
  self : ClickWorker;
  clock : time;
  n_moves : nat;
  n_clicks : nat
}.

Definition with_self (f : ClickWorker -> ClickWorker) (w : World) : World :=
  {| self := f (self w); clock := clock w;
     n_moves := n_moves w; n_clicks := n_clicks w |}.

Definition advance (d : time) (w : World) : World :=
  {| self := self w; clock := clock w + d;
     n_moves := n_moves w; n_clicks := n_clicks w |}.

Definition count_move (w : World) : World :=
  {| self := self w; clock := clock w;
     n_moves := S (n_moves w); n_clicks := n_clicks w |}.

Definition count_click (w : World) : World :=
  {| self := self w; clock := clock w;
     n_moves := n_moves w; n_clicks := S (n_clicks w) |}.

(** Has [request_stop] been called by instant [t]? *)
Definition requested_by (e : Env) (t : time) : bool :=
  match stop_at e with
  | Some T => (0 <=? T) && (T <=? t)
  | None => false
  end.

(** The calls of [request_stop] made by other threads up to now take
    effect on the worker object. *)
Definition deliver (e : Env) (w : World) : World :=
  if requested_by e (clock w) then with_self request_stop w else w.

(** ** A monad for the worker's code

    A computation reads and changes the world, emits events, and ends
    with a value, with a raised exception, or [Pending]: the step budget
    of a loop ran out and the code is still running. *)

Inductive result (A : Type) :=
| Ok (a : A)
| Raised (x : exn)
| Pending.

Arguments Raised {A} x.

Arguments Pending {A}.

Definition M (A : Type) : Type := World -> list event * World * result A.

Definition ret {A} (a : A) : M A := fun w => ([], w, Ok a).

Definition bind {A B} (m : M A) (f : A -> M B) : M B :=
  fun w =>
    match m w with
    | (l1, w1, Ok a) => let '(l2, w2, r) := f a w1 in (l1 ++ l2, w2, r)
    | (l1, w1, Raised x) => (l1, w1, Raised x)
    | (l1, w1, Pending) => (l1, w1, Pending)
    end.

Notation "x <- m ;; k" := (bind m (fun x => k))
  (at level 61, m at next level, right associativity).

Notation "m ;;; k" := (bind m (fun _ => k))
  (at level 61, right associativity).

Definition raise {A} (x : exn) : M A := fun w => ([], w, Raised x).

Definition pending {A} : M A := fun w => ([], w, Pending).

Definition emit (ev : event) : M unit := fun w => ([ev], w, Ok tt).

Definition get {A} (f : ClickWorker -> A) : M A := fun w => ([], w, Ok (f (self w))).

Definition modify (f : World -> World) : M unit := fun w => ([], f w, Ok tt).

(** [try: m  except Exception as x: h x]. *)
Definition try_except {A} (m : M A) (h : exn -> M A) : M A :=
  fun w =>
    match m w with
    | (l1, w1, Raised x) => let '(l2, w2, r) := h x w1 in (l1 ++ l2, w2, r)
    | other => other
    end.

(** [try: m  finally: f].  The [finally] block runs when [m] has ended,
    with a value (a [return] included) or with an exception. *)
Definition try_finally {A} (m : M A) (f : M unit) : M A :=
  fun w =>
    match m w with
    | (l1, w1, Pending) => (l1, w1, Pending)
    | (l1, w1, r) =>
        match f w1 with
        | (l2, w2, Ok _) => (l1 ++ l2, w2, r)
        | (l2, w2, Raised x) => (l1 ++ l2, w2, Raised x)
        | (l2, w2, Pending) => (l1 ++ l2, w2, Pending)
        end
    end.

(** ** Primitive operations *)

(** Reading [self._stop_requested]. *)
Definition poll (e : Env) : M bool :=
  fun w => let w1 := deliver e w in
           let b := _stop_requested (self w1) in
           ([Poll b], w1, Ok b).

(** [time.perf_counter()]. *)
Definition perf_counter : M time := fun w => ([], w, Ok (clock w)).

(** [time.sleep(d)]. *)
Definition sleep (d : time) : M unit :=
  emit (Sleep d) ;;; modify (advance d).

(** [self._mouse.position = pos]. *)
Definition mouse_set_position (e : Env) (pos : Z * Z) : M unit :=
  fun w =>
    let '(d, r) := move_call e (n_moves w) in
    let w1 := advance d (count_move w) in
    match r with
    | None => ([MoveTo pos], w1, Ok tt)
    | Some s => ([MoveTo pos], w1, Raised (mkExn OtherException s))
    end.

(** [self._mouse.click(b, count)]. *)
Definition mouse_click (e : Env) (b : Button) (count : Z) : M unit :=
  fun w =>
    let '(d, r) := click_call e (n_clicks w) in
    let w1 := advance d (count_click w) in
    match r with
    | None => ([Click b count], w1, Ok tt)
    | Some s => ([Click b count], w1, Raised (mkExn OtherException s))
    end.

(** ** String formatting *)

Definition repr_int (z : Z) : string := NilZero.string_of_int (Z.to_int z).

(** Python's [repr] of a pair of integers. *)
Definition repr_pos (p : Z * Z) : string :=
  ("(" ++ repr_int (fst p) ++ ", " ++ repr_int (snd p) ++ ")")%string.

(** ** The methods of [ClickWorker] *)

(** [ClickWorker._start_keyboard_listener].  The [on_press] callback runs
    on the listener's thread; its call of [request_stop] is what [stop_at]
    stands for. *)
Definition _start_keyboard_listener (e : Env) : M unit :=
  match listener_new e with
  | Some x => emit (ListenerNew false) ;;; raise x
  | None =>
      emit (ListenerNew true) ;;;
      modify (with_self (set_kb_listener (Some tt))) ;;;
      match listener_start e with
      | Some x => emit (ListenerStart false) ;;; raise x
      | None => emit (ListenerStart true)
      end
  end.

(** [ClickWorker._stop_keyboard_listener]. *)
Definition _stop_keyboard_listener (e : Env) : M unit :=
  l <- get _kb_listener ;;
  try_except
    match l with
    | Some _ =>
        match listener_stop e with
        | Some x => emit (ListenerStop false) ;;; raise x
        | None => emit (ListenerStop true)
        end
    | None => ret tt
    end
    (fun _ => ret tt) ;;;
  modify (with_self (set_kb_listener None)).

(** [ClickWorker._move_to_target_if_needed]. *)
Definition _move_to_target_if_needed (e : Env) : M unit :=
  tm <- get target_mode ;;
  tp <- get target_pos ;;
  match tp with
  | Some pos =>
      if (tm =? "fixed")%string then
        try_except (mouse_set_position e pos)
          (fun x => raise (mkExn RuntimeError
             ("Failed to move to target " ++ repr_pos pos ++ ": " ++ exn_str x)%string))
      else ret tt
  | None => ret tt
  end.

(** [ClickWorker._click_once]. *)
Definition _click_once (e : Env) (remaining : Z) : M Z :=
  m <- get mode ;;
  try_except
    (if (m =? "Left")%string then
       mouse_click e ButtonLeft 1 ;;; ret 1
     else if (m =? "Right")%string then
       mouse_click e ButtonRight 1 ;;; ret 1
     else if (m =? "Double (left)")%string then
       let clicks := if 2 <=? remaining then 2 else 1 in
       mouse_click e ButtonLeft clicks ;;; ret clicks
     else
       mouse_click e ButtonLeft 1 ;;; ret 1)
    (fun x => raise (mkExn RuntimeError (exn_str x))).

(** The countdown: [for i in (3, 2, 1): ...].  The value tells whether the
    loop left [run] through its [return]. *)
Fixpoint countdown_loop (e : Env) (ticks : list Z) : M bool :=
  match ticks with
  | [] => ret false
  | i :: rest =>
      stop <- poll e ;;
      if stop then
        emit (Status "Start aborted.") ;;;
        emit Finished ;;;
        ret true
      else
        emit (Status ("Starting in " ++ repr_int i
                        ++ "… (press ESC to cancel)")%string) ;;;
        sleep countdown_tick ;;;
        countdown_loop e rest
  end.

(** The wait between two actions:
    [while not self._stop_requested: now = ...; if now >= target: break;
     time.sleep(min(0.01, target - now))]. *)
Fixpoint wait_loop (n : nat) (e : Env) (target : time) : M unit :=
  match n with
  | O => pending
  | S n' =>
      stop <- poll e ;;
      if stop then ret tt
      else
        now <- perf_counter ;;
        if target <=? now then ret tt
        else
          sleep (Z.min poll_quantum (target - now)) ;;;
          wait_loop n' e target
  end.

(** Every round of [wait_loop] but the last sleeps a whole quantum, so the
    loop is over after this many rounds ([wait_loop_returns] below). *)
Definition wait_rounds (interval_s : time) : nat :=
  Z.to_nat (interval_s / poll_quantum) + 2.

Definition interruptible_wait (e : Env) (interval_s : time) : M unit :=
  t0 <- perf_counter ;;
  wait_loop (wait_rounds interval_s) e (t0 + interval_s).

(** The main loop, [while not self._stop_requested: ...], with the local
    variable [performed] as an argument.  [fuel] bounds the number of
    rounds: a continuous run that nobody stops has no last round. *)
Fixpoint run_loop (fuel : nat) (e : Env) (interval_s : time) (performed : Z)
    : M Z :=
  match fuel with
  | O => pending
  | S fuel' =>
      stop <- poll e ;;
      if stop then ret performed
      else
        total <- get total_clicks ;;
        let remaining := option_map (fun t => t - performed) total in
        if match remaining with Some r => r <=? 0 | None => false end
        then ret performed
        else
          _move_to_target_if_needed e ;;;
          produced <- _click_once e (match remaining with Some r => r | None => 2 end) ;;
          let performed := performed + produced in
          emit (Progress performed) ;;;
          interruptible_wait e interval_s ;;;
          run_loop fuel' e interval_s performed
  end.

(** The body of the [try] in [ClickWorker.run]. *)
Definition run_body (fuel : nat) (e : Env) : M unit :=
  cd <- get countdown ;;
  returned <- (if cd then countdown_loop e [3; 2; 1] else ret false) ;;
  if returned then ret tt
  else
    _start_keyboard_listener e ;;;
    emit (Status "Running (ESC to stop)…") ;;;
    ms <- get interval_ms ;;
    let interval_s := Z.max min_interval (ms * ns_per_ms) in
    run_loop fuel e interval_s 0 ;;;
    stop <- poll e ;;
    if stop then emit (Status "Stopped by user.")
    else emit (Status "Completed.").

(** [ClickWorker.run]. *)
Definition run (fuel : nat) (e : Env) : M unit :=
  modify (with_self (set_stop_requested false)) ;;;
  try_finally
    (try_except (run_body fuel e)
       (fun x =>
          match exn_cls x with
          | RuntimeError => emit (Error ("Automation error: " ++ exn_str x)%string)
          | OtherException => emit (Error ("Unexpected error: " ++ exn_str x)%string)
          end))
    (_stop_keyboard_listener e ;;; emit Finished).

(** A run starts on a configured worker, with the clock at zero and no
    driver call made yet. *)
Definition start (self : ClickWorker) : World :=
  {| self := self; clock := 0; n_moves := 0; n_clicks := 0 |}.

Definition exec (fuel : nat) (e : Env) (self : ClickWorker)
    : list event * World * result unit :=
  run fuel e (start self).

(** An environment in which nobody asks to stop and every call succeeds
    at once. *)
Definition quiet : Env :=
  {| stop_at := None;
     move_call := fun _ => (0, None);
     click_call := fun _ => (0, None);
     listener_new := None;
     listener_start := None;
     listener_stop := None |}.

(** ** Reading an event log *)

Definition is_progress (ev : event) : bool :=
  match ev with Progress _ => true | _ => false end.

Definition is_error (ev : event) : bool :=
  match ev with Error _ => true | _ => false end.

Definition is_finished (ev : event) : bool :=
  match ev with Finished => true | _ => false end.

Definition is_move (ev : event) : bool :=
  match ev with MoveTo _ => true | _ => false end.

Definition is_click (ev : event) : bool :=
  match ev with Click _ _ => true | _ => false end.

(** A call of the pointer driver (the pynput mouse controller). *)
Definition is_driver (ev : event) : bool := is_move ev || is_click ev.

Definition is_sleep (ev : event) : bool :=
  match ev with Sleep _ => true | _ => false end.

Definition count (f : event -> bool) (l : list event) : nat :=
  List.length (filter f l).

(** The values carried by the progress signals, in order. *)
Fixpoint progress_values (l : list event) : list Z :=
  match l with
  | [] => []
  | Progress v :: l' => v :: progress_values l'
  | _ :: l' => progress_values l'
  end.

(** The number of clicks performed: the last value signalled, [0] when
    no click was made. *)
Definition performed_of (l : list event) : Z := last (progress_values l) 0.

(** The steps by which a counter starting at [p] went through [vs]. *)
Fixpoint increments (p : Z) (vs : list Z) : list Z :=
  match vs with
  | [] => []
  | v :: vs' => (v - p) :: increments v vs'
  end.

(** The way a run ended, as its status and error signals announce it. *)
Inductive RunState := Completed | Stopped | Errored.

Definition announces (ev : event) : option RunState :=
  match ev with
  | Error _ => Some Errored
  | Status msg =>
      if (msg =? "Completed.")%string then Some Completed
      else if (msg =? "Stopped by user.")%string then Some Stopped
      else if (msg =? "Start aborted.")%string then Some Stopped
      else None
  | _ => None
  end.

Fixpoint terminal_state (l : list event) : option RunState :=
  match l with
  | [] => None
  | ev :: l' =>
      match terminal_state l' with
      | Some s => Some s
      | None => announces ev
      end
  end.

(** * Notions for stating and proving the properties *)

(** ** The methods, one call at a time *)

(** The point the pointer is sent to before a click, if any. *)
Definition fixed_target (s : ClickWorker) : option (Z * Z) :=
  match target_pos s with
  | Some pos => if (target_mode s =? "fixed")%string then Some pos else None
  | None => None
  end.

Definition move_failure_text (pos : Z * Z) (s : string) : string :=
  ("Failed to move to target " ++ repr_pos pos ++ ": " ++ s)%string.

(** The button and the number of clicks of one action. *)
Definition click_button (m : string) : Button :=
  if (m =? "Right")%string then ButtonRight else ButtonLeft.

Definition click_width (m : string) (remaining : Z) : Z :=
  if (m =? "Double (left)")%string
  then (if 2 <=? remaining then 2 else 1)
  else 1.

(** The events and the result of [_start_keyboard_listener]. *)
Definition listener_failure (e : Env) : option exn :=
  match listener_new e with
  | Some x => Some x
  | None => listener_start e
  end.

Definition listener_events (e : Env) : list event :=
  match listener_new e with
  | Some _ => [ListenerNew false]
  | None =>
      match listener_start e with
      | Some _ => [ListenerNew true; ListenerStart false]
      | None => [ListenerNew true; ListenerStart true]
      end
  end.

Definition listener_world (e : Env) (w : World) : World :=
  match listener_new e with
  | Some _ => w
  | None => with_self (set_kb_listener (Some tt)) w
  end.

(** The [finally] block of [run]. *)
Definition teardown (e : Env) : M unit :=
  _stop_keyboard_listener e ;;; emit Finished.

Definition teardown_events (e : Env) (w : World) : list event :=
  match _kb_listener (self w) with
  | Some _ =>
      [ListenerStop (match listener_stop e with None => true | Some _ => false end);
       Finished]
  | None => [Finished]
  end.

(** ** The wait between two actions *)

(** What a wait may emit: reads of the flag, and sleeps of at most one
    quantum. *)
Definition wait_event (ev : event) : Prop :=
  match ev with
  | Poll _ => True
  | Sleep d => 0 < d <= poll_quantum
  | _ => False
  end.

(** What a wait may change: the clock moves on, and a stop request that
    has come in is written to the flag. *)
Definition idles (e : Env) (w w' : World) : Prop :=
  n_moves w' = n_moves w /\
  n_clicks w' = n_clicks w /\
  clock w <= clock w' /\
  (self w' = self w \/
   self w' = request_stop (self w) /\ requested_by e (clock w') = true).

(** ** The main loop, round by round *)

Section MainLoop.

Variable e : Env.
Variable interval_s : time.

(** [remaining] of the loop; [quota] is what [_click_once] is given. *)
Definition remaining_of (w : World) (performed : Z) : option Z :=
  option_map (fun t => t - performed) (total_clicks (self w)).

Definition exhausted (w : World) (performed : Z) : bool :=
  match remaining_of w performed with Some r => r <=? 0 | None => false end.

Definition quota (w : World) (performed : Z) : Z :=
  match remaining_of w performed with Some r => r | None => 2 end.

Definition move_events (w : World) : list event :=
  match fixed_target (self w) with Some pos => [MoveTo pos] | None => [] end.

Definition after_move (w : World) : World :=
  match fixed_target (self w) with
  | Some _ => advance (fst (move_call e (n_moves w))) (count_move w)
  | None => w
  end.

Definition move_failure (w : World) : option string :=
  match fixed_target (self w) with
  | Some pos => option_map (move_failure_text pos) (snd (move_call e (n_moves w)))
  | None => None
  end.

Definition produced_by (w : World) (performed : Z) : Z :=
  click_width (mode (self w)) (quota w performed).

Definition click_event (w : World) (performed : Z) : event :=
  Click (click_button (mode (self w))) (produced_by w performed).

Definition after_click (w : World) : World :=
  advance (fst (click_call e (n_clicks w))) (count_click w).

Definition click_failure (w : World) : option string :=
  snd (click_call e (n_clicks w)).

(** The graph of [run_loop]: from a step budget, the local [performed]
    and a world, the events, the world at the end, and the way the loop
    ended.  A constructor per way through the loop body. *)
Inductive loop_run : nat -> Z -> World -> list event -> World -> result Z -> Prop :=
| loop_pending p w :
    loop_run O p w [] w Pending
| loop_stopped fuel p w :
    _stop_requested (self (deliver e w)) = true ->
    loop_run (S fuel) p w [Poll true] (deliver e w) (Ok p)
| loop_exhausted fuel p w :
    _stop_requested (self (deliver e w)) = false ->
    exhausted (deliver e w) p = true ->
    loop_run (S fuel) p w [Poll false] (deliver e w) (Ok p)
| loop_move_raised fuel p w s :
    _stop_requested (self (deliver e w)) = false ->
    exhausted (deliver e w) p = false ->
    move_failure (deliver e w) = Some s ->
    loop_run (S fuel) p w (Poll false :: move_events (deliver e w))
      (after_move (deliver e w)) (Raised (mkExn RuntimeError s))
| loop_click_raised fuel p w s :
    _stop_requested (self (deliver e w)) = false ->
    exhausted (deliver e w) p = false ->
    move_failure (deliver e w) = None ->
    click_failure (after_move (deliver e w)) = Some s ->
    loop_run (S fuel) p w
      (Poll false :: move_events (deliver e w) ++ [click_event (deliver e w) p])
      (after_click (after_move (deliver e w))) (Raised (mkExn RuntimeError s))
| loop_round fuel p w lw w4 l w' r :
    _stop_requested (self (deliver e w)) = false ->
    exhausted (deliver e w) p = false ->
    move_failure (deliver e w) = None ->
    click_failure (after_move (deliver e w)) = None ->
    interruptible_wait e interval_s (after_click (after_move (deliver e w)))
      = (lw, w4, Ok tt) ->
    loop_run fuel (p + produced_by (deliver e w) p) w4 l w' r ->
    loop_run (S fuel) p w
      (Poll false :: move_events (deliver e w)
         ++ [click_event (deliver e w) p;
             Progress (p + produced_by (deliver e w) p)]
         ++ lw ++ l)
      w' r.

End MainLoop.

(** ** The countdown *)

Definition starting_in (i : Z) : event :=
  Status ("Starting in " ++ repr_int i ++ "… (press ESC to cancel)")%string.

(** One tick that goes through, and the tick that leaves [run]. *)
Definition tick_events (i : Z) : list event :=
  [Poll false; starting_in i; Sleep countdown_tick].

Definition abort_events : list event :=
  [Poll true; Status "Start aborted."; Finished].

(** The countdown of [run] as a whole: its events, the world after it,
    and whether it left [run]. *)
Definition countdown_part (e : Env) (w : World) : list event * World * bool :=
  if negb (countdown (self w)) then ([], w, false)
  else if requested_by e (clock w) then
    (abort_events, with_self request_stop w, true)
  else if requested_by e (clock w + countdown_tick) then
    (tick_events 3 ++ abort_events,
     with_self request_stop (advance countdown_tick w), true)
  else if requested_by e (clock w + countdown_tick + countdown_tick) then
    (tick_events 3 ++ tick_events 2 ++ abort_events,
     with_self request_stop (advance countdown_tick (advance countdown_tick w)),
     true)
  else
    (tick_events 3 ++ tick_events 2 ++ tick_events 1,
     advance countdown_tick (advance countdown_tick (advance countdown_tick w)),
     false).

(** ** The ways through [run] *)

Definition error_text (x : exn) : string :=
  match exn_cls x with
  | RuntimeError => ("Automation error: " ++ exn_str x)%string
  | OtherException => ("Unexpected error: " ++ exn_str x)%string
  end.

Definition reset (w : World) : World := with_self (set_stop_requested false) w.

Definition close (w : World) : World := with_self (set_kb_listener None) w.

Definition running : event := Status "Running (ESC to stop)…".

Definition closing_status (stop : bool) : event :=
  Status (if stop then "Stopped by user." else "Completed.").

Definition interval_of (s : ClickWorker) : time :=
  Z.max min_interval (interval_ms s * ns_per_ms).

(** The graph of [run], a constructor per way through it: the countdown
    returns; the listener cannot be started; the loop is still going when
    the budget ends; the loop raises; the loop is left. *)
Inductive run_trace (fuel : nat) (e : Env) (w0 : World)
    : list event -> World -> result unit -> Prop :=
| run_aborted lc wc :
    countdown_part e (reset w0) = (lc, wc, true) ->
    run_trace fuel e w0 (lc ++ teardown_events e wc) (close wc) (Ok tt)
| run_listener_failed lc wc x :
    countdown_part e (reset w0) = (lc, wc, false) ->
    listener_failure e = Some x ->
    run_trace fuel e w0
      (lc ++ listener_events e
          ++ Error (error_text x) :: teardown_events e (listener_world e wc))
      (close (listener_world e wc)) (Ok tt)
| run_pending lc wc ll w2 :
    countdown_part e (reset w0) = (lc, wc, false) ->
    listener_failure e = None ->
    loop_run e (interval_of (self wc)) fuel 0 (listener_world e wc) ll w2 Pending ->
    run_trace fuel e w0 (lc ++ listener_events e ++ running :: ll) w2 Pending
| run_raised lc wc ll w2 x :
    countdown_part e (reset w0) = (lc, wc, false) ->
    listener_failure e = None ->
    loop_run e (interval_of (self wc)) fuel 0 (listener_world e wc) ll w2 (Raised x) ->
    run_trace fuel e w0
      (lc ++ listener_events e ++ running :: ll
          ++ Error (error_text x) :: teardown_events e w2)
      (close w2) (Ok tt)
| run_left lc wc ll w2 p :
    countdown_part e (reset w0) = (lc, wc, false) ->
    listener_failure e = None ->
    loop_run e (interval_of (self wc)) fuel 0 (listener_world e wc) ll w2 (Ok p) ->
    run_trace fuel e w0
      (lc ++ listener_events e ++ running :: ll
          ++ Poll (_stop_requested (self (deliver e w2)))
          :: closing_status (_stop_requested (self (deliver e w2)))
          :: teardown_events e (deliver e w2))
      (close (deliver e w2)) (Ok tt).

(** ** C1: the click counter *)

(** Each value is greater than the one before it, the first greater
    than [p]. *)
Fixpoint ascending (p : Z) (vs : list Z) : Prop :=
  match vs with
  | [] => True
  | v :: vs' => p < v /\ ascending v vs'
  end.

(** What [MainWindow.validate_inputs] lets through: an interval of at
    least 1 ms and, unless the run is continuous, a count of at least 1. *)
Definition valid_plan (s : ClickWorker) : Prop :=
  1 <= interval_ms s /\
  match total_clicks s with Some n => 1 <= n | None => True end.

(** The log, the final world and the outcome of a run on the worker [s].
    With a budget of [fuel] rounds the log of a run that is still going is
    the log of its first [fuel] rounds. *)
Definition log (fuel : nat) (e : Env) (s : ClickWorker) : list event :=
  fst (fst (exec fuel e s)).

Definition final (fuel : nat) (e : Env) (s : ClickWorker) : World :=
  snd (fst (exec fuel e s)).

Definition outcome (fuel : nat) (e : Env) (s : ClickWorker) : result unit :=
  snd (exec fuel e s).

Definition plan_left3 : ClickWorker :=
  configure 20 "Left" (Some 3) false "follow" None init.

(** ** Driver calls and progress signals come from the loop only *)

Definition is_action (ev : event) : bool := is_driver ev || is_progress ev.

Definition no_action (l : list event) : Prop :=
  Forall (fun ev => is_action ev = false) l.

(** ** C7: where the pointer is sent *)

(** The driver calls of a log, in order. *)
Definition driver_calls (l : list event) : list event := filter is_driver l.

(** Every click comes straight after a move to [pos], and the driver is
    asked for nothing else; a last move may stand alone (it raised). *)
Fixpoint moved_then_clicked (pos : Z * Z) (calls : list event) : Prop :=
  match calls with
  | [] => True
  | [MoveTo p] => p = pos
  | MoveTo p :: Click _ _ :: rest => p = pos /\ moved_then_clicked pos rest
  | _ => False
  end.

Definition plan_fixed2 : ClickWorker :=
  configure 25 "Left" (Some 2) true "fixed" (Some (-3, 40)) init.

(** ** Signals that come from outside the loop *)

(** What the loop may emit. *)
Definition loop_event (ev : event) : Prop :=
  match ev with
  | Poll _ | MoveTo _ | Click _ _ | Progress _ | Sleep _ => True
  | _ => False
  end.

(** ** C10: how often [finished] is emitted *)

(** The countdown is cancelled: it is switched on and a stop request is
    in by its last check, two seconds into the run. *)
Definition countdown_cancelled (e : Env) (s : ClickWorker) : bool :=
  countdown s && requested_by e (countdown_tick + countdown_tick).

Definition is_start_aborted (ev : event) : bool :=
  match ev with
  | Status msg => (msg =? "Start aborted.")%string
  | _ => false
  end.

Definition stop_after (t : time) : Env :=
  {| stop_at := Some t;
     move_call := fun _ => (0, None);
     click_call := fun _ => (0, None);
     listener_new := None;
     listener_start := None;
     listener_stop := None |}.

(** ** C9: the key listener is stopped on every way out *)

(** Is there, after the events [l], a listener object that has been
    created and not yet been told to stop?  [held] is the answer before
    [l]. *)
Fixpoint listener_open (held : bool) (l : list event) : bool :=
  match l with
  | [] => held
  | ListenerNew true :: l' => listener_open true l'
  | ListenerStop _ :: l' => listener_open false l'
  | _ :: l' => listener_open held l'
  end.

Definition listener_free (ev : event) : Prop :=
  match ev with
  | ListenerNew _ | ListenerStart _ | ListenerStop _ => False
  | _ => True
  end.

Definition stop_events (e : Env) (w : World) : list event :=
  match _kb_listener (self w) with
  | Some _ =>
      [ListenerStop (match listener_stop e with None => true | Some _ => false end)]
  | None => []
  end.

(** A driver whose third click raises. *)
Definition third_click_fails : Env :=
  {| stop_at := None;
     move_call := fun _ => (0, None);
     click_call := fun k => (0, if Nat.eqb k 2 then Some "access denied"%string else None);
     listener_new := None;
     listener_start := None;
     listener_stop := None |}.

Definition plan_left10 : ClickWorker :=
  configure 20 "Left" (Some 10) false "follow" None init.

(** ** C2: double clicks *)

Definition is_click_or_progress (ev : event) : bool :=
  is_click ev || is_progress ev.

(** The clicks of the next action in mode "Double (left)", with [p]
    clicks performed so far. *)
Definition double_width (total : option Z) (p : Z) : Z :=
  match total with
  | Some n => if 2 <=? n - p then 2 else 1
  | None => 2
  end.

(** A sequence of click calls and progress signals is that of a run in
    mode "Double (left)" with [p] clicks performed before it: every call
    asks the left button for [double_width total] clicks and, unless it
    is the last call and raised, is followed by the progress signal of
    the counter so increased. *)
Fixpoint double_clicks (total : option Z) (p : Z) (l : list event) : Prop :=
  match l with
  | [] => True
  | [Click b c] => b = ButtonLeft /\ c = double_width total p
  | Click b c :: Progress v :: rest =>
      b = ButtonLeft /\ c = double_width total p /\ v = p + c /\
      double_clicks total v rest
  | _ => False
  end.

Definition plan_double5 : ClickWorker :=
  configure 20 "Double (left)" (Some 5) false "follow" None init.

(** ** C3: a driver call that raises *)

(** The clicks of an action while at least two remain. *)
Definition clicks_per_action (m : string) : Z :=
  if (m =? "Double (left)")%string then 2 else 1.

(** Does the move, or the click, of the action number [k] (from 0)
    raise? *)
Definition move_raises (e : Env) (s : ClickWorker) (k : nat) : bool :=
  match fixed_target s, snd (move_call e k) with
  | Some _, Some _ => true
  | _, _ => false
  end.

Definition click_raises (e : Env) (k : nat) : bool :=
  match snd (click_call e k) with Some _ => true | None => false end.

Definition action_raises (e : Env) (s : ClickWorker) (k : nat) : bool :=
  move_raises e s k || click_raises e k.

(** ** C8: a listener that cannot be installed *)

Definition is_running (ev : event) : bool :=
  match ev with
  | Status msg => (msg =? "Running (ESC to stop)…")%string
  | _ => false
  end.

(** An environment in which the keyboard hook cannot be created. *)
Definition no_hook : Env :=
  {| stop_at := None;
     move_call := fun _ => (0, None);
     click_call := fun _ => (0, None);
     listener_new := Some (mkExn OtherException "hook refused");
     listener_start := None;
     listener_stop := None |}.

(** ** C4: cancelling before the countdown is over *)

(** A stop request that comes in during the last tick of the countdown,
    and a keyboard hook that cannot be created. *)
Definition late_stop_no_hook : Env :=
  {| stop_at := Some (2500 * ns_per_ms);
     move_call := fun _ => (0, None);
     click_call := fun _ => (0, None);
     listener_new := Some (mkExn OtherException "hook refused");
     listener_start := None;
     listener_stop := None |}.

(** ** C5: the sleep of a countdown tick *)

(** The number of whole ticks that have begun by the instant [T]. *)
Definition ticks_until (T : time) : Z :=
  (T + countdown_tick - 1) / countdown_tick.

(** ** C6: how fast a stop request is seen *)

(** A sleep of at most one quantum. *)
Definition quantum_sleep (ev : event) : Prop :=
  match ev with
  | Sleep d => 0 < d <= poll_quantum
  | _ => True
  end.

(** The events of a log after the status "Running". *)
Fixpoint run_phase (l : list event) : list event :=
  match l with
  | [] => []
  | ev :: l' => if is_running ev then l' else run_phase l'
  end.

(** The instant at which the run loop starts: the end of the countdown,
    or the start of the run. *)
Definition loop_start (s : ClickWorker) : time :=
  if countdown s then 3 * countdown_tick else 0.

(** ** Further readings of a log *)

(** The clicks the driver was asked for, added up over the click calls. *)
Fixpoint click_total (l : list event) : Z :=
  match l with
  | [] => 0
  | Click _ c :: l' => c + click_total l'
  | _ :: l' => click_total l'
  end.


(** A click call for one click of the button [b]; any other event
    passes. *)
Definition single_click (b : Button) (ev : event) : Prop :=
  match ev with
  | Click b' c => b' = b /\ c = 1
  | _ => True
  end.

(** A status of the countdown, "Starting in ...". *)
Definition is_starting (ev : event) : bool :=
  match ev with
  | Status msg => prefix "Starting in " msg
  | _ => false
  end.

Definition is_listener_new (ev : event) : bool :=
  match ev with ListenerNew _ => true | _ => false end.

Definition is_listener (ev : event) : bool :=
  match ev with
  | ListenerNew _ | ListenerStart _ | ListenerStop _ => true
  | _ => false
  end.

(** The events of a log after the first creation of a listener. *)
Fixpoint from_listener (l : list event) : list event :=
  match l with
  | [] => []
  | ev :: l' => if is_listener_new ev then l' else from_listener l'
  end.

(** ** Further plans *)

Definition plan_right7 : ClickWorker :=
  configure 5 "Right" (Some 7) true "fixed" (Some (10, -20)) init.

Definition plan_continuous : ClickWorker :=
  configure 5 "Double (left)" None false "follow" None init.

Definition plan_unknown_mode : ClickWorker :=
  configure 5 "Middle" (Some 2) false "follow" None init.

Definition plan_fixed_no_point : ClickWorker :=
  configure 5 "Left" (Some 2) false "fixed" None init.

(** * The coordinates HUD *)

(** The available geometry of a screen, by the edges [CoordHUD._tick]
    reads: [geom.left()], [geom.top()], [geom.right()], [geom.bottom()]. *)
Record Geometry := mkGeometry {
  geom_left : Z;
  geom_top : Z;
  geom_right : Z;
  geom_bottom : Z
}.

(** [CoordHUD._tick]: from the cursor position, the geometry of its
    screen and the metrics of the font (the advance of the text and the
    height of a line), the text shown and the geometry [(x, y, w, h)] the
    HUD is given. *)
Definition _tick (pos : Z * Z) (geom : Geometry)
    (horizontalAdvance : string -> Z) (height : Z)
    : string * (Z * Z * Z * Z) :=
  let text := ("X: " ++ repr_int (fst pos) ++ "  Y: " ++ repr_int (snd pos))%string in
  let pad := 8 in
  let w := horizontalAdvance text + pad * 2 in
  let h := height + pad * 2 in
  let x := fst pos + 18 in
  let y := snd pos + 18 in
  let x := if x + w >? geom_right geom then geom_right geom - w else x in
  let y := if y + h >? geom_bottom geom then geom_bottom geom - h else y in
  let x := if x <? geom_left geom then geom_left geom else x in
  let y := if y <? geom_top geom then geom_top geom else y in
  (text, (x, y, w, h)).

(** * The main window *)

(** What the window asks the desktop when a run is started: the name of
    the platform, the handle of the foreground window ([0] for none), its
    rectangle ([None] when [GetWindowRect] fails) and the centre of the
    screen under the cursor as Qt gives it. *)
Record RECT := mkRECT {
  rect_left : Z;
  rect_top : Z;
  rect_right : Z;
  rect_bottom : Z
}.

Record Desktop := mkDesktop {
  platform_system : string;
  foreground_window : Z;
  window_rect : option RECT;
  screen_center : Z * Z
}.

(** A message box, with its title and its text. *)
Inductive MessageBox :=
| WarningBox (title text : string)
| CriticalBox (title text : string).

(** The widgets of [MainWindow] that the start of a run and the slots of
    the worker's signals read or write: the values of the boxes, the
    checks, the text and the property "state" of the status label (the
    empty string when the property is not set), the text of the count
    label, whether the two buttons are enabled, the worker, and the
    message boxes shown so far. *)
Record MainWindow := mkMainWindow {
  interval_box : Z;
  mode_box : string;
  count_box : Z;
  continuous_chk : bool;
  countdown_chk : bool;
  follow_radio : bool;
  fixed_radio : bool;
  screen_center_radio : bool;
  win_center_radio : bool;
  x_box : Z;
  y_box : Z;
  status_lbl : string * string;
  perf_lbl : string;
  start_btn : bool;
  stop_btn : bool;
  worker : option ClickWorker;
  boxes : list MessageBox
}.

(** [MainWindow._current_screen_center]. *)
Definition _current_screen_center (d : Desktop) : Z * Z := screen_center d.

(** [MainWindow._active_window_center_windows]; [//] is the division that
    rounds down. *)
Definition _active_window_center_windows (d : Desktop) : option (Z * Z) :=
  if negb (platform_system d =? "Windows")%string then None
  else if foreground_window d =? 0 then None
  else
    match window_rect d with
    | None => None
    | Some rect =>
        let cx := (rect_left rect + rect_right rect) / 2 in
        let cy := (rect_top rect + rect_bottom rect) / 2 in
        Some (cx, cy)
    end.

(** [MainWindow.validate_inputs]. *)
Definition validate_inputs (win : MainWindow) : option string :=
  if interval_box win <? 1 then Some "Interval must be at least 1 ms."%string
  else if negb (continuous_chk win) && (count_box win <? 1)
  then Some "Number of clicks must be at least 1."%string
  else if fixed_radio win
          && ((Z.abs (x_box win) >? 20000) || (Z.abs (y_box win) >? 20000))
  then Some "X/Y seem out of range (±20000)."%string
  else None.

(** [MainWindow._set_status]. *)
Definition _set_status (text state : string) (win : MainWindow) : MainWindow :=
  {| interval_box := interval_box win;
     mode_box := mode_box win;
     count_box := count_box win;
     continuous_chk := continuous_chk win;
     countdown_chk := countdown_chk win;
     follow_radio := follow_radio win;
     fixed_radio := fixed_radio win;
     screen_center_radio := screen_center_radio win;
     win_center_radio := win_center_radio win;
     x_box := x_box win;
     y_box := y_box win;
     status_lbl := (("Status: " ++ text)%string, state);
     perf_lbl := perf_lbl win;
     start_btn := start_btn win;
     stop_btn := stop_btn win;
     worker := worker win;
     boxes := boxes win |}.

Definition set_perf_lbl (text : string) (win : MainWindow) : MainWindow :=
  {| interval_box := interval_box win;
     mode_box := mode_box win;
     count_box := count_box win;
     continuous_chk := continuous_chk win;
     countdown_chk := countdown_chk win;
     follow_radio := follow_radio win;
     fixed_radio := fixed_radio win;
     screen_center_radio := screen_center_radio win;
     win_center_radio := win_center_radio win;
     x_box := x_box win;
     y_box := y_box win;
     status_lbl := status_lbl win;
     perf_lbl := text;
     start_btn := start_btn win;
     stop_btn := stop_btn win;
     worker := worker win;
     boxes := boxes win |}.

(** [MainWindow._toggle_controls], for the two buttons; the input
    widgets that it also enables or disables have no flag in the record. *)
Definition _toggle_controls (running : bool) (win : MainWindow) : MainWindow :=
  {| interval_box := interval_box win;
     mode_box := mode_box win;
     count_box := count_box win;
     continuous_chk := continuous_chk win;
     countdown_chk := countdown_chk win;
     follow_radio := follow_radio win;
     fixed_radio := fixed_radio win;
     screen_center_radio := screen_center_radio win;
     win_center_radio := win_center_radio win;
     x_box := x_box win;
     y_box := y_box win;
     status_lbl := status_lbl win;
     perf_lbl := perf_lbl win;
     start_btn := negb running;
     stop_btn := running;
     worker := worker win;
     boxes := boxes win |}.

Definition set_worker (w : option ClickWorker) (win : MainWindow) : MainWindow :=
  {| interval_box := interval_box win;
     mode_box := mode_box win;
     count_box := count_box win;
     continuous_chk := continuous_chk win;
     countdown_chk := countdown_chk win;
     follow_radio := follow_radio win;
     fixed_radio := fixed_radio win;
     screen_center_radio := screen_center_radio win;
     win_center_radio := win_center_radio win;
     x_box := x_box win;
     y_box := y_box win;
     status_lbl := status_lbl win;
     perf_lbl := perf_lbl win;
     start_btn := start_btn win;
     stop_btn := stop_btn win;
     worker := w;
     boxes := boxes win |}.

Definition show_box (b : MessageBox) (win : MainWindow) : MainWindow :=
  {| interval_box := interval_box win;
     mode_box := mode_box win;
     count_box := count_box win;
     continuous_chk := continuous_chk win;
     countdown_chk := countdown_chk win;
     follow_radio := follow_radio win;
     fixed_radio := fixed_radio win;
     screen_center_radio := screen_center_radio win;
     win_center_radio := win_center_radio win;
     x_box := x_box win;
     y_box := y_box win;
     status_lbl := status_lbl win;
     perf_lbl := perf_lbl win;
     start_btn := start_btn win;
     stop_btn := stop_btn win;
     worker := worker win;
     boxes := boxes win ++ [b] |}.

(** The target mode and position that [start_clicking] resolves from the
    radio buttons. *)
Definition resolve_target (d : Desktop) (win : MainWindow)
    : string * option (Z * Z) :=
  if fixed_radio win then ("fixed"%string, Some (x_box win, y_box win))
  else if screen_center_radio win
  then ("fixed"%string, Some (_current_screen_center d))
  else if win_center_radio win then
    match _active_window_center_windows d with
    | Some win_center => ("fixed"%string, Some win_center)
    | None => ("fixed"%string, Some (_current_screen_center d))
    end
  else ("follow"%string, None).

(** The worker that [start_clicking] creates and configures. *)
Definition new_worker (d : Desktop) (win : MainWindow) : ClickWorker :=
  let interval_ms := interval_box win in
  let mode := mode_box win in
  let total_clicks :=
    if continuous_chk win then None else Some (count_box win) in
  let countdown := countdown_chk win in
  configure interval_ms mode total_clicks countdown
    (fst (resolve_target d win)) (snd (resolve_target d win)) init.

(** [MainWindow.start_clicking].  The thread that it creates and starts
    is the one [run] is executed on; the window's record does not keep
    it. *)
Definition start_clicking (d : Desktop) (win : MainWindow) : MainWindow :=
  match validate_inputs win with
  | Some err => show_box (WarningBox "Invalid input" err) win
  | None =>
      _toggle_controls true
        (set_perf_lbl "Clicks performed: 0"
           (_set_status "Arming…" "running"
              (set_worker (Some (new_worker d win)) win)))
  end.

(** [str.lower] on the letters A to Z.  Python also maps letters outside
    ASCII, but none of them to a letter of "stop", "completed" or "error",
    so the three tests of [on_status] come out the same. *)
Definition lower_ascii (c : Ascii.ascii) : Ascii.ascii :=
  let n := Ascii.nat_of_ascii c in
  if ((65 <=? n) && (n <=? 90))%nat then Ascii.ascii_of_nat (n + 32) else c.

Fixpoint lower (s : string) : string :=
  match s with
  | EmptyString => EmptyString
  | String c s' => String (lower_ascii c) (lower s')
  end.

(** Python's [sub in s] on strings. *)
Fixpoint contains (sub s : string) : bool :=
  prefix sub s
  || match s with
     | EmptyString => false
     | String _ s' => contains sub s'
     end.

(** [MainWindow.on_progress]. *)
Definition on_progress (performed : Z) (win : MainWindow) : MainWindow :=
  set_perf_lbl ("Clicks performed: " ++ repr_int performed) win.

(** [MainWindow.on_status]. *)
Definition on_status (msg : string) (win : MainWindow) : MainWindow :=
  let current_state :=
    if (snd (status_lbl win) =? EmptyString)%string then "idle"%string
    else snd (status_lbl win) in
  let m := lower msg in
  if contains "stop" m || contains "completed" m
  then _set_status msg "stopped" win
  else if contains "error" m
  then _set_status msg "error" win
  else _set_status msg
         (if (current_state =? "running")%string
             || (current_state =? "idle")%string
          then "running"%string else current_state)
         win.

(** [MainWindow.on_error]; the box is recorded when it is shown. *)
Definition on_error (msg : string) (win : MainWindow) : MainWindow :=
  show_box (CriticalBox "Error" msg) (_set_status msg "error" win).

(** [MainWindow.on_finished]; the thread is quit and dropped with the
    worker. *)
Definition on_finished (win : MainWindow) : MainWindow :=
  let win := set_worker None (_toggle_controls false win) in
  if negb ((snd (status_lbl win) =? "stopped")%string
           || (snd (status_lbl win) =? "error")%string)
  then _set_status "Idle." "idle" win
  else win.

(** The slot that a signal of the worker is connected to; what is not a
    signal does not reach the window. *)
Definition slot (ev : event) (win : MainWindow) : MainWindow :=
  match ev with
  | Progress performed => on_progress performed win
  | Status msg => on_status msg win
  | Error msg => on_error msg win
  | Finished => on_finished win
  | _ => win
  end.

(** The window after the signals of a log have been delivered, in the
    order in which they were emitted. *)
Definition deliver_signals (l : list event) (win : MainWindow) : MainWindow :=
  fold_left (fun win ev => slot ev win) l win.

(** The status that the [on_press] callback of the key listener emits
    itself, on the listener's thread, when ESC is pressed.  It is no event
    of [run], and reaches the window somewhere among the signals of the
    run. *)
Definition is_key_press (ev : event) : bool :=
  match ev with
  | Status msg => (msg =? "Panic stop requested (ESC).")%string
  | _ => false
  end.

(** What is left of the signals that the window was sent when those of
    the key listener are taken out. *)
Definition without_key_presses (l : list event) : list event :=
  filter (fun ev => negb (is_key_press ev)) l.

(** The property "state" of the status label. *)
Definition status_state (win : MainWindow) : string := snd (status_lbl win).

(** A window with the settings of a first start, and a desktop. *)
Definition default_window : MainWindow :=
  {| interval_box := 100; mode_box := "Left"; count_box := 100;
     continuous_chk := false; countdown_chk := true;
     follow_radio := true; fixed_radio := false;
     screen_center_radio := false; win_center_radio := false;
     x_box := 0; y_box := 0;
     status_lbl := ("Status: Idle."%string, "idle"%string);
     perf_lbl := "Clicks performed: 0";
     start_btn := true; stop_btn := false;
     worker := None; boxes := [] |}.

Definition window_center_window : MainWindow :=
  {| interval_box := 5; mode_box := "Left"; count_box := 2;
     continuous_chk := false; countdown_chk := false;
     follow_radio := false; fixed_radio := false;
     screen_center_radio := false; win_center_radio := true;
     x_box := 0; y_box := 0;
     status_lbl := ("Status: Idle."%string, "idle"%string);
     perf_lbl := "Clicks performed: 0";
     start_btn := true; stop_btn := false;
     worker := None; boxes := [] |}.

Definition windows_desktop : Desktop :=
  {| platform_system := "Windows";
     foreground_window := 66052;
     window_rect := Some (mkRECT (-1280) 100 (-639) 501);
     screen_center := (959, 519) |}.

Definition linux_desktop : Desktop :=
  {| platform_system := "Linux";
     foreground_window := 0;
     window_rect := None;
     screen_center := (959, 519) |}.

(** * Properties *)

(** ** The methods, one call at a time *)

Tactic Notation "unfold_m" :=
  unfold bind, ret, raise, pending, emit, get, modify, try_except,
    try_finally, poll, perf_counter, sleep.

Tactic Notation "unfold_m" "in" hyp(H) :=
  unfold bind, ret, raise, pending, emit, get, modify, try_except,
    try_finally, poll, perf_counter, sleep in H.

Lemma move_to_target_eq (e : Env) (w : World) :
  _move_to_target_if_needed e w =
  match fixed_target (self w) with
  | None => ([], w, Ok tt)
  | Some pos =>
      ([MoveTo pos],
       advance (fst (move_call e (n_moves w))) (count_move w),
       match snd (move_call e (n_moves w)) with
       | None => Ok tt
       | Some s => Raised (mkExn RuntimeError (move_failure_text pos s))
       end)
  end.
Proof.
  unfold _move_to_target_if_needed, fixed_target, mouse_set_position.
  unfold_m; simpl.
  destruct (target_pos (self w)) as [pos|]; [|reflexivity].
  destruct (target_mode (self w) =? "fixed")%string; [|reflexivity].
  destruct (move_call e (n_moves w)) as [d [s|]]; reflexivity.
Qed.

Lemma click_once_eq (e : Env) (remaining : Z) (w : World) :
  _click_once e remaining w =
  ([Click (click_button (mode (self w))) (click_width (mode (self w)) remaining)],
   advance (fst (click_call e (n_clicks w))) (count_click w),
   match snd (click_call e (n_clicks w)) with
   | None => Ok (click_width (mode (self w)) remaining)
   | Some s => Raised (mkExn RuntimeError s)
   end).
Proof.
  unfold _click_once, click_button, click_width, mouse_click.
  unfold_m; simpl.
  destruct (mode (self w) =? "Left")%string eqn:HL.
  - apply String.eqb_eq in HL; rewrite HL; simpl.
    destruct (click_call e (n_clicks w)) as [d [s|]]; reflexivity.
  - destruct (mode (self w) =? "Right")%string eqn:HR.
    + apply String.eqb_eq in HR; rewrite HR; simpl.
      destruct (click_call e (n_clicks w)) as [d [s|]]; reflexivity.
    + destruct (mode (self w) =? "Double (left)")%string;
        destruct (click_call e (n_clicks w)) as [d [s|]]; reflexivity.
Qed.

Lemma click_width_pos (m : string) (remaining : Z) :
  1 <= click_width m remaining <= 2.
Proof.
  unfold click_width.
  destruct (m =? "Double (left)")%string; [destruct (2 <=? remaining)|]; lia.
Qed.

Lemma click_width_le (m : string) (remaining : Z) :
  1 <= remaining -> click_width m remaining <= remaining.
Proof.
  unfold click_width; intros.
  destruct (m =? "Double (left)")%string; [destruct (2 <=? remaining) eqn:E|]; lia.
Qed.

Lemma start_keyboard_listener_eq (e : Env) (w : World) :
  _start_keyboard_listener e w =
  (listener_events e, listener_world e w,
   match listener_failure e with Some x => Raised x | None => Ok tt end).
Proof.
  unfold _start_keyboard_listener, listener_events, listener_world,
    listener_failure.
  destruct (listener_new e); [reflexivity|].
  destruct (listener_start e); reflexivity.
Qed.

Lemma teardown_eq (e : Env) (w : World) :
  teardown e w =
  (teardown_events e w, with_self (set_kb_listener None) w, Ok tt).
Proof.
  unfold teardown, teardown_events, _stop_keyboard_listener.
  unfold_m; simpl.
  destruct (_kb_listener (self w)); [|reflexivity].
  destruct (listener_stop e); reflexivity.
Qed.

(** ** The wait between two actions *)

Lemma idles_refl (e : Env) (w : World) : idles e w w.
Proof. unfold idles; intuition lia. Qed.

Lemma request_stop_idem (s : ClickWorker) :
  request_stop (request_stop s) = request_stop s.
Proof. reflexivity. Qed.

Lemma requested_by_mono (e : Env) (t t' : time) :
  t <= t' -> requested_by e t = true -> requested_by e t' = true.
Proof.
  unfold requested_by; destruct (stop_at e) as [T|]; [|easy].
  intros Ht H. apply andb_true_iff in H as [H0 H1].
  apply andb_true_iff; split; [assumption|].
  apply Z.leb_le in H1. apply Z.leb_le. lia.
Qed.

Lemma idles_trans (e : Env) (w1 w2 w3 : World) :
  idles e w1 w2 -> idles e w2 w3 -> idles e w1 w3.
Proof.
  unfold idles.
  intros (Hm1 & Hc1 & Ht1 & Hs1) (Hm2 & Hc2 & Ht2 & Hs2).
  repeat split; try congruence; try lia.
  destruct Hs2 as [Hs2 | [Hs2 Hr2]].
  - destruct Hs1 as [Hs1 | [Hs1 Hr1]].
    + left; congruence.
    + right; split; [congruence|].
      eapply requested_by_mono; eassumption.
  - right; split; [|assumption].
    destruct Hs1 as [Hs1 | [Hs1 _]]; rewrite Hs2, Hs1; reflexivity.
Qed.

Lemma idles_deliver (e : Env) (w : World) : idles e w (deliver e w).
Proof.
  unfold deliver, idles.
  destruct (requested_by e (clock w)) eqn:Hr; simpl; intuition lia.
Qed.

Lemma idles_advance (e : Env) (d : time) (w : World) :
  0 <= d -> idles e w (advance d w).
Proof. unfold idles; simpl; intuition lia. Qed.

Lemma poll_quantum_pos : 0 < poll_quantum.
Proof. reflexivity. Qed.

Lemma wait_loop_spec (e : Env) (target : time) (n : nat) :
  forall w l w' r,
    wait_loop n e target w = (l, w', r) ->
    Forall wait_event l /\ idles e w w' /\ (forall x, r <> Raised x).
Proof.
  induction n as [|n IH]; intros w l w' r H.
  - simpl in H. unfold_m in H. inversion H; subst.
    split; [constructor|]. split; [apply idles_refl | discriminate].
  - simpl in H. unfold_m in H. simpl in H.
    destruct (_stop_requested (self (deliver e w))) eqn:Hflag.
    + inversion H; subst; simpl.
      split; [repeat constructor|].
      split; [apply idles_deliver | discriminate].
    + simpl in H.
      destruct (target <=? clock (deliver e w)) eqn:Ht.
      * inversion H; subst; simpl.
        split; [repeat constructor|].
        split; [apply idles_deliver | discriminate].
      * simpl in H.
        apply Z.leb_gt in Ht.
        set (d := Z.min poll_quantum (target - clock (deliver e w))) in *.
        destruct (wait_loop n e target (advance d (deliver e w)))
          as [[l2 w2] r2] eqn:Hrec.
        apply IH in Hrec as (Hl & Hi & Hr).
        assert (Hd : 0 < d <= poll_quantum)
          by (pose proof poll_quantum_pos; unfold d; lia).
        inversion H; subst; simpl.
        split; [|split].
        -- constructor; [exact I|]. constructor; [exact Hd|]. exact Hl.
        -- eapply idles_trans; [apply idles_deliver|].
           eapply idles_trans; [apply (idles_advance e (d:=d)); lia|]. exact Hi.
        -- exact Hr.
Qed.

(** The loop is over within [n] rounds when the time left fits in
    [n - 1] quanta. *)
Lemma wait_loop_returns (e : Env) (target : time) (n : nat) :
  forall w,
    (1 <= n)%nat ->
    target - clock w <= (Z.of_nat n - 1) * poll_quantum ->
    snd (wait_loop n e target w) <> Pending.
Proof.
  induction n as [|n IH]; intros w Hn Hfit; [lia|].
  simpl. unfold_m. simpl.
  destruct (_stop_requested (self (deliver e w))); [discriminate|].
  simpl.
  assert (Hclock : clock (deliver e w) = clock w).
  { unfold deliver. destruct (requested_by e (clock w)); reflexivity. }
  destruct (target <=? clock (deliver e w)) eqn:Ht; [discriminate|].
  simpl. apply Z.leb_gt in Ht.
  set (d := Z.min poll_quantum (target - clock (deliver e w))).
  specialize (IH (advance d (deliver e w))).
  destruct (wait_loop n e target (advance d (deliver e w)))
    as [[l2 w2] r2] eqn:Hrec.
  simpl in IH |- *.
  pose proof poll_quantum_pos as Hq.
  assert (Hn' : (1 <= n)%nat) by nia.
  assert (Hfit' : target - (clock (deliver e w) + d)
                  <= (Z.of_nat n - 1) * poll_quantum).
  { unfold d. rewrite Hclock in *.
    destruct (Z.min_spec poll_quantum (target - clock w)) as [[_ Hm]|[_ Hm]];
      rewrite Hm; nia. }
  specialize (IH Hn' Hfit').
  destruct r2; try discriminate; congruence.
Qed.

Lemma wait_rounds_fit (interval_s : time) :
  (1 <= wait_rounds interval_s)%nat /\
  interval_s <= (Z.of_nat (wait_rounds interval_s) - 1) * poll_quantum.
Proof.
  unfold wait_rounds. split; [lia|].
  pose proof poll_quantum_pos as Hq.
  destruct (Z.le_gt_cases 0 interval_s) as [H|H].
  - rewrite Nat2Z.inj_add, Z2Nat.id by (apply Z.div_pos; assumption).
    pose proof (Z.div_mod interval_s poll_quantum ltac:(lia)).
    pose proof (Z.mod_pos_bound interval_s poll_quantum Hq).
    simpl Z.of_nat. nia.
  - rewrite Nat2Z.inj_add. simpl (Z.of_nat 2).
    pose proof (Zle_0_nat (Z.to_nat (interval_s / poll_quantum))). nia.
Qed.

Lemma interruptible_wait_spec (e : Env) (interval_s : time) (w : World) :
  forall l w' r,
    interruptible_wait e interval_s w = (l, w', r) ->
    r = Ok tt /\ Forall wait_event l /\ idles e w w'.
Proof.
  intros l w' r H.
  unfold interruptible_wait in H. unfold_m in H. simpl in H.
  destruct (wait_loop (wait_rounds interval_s) e (clock w + interval_s) w)
    as [[l2 w2] r2] eqn:Hw.
  pose proof (wait_loop_spec _ _ _ _ Hw) as (Hl & Hi & Hr).
  pose proof (wait_rounds_fit interval_s) as [Hn Hfit].
  pose proof (@wait_loop_returns e (clock w + interval_s) _ w Hn
                ltac:(lia)) as Hp.
  rewrite Hw in Hp; simpl in Hp.
  inversion H; subst.
  destruct r as [[]| |]; [auto | exfalso; eapply Hr; reflexivity | congruence].
Qed.

(** ** The main loop, round by round *)

Lemma self_after_move (e : Env) (w : World) : self (after_move e w) = self w.
Proof. unfold after_move; destruct (fixed_target (self w)); reflexivity. Qed.

Lemma self_after_click (e : Env) (w : World) : self (after_click e w) = self w.
Proof. reflexivity. Qed.

Lemma move_to_target_eq' (e : Env) (w : World) :
  _move_to_target_if_needed e w =
  (move_events w, after_move e w,
   match move_failure e w with
   | None => Ok tt
   | Some s => Raised (mkExn RuntimeError s)
   end).
Proof.
  rewrite move_to_target_eq.
  unfold move_events, after_move, move_failure.
  destruct (fixed_target (self w)) as [pos|]; [|reflexivity].
  destruct (snd (move_call e (n_moves w))); reflexivity.
Qed.

Lemma run_loop_sound (e : Env) (interval_s : time) (fuel : nat) :
  forall p w l w' r,
    run_loop fuel e interval_s p w = (l, w', r) ->
    loop_run e interval_s fuel p w l w' r.
Proof.
  induction fuel as [|fuel IH]; intros p w l w' r H.
  - simpl in H. unfold_m in H. inversion H; subst. constructor.
  - simpl in H. unfold bind at 1 in H. unfold poll at 1 in H.
    destruct (_stop_requested (self (deliver e w))) eqn:Hflag.
    + unfold_m in H. simpl in H. inversion H; subst.
      constructor; assumption.
    + unfold bind at 1 in H. unfold get at 1 in H.
      fold (remaining_of (deliver e w) p) in H.
      fold (exhausted (deliver e w) p) in H.
      destruct (exhausted (deliver e w) p) eqn:Hex.
      * unfold_m in H. simpl in H. inversion H; subst.
        constructor; assumption.
      * unfold bind at 1 in H. rewrite move_to_target_eq' in H.
        destruct (move_failure e (deliver e w)) as [s|] eqn:Hmove.
        { simpl in H. inversion H; subst. constructor; assumption. }
        unfold bind at 1 in H. rewrite click_once_eq in H.
        fold (quota (deliver e w) p) in H.
        rewrite self_after_move in H.
        fold (produced_by (deliver e w) p) in H.
        fold (click_event (deliver e w) p) in H.
        fold (after_click e (after_move e (deliver e w))) in H.
        fold (click_failure e (after_move e (deliver e w))) in H.
        destruct (click_failure e (after_move e (deliver e w))) as [s|] eqn:Hclick.
        { simpl in H. inversion H; subst. constructor; assumption. }
        unfold bind at 1 in H. unfold emit at 1 in H.
        unfold bind at 1 in H.
        destruct (interruptible_wait e interval_s
                    (after_click e (after_move e (deliver e w))))
          as [[lw w4] rw] eqn:Hwait.
        pose proof (interruptible_wait_spec _ _ _ Hwait) as (-> & _ & _).
        destruct (run_loop fuel e interval_s
                    (p + produced_by (deliver e w) p) w4)
          as [[l5 w5] r5] eqn:Hrec.
        apply IH in Hrec.
        simpl in H. inversion H; subst.
        eapply loop_round; eassumption.
Qed.

(** ** The countdown *)

Lemma deliver_quiet (e : Env) (w : World) :
  requested_by e (clock w) = false -> deliver e w = w.
Proof. unfold deliver; intros ->; reflexivity. Qed.

Lemma deliver_requested (e : Env) (w : World) :
  requested_by e (clock w) = true -> deliver e w = with_self request_stop w.
Proof. unfold deliver; intros ->; reflexivity. Qed.

Lemma clock_deliver (e : Env) (w : World) : clock (deliver e w) = clock w.
Proof. unfold deliver; destruct (requested_by e (clock w)); reflexivity. Qed.

Lemma flag_deliver (e : Env) (w : World) :
  _stop_requested (self (deliver e w))
  = _stop_requested (self w) || requested_by e (clock w).
Proof.
  unfold deliver; destruct (requested_by e (clock w)); simpl;
    [rewrite orb_true_r | rewrite orb_false_r]; reflexivity.
Qed.

Lemma countdown_loop_cons (e : Env) (i : Z) (rest : list Z) (w : World) :
  countdown_loop e (i :: rest) w =
  if _stop_requested (self (deliver e w)) then
    (abort_events, deliver e w, Ok true)
  else
    let '(l, w', r) :=
      countdown_loop e rest (advance countdown_tick (deliver e w)) in
    (tick_events i ++ l, w', r).
Proof.
  cbn [countdown_loop]. unfold sleep. unfold_m.
  destruct (_stop_requested (self (deliver e w))); [reflexivity|].
  cbn [app].
  destruct (countdown_loop e rest (advance countdown_tick (deliver e w)))
    as [[l w'] r].
  reflexivity.
Qed.

(** The three ticks, by the instant of the stop request: the loop reads
    the flag at the start of the run and one and two seconds later. *)
Lemma countdown_loop_eq (e : Env) (w : World) :
  _stop_requested (self w) = false ->
  countdown_loop e [3; 2; 1] w =
  if requested_by e (clock w) then
    (abort_events, with_self request_stop w, Ok true)
  else if requested_by e (clock w + countdown_tick) then
    (tick_events 3 ++ abort_events,
     with_self request_stop (advance countdown_tick w), Ok true)
  else if requested_by e (clock w + countdown_tick + countdown_tick) then
    (tick_events 3 ++ tick_events 2 ++ abort_events,
     with_self request_stop (advance countdown_tick (advance countdown_tick w)),
     Ok true)
  else
    (tick_events 3 ++ tick_events 2 ++ tick_events 1,
     advance countdown_tick (advance countdown_tick (advance countdown_tick w)),
     Ok false).
Proof.
  intros Hflag.
  rewrite countdown_loop_cons.
  destruct (requested_by e (clock w)) eqn:H0.
  { rewrite (deliver_requested _ _ H0). reflexivity. }
  rewrite (deliver_quiet _ _ H0), Hflag.
  rewrite countdown_loop_cons.
  destruct (requested_by e (clock w + countdown_tick)) eqn:H1.
  { rewrite (@deliver_requested e (advance countdown_tick w) H1). reflexivity. }
  rewrite (@deliver_quiet e (advance countdown_tick w) H1).
  cbn [self advance]. rewrite Hflag.
  rewrite countdown_loop_cons.
  destruct (requested_by e (clock w + countdown_tick + countdown_tick)) eqn:H2.
  { rewrite (@deliver_requested e
               (advance countdown_tick (advance countdown_tick w)) H2).
    reflexivity. }
  rewrite (@deliver_quiet e
             (advance countdown_tick (advance countdown_tick w)) H2).
  cbn [self advance]. rewrite Hflag.
  reflexivity.
Qed.

(** ** The ways through [run] *)

Lemma countdown_part_eq (e : Env) (w : World) :
  _stop_requested (self w) = false ->
  (cd <- get countdown ;;
   if cd then countdown_loop e [3; 2; 1] else ret false) w
  = let '(l, w', b) := countdown_part e w in (l, w', Ok b).
Proof.
  intros Hflag. unfold countdown_part. unfold bind, get.
  destruct (countdown (self w)); cbn [negb].
  - rewrite (countdown_loop_eq e w Hflag).
    destruct (requested_by e (clock w)); [reflexivity|].
    destruct (requested_by e (clock w + countdown_tick)); [reflexivity|].
    destruct (requested_by e (clock w + countdown_tick + countdown_tick));
      reflexivity.
  - reflexivity.
Qed.

Lemma run_body_eq (fuel : nat) (e : Env) (w : World) :
  _stop_requested (self w) = false ->
  run_body fuel e w =
  let '(lc, wc, returned) := countdown_part e w in
  if returned then (lc, wc, Ok tt)
  else
    let '(l2, w2, r2) :=
      (_start_keyboard_listener e ;;;
       emit running ;;;
       ms <- get interval_ms ;;
       run_loop fuel e (Z.max min_interval (ms * ns_per_ms)) 0 ;;;
       stop <- poll e ;;
       if stop then emit (Status "Stopped by user.")
       else emit (Status "Completed.")) wc in
    (lc ++ l2, w2, r2).
Proof.
  intros Hflag. unfold run_body.
  unfold bind at 1. unfold get at 1.
  pose proof (countdown_part_eq e w Hflag) as Hc.
  unfold bind at 1 in Hc. unfold get at 1 in Hc.
  unfold bind at 1.
  destruct (countdown_part e w) as [[lc wc] returned].
  destruct ((if countdown (self w) then countdown_loop e [3; 2; 1]
             else ret false) w) as [[l1 w1] r1].
  cbn [app] in Hc |- *. inversion Hc; subst.
  destruct returned.
  - unfold ret. rewrite app_nil_r. reflexivity.
  - unfold running.
    set (rest := bind (_start_keyboard_listener e) _).
    destruct (rest wc) as [[l2 w2] r2]. reflexivity.
Qed.

Ltac norm_app := repeat (progress (rewrite <- ?app_assoc; cbn [app])).

Lemma handler_eq (x : exn) (w : World) :
  match exn_cls x with
  | RuntimeError => emit (Error ("Automation error: " ++ exn_str x)%string)
  | OtherException => emit (Error ("Unexpected error: " ++ exn_str x)%string)
  end w = ([Error (error_text x)], w, Ok tt).
Proof. unfold error_text; destruct (exn_cls x); reflexivity. Qed.

Lemma run_sound (fuel : nat) (e : Env) (w0 : World) :
  forall l w r, run fuel e w0 = (l, w, r) -> run_trace fuel e w0 l w r.
Proof.
  intros l w r H.
  unfold run in H. unfold bind at 1 in H. unfold modify at 1 in H.
  fold (reset w0) in H. fold (teardown e) in H.
  unfold try_finally, try_except in H.
  rewrite run_body_eq in H by reflexivity.
  destruct (countdown_part e (reset w0)) as [[lc wc] returned] eqn:Hcd.
  destruct returned.
  { rewrite teardown_eq in H. cbn [app] in H. inversion H; subst.
    apply run_aborted; assumption. }
  unfold bind at 1 in H. rewrite start_keyboard_listener_eq in H.
  destruct (listener_failure e) as [x|] eqn:Hlis.
  { rewrite handler_eq, teardown_eq in H. cbn [app] in H.
    inversion H; subst.
    norm_app.
    apply run_listener_failed; assumption. }
  unfold bind at 1 in H. unfold emit at 1 in H.
  unfold bind at 1 in H. unfold get at 1 in H.
  unfold bind at 1 in H.
  assert (Hint : interval_ms (self (listener_world e wc)) = interval_ms (self wc)).
  { unfold listener_world. destruct (listener_new e); reflexivity. }
  rewrite Hint in H. fold (interval_of (self wc)) in H.
  destruct (run_loop fuel e (interval_of (self wc)) 0 (listener_world e wc))
    as [[ll w2] r2] eqn:Hloop.
  apply run_loop_sound in Hloop.
  destruct r2 as [p|x|].
  - unfold bind at 1 in H. unfold poll at 1 in H.
    assert (Hfin : (if _stop_requested (self (deliver e w2))
                    then emit (Status "Stopped by user.")
                    else emit (Status "Completed.")) (deliver e w2)
                   = ([closing_status (_stop_requested (self (deliver e w2)))],
                      deliver e w2, Ok tt)).
    { unfold closing_status.
      destruct (_stop_requested (self (deliver e w2))); reflexivity. }
    rewrite Hfin in H. rewrite teardown_eq in H. cbn [app] in H.
    inversion H; subst.
    norm_app.
    eapply run_left; eassumption.
  - rewrite handler_eq, teardown_eq in H. cbn [app] in H.
    inversion H; subst.
    norm_app.
    eapply run_raised; eassumption.
  - cbn [app] in H. inversion H; subst.
    norm_app.
    eapply run_pending; eassumption.
Qed.

(** ** What the parts of a run leave in the log *)

Lemma progress_values_app (l1 l2 : list event) :
  progress_values (l1 ++ l2) = progress_values l1 ++ progress_values l2.
Proof.
  induction l1 as [|ev l1 IH]; [reflexivity|].
  destruct ev; simpl; rewrite IH; reflexivity.
Qed.

Lemma wait_no_progress (l : list event) :
  Forall wait_event l -> progress_values l = [].
Proof.
  induction 1 as [|ev l Hev _ IH]; [reflexivity|].
  destruct ev; simpl in *; try contradiction; assumption.
Qed.

Lemma wait_filter (f : event -> bool) (l : list event) :
  (forall ev, wait_event ev -> f ev = false) ->
  Forall wait_event l -> filter f l = [].
Proof.
  intros Hf. induction 1 as [|ev l Hev _ IH]; [reflexivity|].
  simpl. rewrite (Hf ev Hev). assumption.
Qed.

Lemma move_no_progress (e : Env) (w : World) :
  progress_values (move_events w) = [].
Proof. unfold move_events; destruct (fixed_target (self w)); reflexivity. Qed.

Lemma listener_no_progress (e : Env) : progress_values (listener_events e) = [].
Proof.
  unfold listener_events.
  destruct (listener_new e); [|destruct (listener_start e)]; reflexivity.
Qed.

Lemma teardown_no_progress (e : Env) (w : World) :
  progress_values (teardown_events e w) = [].
Proof. unfold teardown_events; destruct (_kb_listener (self w)); reflexivity. Qed.

(** The countdown leaves the plan, the listener and the driver alone, and
    signals no progress. *)
Lemma countdown_part_spec (e : Env) (w : World) :
  forall lc wc b,
    countdown_part e w = (lc, wc, b) ->
    idles e w wc /\
    progress_values lc = [] /\
    filter is_driver lc = [] /\
    filter is_error lc = [] /\
    count is_finished lc = (if b then 1 else 0)%nat /\
    (b = false -> _stop_requested (self wc) = _stop_requested (self w)).
Proof.
  intros lc wc b H. unfold countdown_part in H.
  assert (Htick : 0 <= countdown_tick) by (unfold countdown_tick, ns_per_s; lia).
  destruct (countdown (self w)); cbn [negb] in H.
  - destruct (requested_by e (clock w)) eqn:H0.
    { inversion H; subst. unfold idles; simpl. intuition lia. }
    destruct (requested_by e (clock w + countdown_tick)) eqn:H1.
    { inversion H; subst. unfold idles; simpl. intuition lia. }
    destruct (requested_by e (clock w + countdown_tick + countdown_tick)) eqn:H2.
    { inversion H; subst. unfold idles; simpl. intuition lia. }
    inversion H; subst. unfold idles; simpl. intuition lia.
  - inversion H; subst. unfold idles; simpl. intuition lia.
Qed.

Lemma idles_plan (e : Env) (w w' : World) :
  idles e w w' ->
  interval_ms (self w') = interval_ms (self w) /\
  mode (self w') = mode (self w) /\
  total_clicks (self w') = total_clicks (self w) /\
  countdown (self w') = countdown (self w) /\
  fixed_target (self w') = fixed_target (self w) /\
  _kb_listener (self w') = _kb_listener (self w).
Proof.
  intros (_ & _ & _ & [Hs | [Hs _]]); rewrite Hs; repeat split; reflexivity.
Qed.

Lemma idles_total (e : Env) (w w' : World) :
  idles e w w' -> total_clicks (self w') = total_clicks (self w).
Proof. intros H; apply (idles_plan H). Qed.

Lemma idles_mode (e : Env) (w w' : World) :
  idles e w w' -> mode (self w') = mode (self w).
Proof. intros H; apply (idles_plan H). Qed.

Lemma idles_target (e : Env) (w w' : World) :
  idles e w w' -> fixed_target (self w') = fixed_target (self w).
Proof. intros H; apply (idles_plan H). Qed.

Lemma idles_listener (e : Env) (w w' : World) :
  idles e w w' -> _kb_listener (self w') = _kb_listener (self w).
Proof. intros H; apply (idles_plan H). Qed.

Lemma idles_round (e : Env) (interval_s : time) (w w4 : World) (lw : list event) :
  interruptible_wait e interval_s (after_click e (after_move e (deliver e w)))
    = (lw, w4, Ok tt) ->
  Forall wait_event lw /\
  idles e (after_click e (after_move e (deliver e w))) w4 /\
  total_clicks (self w4) = total_clicks (self w) /\
  mode (self w4) = mode (self w) /\
  fixed_target (self w4) = fixed_target (self w) /\
  _kb_listener (self w4) = _kb_listener (self w).
Proof.
  intros H. apply interruptible_wait_spec in H as (_ & Hl & Hi).
  pose proof (idles_plan Hi) as (_ & Hm & Ht & _ & Hf & Hk).
  pose proof (idles_plan (idles_deliver e w)) as (_ & Hm' & Ht' & _ & Hf' & Hk').
  rewrite self_after_click, self_after_move in *.
  split; [assumption|]. split; [assumption|].
  repeat split; congruence.
Qed.

(** ** C1: the click counter *)

Lemma quota_bounded (w : World) (p n : Z) :
  total_clicks (self w) = Some n ->
  exhausted w p = false ->
  quota w p = n - p /\ 1 <= n - p.
Proof.
  unfold exhausted, quota, remaining_of. intros ->; simpl.
  intros H. apply Z.leb_gt in H. lia.
Qed.

Lemma loop_progress (e : Env) (interval_s : time) (fuel : nat) :
  forall p w l w' r,
    loop_run e interval_s fuel p w l w' r ->
    ascending p (progress_values l) /\
    (forall n, total_clicks (self w) = Some n -> p <= n ->
               Forall (fun v => v <= n) (progress_values l)).
Proof.
  intros p w l w' r H.
  induction H as [p w | fuel p w Hf | fuel p w Hf Hx | fuel p w s Hf Hx Hm
                 | fuel p w s Hf Hx Hm Hc
                 | fuel p w lw w4 l w' r Hf Hx Hm Hc Hw Hrec IH].
  - simpl; auto.
  - simpl; auto.
  - simpl; auto.
  - simpl. rewrite move_no_progress by exact e. simpl; auto.
  - simpl. rewrite progress_values_app, move_no_progress by exact e.
    simpl; auto.
  - destruct (idles_round _ _ _ Hw) as (Hlw & _ & Ht & _).
    destruct IH as [IHa IHb].
    simpl. rewrite progress_values_app, move_no_progress by exact e.
    simpl. rewrite progress_values_app, (wait_no_progress Hlw). simpl.
    pose proof (click_width_pos (mode (self (deliver e w)))
                  (quota (deliver e w) p)) as Hpos.
    fold (produced_by (deliver e w) p) in Hpos.
    split.
    + split; [lia | exact IHa].
    + intros n Hn Hp.
      assert (Hn' : total_clicks (self (deliver e w)) = Some n)
        by (rewrite (idles_total (idles_deliver e w)); exact Hn).
      destruct (quota_bounded _ _ Hn' Hx) as [Hq Hrem].
      pose proof (click_width_le (mode (self (deliver e w))) Hrem) as Hle.
      rewrite <- Hq in Hle. fold (produced_by (deliver e w) p) in Hle.
      constructor; [lia|].
      apply IHb; [congruence | lia].
Qed.

Lemma exec_trace (fuel : nat) (e : Env) (s : ClickWorker) :
  run_trace fuel e (start s) (log fuel e s) (final fuel e s) (outcome fuel e s).
Proof.
  unfold log, final, outcome, exec.
  destruct (run fuel e (start s)) as [[l w] r] eqn:H.
  apply run_sound; exact H.
Qed.

Lemma last_bounded (n d : Z) (vs : list Z) :
  d <= n -> Forall (fun v => v <= n) vs -> last vs d <= n.
Proof.
  intros Hd H. induction H as [|v vs Hv Hvs IH]; [exact Hd|].
  destruct vs; [exact Hv | exact IH].
Qed.

(** In the log of a run, the progress signals are those of its loop. *)
Lemma run_progress (fuel : nat) (e : Env) (w0 : World) (l : list event)
    (w : World) (r : result unit) :
  run_trace fuel e w0 l w r ->
  progress_values l = [] \/
  exists lc wc ll w2 rl,
    countdown_part e (reset w0) = (lc, wc, false) /\
    listener_failure e = None /\
    loop_run e (interval_of (self wc)) fuel 0 (listener_world e wc) ll w2 rl /\
    progress_values l = progress_values ll.
Proof.
  intros H.
  destruct H as [lc wc Hcd | lc wc x Hcd Hlis | lc wc ll w2 Hcd Hlis Hloop
                | lc wc ll w2 x Hcd Hlis Hloop | lc wc ll w2 p Hcd Hlis Hloop];
    pose proof (countdown_part_spec _ _ Hcd) as (_ & Hp & _).
  - left. rewrite progress_values_app, Hp, teardown_no_progress. reflexivity.
  - left. rewrite !progress_values_app, Hp, listener_no_progress. simpl.
    apply teardown_no_progress.
  - right. exists lc, wc, ll, w2, Pending. repeat (split; [assumption|]).
    rewrite !progress_values_app, Hp, listener_no_progress. reflexivity.
  - right. exists lc, wc, ll, w2, (Raised x). repeat (split; [assumption|]).
    rewrite !progress_values_app, Hp, listener_no_progress. simpl.
    rewrite progress_values_app. simpl.
    rewrite teardown_no_progress, app_nil_r. reflexivity.
  - right. exists lc, wc, ll, w2, (Ok p). repeat (split; [assumption|]).
    rewrite !progress_values_app, Hp, listener_no_progress. simpl.
    rewrite progress_values_app. simpl.
    rewrite teardown_no_progress, app_nil_r. reflexivity.
Qed.

Lemma total_at_loop (e : Env) (s : ClickWorker) (lc : list event) (wc : World)
    (b : bool) :
  countdown_part e (reset (start s)) = (lc, wc, b) ->
  total_clicks (self (listener_world e wc)) = total_clicks s /\
  mode (self (listener_world e wc)) = mode s /\
  fixed_target (self (listener_world e wc)) = fixed_target s.
Proof.
  intros H. apply countdown_part_spec in H as (Hi & _).
  pose proof (idles_plan Hi) as (_ & Hm & Ht & _ & Hf & _).
  unfold listener_world. destruct (listener_new e); simpl in *; auto.
Qed.

(** C1. In every run on a valid plan, each progress signal carries a value
    greater than the one before it (the first is greater than 0), and when
    the number of clicks is bounded by [n], no signalled value, the last
    one included, exceeds [n].  The budget [fuel] is arbitrary, so this
    holds at every point of a run, not only at its end. *)
Theorem performed_ascending_and_bounded (fuel : nat) (e : Env) (s : ClickWorker) :
  valid_plan s ->
  ascending 0 (progress_values (log fuel e s)) /\
  (forall n, total_clicks s = Some n ->
             Forall (fun v => v <= n) (progress_values (log fuel e s)) /\
             performed_of (log fuel e s) <= n).
Proof.
  intros [_ Hvalid].
  destruct (run_progress (exec_trace fuel e s))
    as [Hnone | (lc & wc & ll & w2 & rl & Hcd & _ & Hloop & Heq)].
  - unfold performed_of. rewrite Hnone. simpl. split; [exact I|].
    intros n Hn. rewrite Hn in Hvalid. split; [constructor | lia].
  - unfold performed_of. rewrite Heq.
    destruct (loop_progress Hloop) as [Hasc Hbound].
    split; [exact Hasc|].
    intros n Hn. rewrite Hn in Hvalid.
    destruct (total_at_loop _ _ Hcd) as (Ht & _).
    assert (Hall : Forall (fun v => v <= n) (progress_values ll))
      by (apply Hbound; [congruence | lia]).
    split; [exact Hall | apply last_bounded; [lia | exact Hall]].
Qed.

Lemma performed_ascending_and_bounded_witness :
  valid_plan plan_left3 /\
  ascending 0 (progress_values (log 5 quiet plan_left3)) /\
  (forall n, total_clicks plan_left3 = Some n ->
             Forall (fun v => v <= n) (progress_values (log 5 quiet plan_left3)) /\
             performed_of (log 5 quiet plan_left3) <= n).
Proof.
  assert (H : valid_plan plan_left3) by (unfold valid_plan; simpl; lia).
  split; [exact H|].
  exact (performed_ascending_and_bounded 5 quiet H).
Defined.

(** ** Driver calls and progress signals come from the loop only *)

Lemma filter_none (f g : event -> bool) (l : list event) :
  (forall ev, f ev = true -> g ev = true) ->
  Forall (fun ev => g ev = false) l -> filter f l = [].
Proof.
  intros Hfg. induction 1 as [|ev l Hev _ IH]; [reflexivity|].
  simpl. destruct (f ev) eqn:Hf; [|exact IH].
  apply Hfg in Hf. congruence.
Qed.

Lemma countdown_no_action (e : Env) (w : World) (lc : list event) (wc : World)
    (b : bool) :
  countdown_part e w = (lc, wc, b) -> no_action lc.
Proof.
  unfold countdown_part, no_action. intros H.
  destruct (negb (countdown (self w)));
    [|destruct (requested_by e (clock w));
      [|destruct (requested_by e (clock w + countdown_tick));
        [|destruct (requested_by e (clock w + countdown_tick + countdown_tick))]]];
    inversion H; subst; repeat constructor.
Qed.

Lemma listener_no_action (e : Env) : no_action (listener_events e).
Proof.
  unfold listener_events, no_action.
  destruct (listener_new e); [|destruct (listener_start e)]; repeat constructor.
Qed.

Lemma teardown_no_action (e : Env) (w : World) : no_action (teardown_events e w).
Proof.
  unfold teardown_events, no_action.
  destruct (_kb_listener (self w)); repeat constructor.
Qed.

Lemma wait_no_action (l : list event) : Forall wait_event l -> no_action l.
Proof.
  unfold no_action. apply Forall_impl.
  intros [] H; simpl in *; try contradiction; reflexivity.
Qed.

Section Projection.

Variable f : event -> bool.
Hypothesis f_action : forall ev, f ev = true -> is_action ev = true.

Lemma filter_no_action (l : list event) : no_action l -> filter f l = [].
Proof. apply filter_none. exact f_action. Qed.

Lemma f_not_action (ev : event) : is_action ev = false -> f ev = false.
Proof.
  intros H. destruct (f ev) eqn:Hf; [|reflexivity].
  apply f_action in Hf. congruence.
Qed.

(** What [f] keeps of the log of a run is what it keeps of the log of
    the loop. *)
Lemma run_filter (fuel : nat) (e : Env) (w0 : World) (l : list event)
    (w : World) (r : result unit) :
  run_trace fuel e w0 l w r ->
  filter f l = [] \/
  exists lc wc ll w2 rl,
    countdown_part e (reset w0) = (lc, wc, false) /\
    listener_failure e = None /\
    loop_run e (interval_of (self wc)) fuel 0 (listener_world e wc) ll w2 rl /\
    filter f l = filter f ll.
Proof.
  intros H.
  destruct H as [lc wc Hcd | lc wc x Hcd Hlis | lc wc ll w2 Hcd Hlis Hloop
                | lc wc ll w2 x Hcd Hlis Hloop | lc wc ll w2 p Hcd Hlis Hloop];
    pose proof (filter_no_action (countdown_no_action _ _ Hcd)) as Hc;
    pose proof (filter_no_action (listener_no_action e)) as Hl.
  - left. rewrite filter_app, Hc.
    apply filter_no_action, teardown_no_action.
  - left. rewrite !filter_app, Hc, Hl. simpl.
    rewrite (f_not_action (Error (error_text x))) by reflexivity.
    apply filter_no_action, teardown_no_action.
  - right. exists lc, wc, ll, w2, Pending. repeat (split; [assumption|]).
    rewrite !filter_app, Hc, Hl. simpl.
    rewrite (f_not_action running) by reflexivity. reflexivity.
  - right. exists lc, wc, ll, w2, (Raised x). repeat (split; [assumption|]).
    rewrite !filter_app, Hc, Hl. simpl.
    rewrite (f_not_action running) by reflexivity.
    rewrite filter_app. simpl.
    rewrite (f_not_action (Error (error_text x))) by reflexivity.
    rewrite (filter_no_action (teardown_no_action e w2)).
    apply app_nil_r.
  - right. exists lc, wc, ll, w2, (Ok p). repeat (split; [assumption|]).
    rewrite !filter_app, Hc, Hl. simpl.
    rewrite (f_not_action running) by reflexivity.
    rewrite filter_app. simpl.
    rewrite (f_not_action (Poll _)) by reflexivity.
    rewrite (f_not_action (closing_status _)) by reflexivity.
    rewrite (filter_no_action (teardown_no_action e (deliver e w2))).
    apply app_nil_r.
Qed.

End Projection.

(** ** C7: where the pointer is sent *)

Lemma driver_calls_move (e : Env) (w : World) :
  driver_calls (move_events w)
  = match fixed_target (self w) with Some pos => [MoveTo pos] | None => [] end.
Proof. unfold move_events; destruct (fixed_target (self w)); reflexivity. Qed.

Lemma loop_fixed (e : Env) (interval_s : time) (pos : Z * Z) (fuel : nat) :
  forall p w l w' r,
    loop_run e interval_s fuel p w l w' r ->
    fixed_target (self w) = Some pos ->
    moved_then_clicked pos (driver_calls l).
Proof.
  intros p w l w' r H.
  induction H as [p w | fuel p w Hf | fuel p w Hf Hx | fuel p w s Hf Hx Hm
                 | fuel p w s Hf Hx Hm Hc
                 | fuel p w lw w4 l w' r Hf Hx Hm Hc Hw Hrec IH];
    intros Hpos; try exact I;
    assert (Hpos' : fixed_target (self (deliver e w)) = Some pos)
      by (rewrite (idles_target (idles_deliver e w)); exact Hpos).
  - unfold driver_calls; simpl. fold (driver_calls (move_events (deliver e w))).
    rewrite driver_calls_move, Hpos' by exact e. reflexivity.
  - unfold driver_calls; simpl. rewrite filter_app.
    fold (driver_calls (move_events (deliver e w))).
    rewrite driver_calls_move, Hpos' by exact e. simpl. auto.
  - destruct (idles_round _ _ _ Hw) as (Hlw & _ & _ & _ & Htg & _).
    unfold driver_calls; simpl. rewrite filter_app.
    fold (driver_calls (move_events (deliver e w))).
    rewrite driver_calls_move, Hpos' by exact e. simpl.
    rewrite filter_app.
    rewrite (@wait_filter is_driver lw) by
      (try exact Hlw; intros [] Hev; simpl in *; try contradiction; reflexivity).
    simpl. split; [reflexivity|].
    apply IH. congruence.
Qed.

Lemma loop_follow (e : Env) (interval_s : time) (fuel : nat) :
  forall p w l w' r,
    loop_run e interval_s fuel p w l w' r ->
    fixed_target (self w) = None ->
    filter is_move l = [].
Proof.
  intros p w l w' r H.
  induction H as [p w | fuel p w Hf | fuel p w Hf Hx | fuel p w s Hf Hx Hm
                 | fuel p w s Hf Hx Hm Hc
                 | fuel p w lw w4 l w' r Hf Hx Hm Hc Hw Hrec IH];
    intros Hpos; try reflexivity;
    assert (Hpos' : fixed_target (self (deliver e w)) = None)
      by (rewrite (idles_target (idles_deliver e w)); exact Hpos).
  - unfold move_failure in Hm. rewrite Hpos' in Hm. discriminate.
  - unfold move_events. rewrite Hpos'. reflexivity.
  - destruct (idles_round _ _ _ Hw) as (Hlw & _ & _ & _ & Htg & _).
    unfold move_events. rewrite Hpos'. simpl.
    rewrite filter_app.
    rewrite (@wait_filter is_move lw) by
      (try exact Hlw; intros [] Hev; simpl in *; try contradiction; reflexivity).
    simpl. apply IH. congruence.
Qed.

Lemma fixed_target_fixed (s : ClickWorker) (pos : Z * Z) :
  target_mode s = "fixed"%string -> target_pos s = Some pos ->
  fixed_target s = Some pos.
Proof. unfold fixed_target. intros -> ->. reflexivity. Qed.

Lemma fixed_target_follow (s : ClickWorker) :
  target_mode s = "follow"%string -> fixed_target s = None.
Proof.
  unfold fixed_target. intros ->. destruct (target_pos s); reflexivity.
Qed.

Lemma action_of_driver (ev : event) : is_driver ev = true -> is_action ev = true.
Proof. unfold is_action; intros ->; reflexivity. Qed.

Lemma action_of_move (ev : event) : is_move ev = true -> is_action ev = true.
Proof. unfold is_action, is_driver; intros ->; reflexivity. Qed.

(** C7. With target mode "fixed" and the point [(x, y)] configured, the
    driver calls of a run are moves to exactly [(x, y)], each followed by
    the click it prepares (but for a move that raised); so the pointer is
    sent to the same configured point before every click attempt.  With
    target mode "follow" the run never moves the pointer. *)
Theorem pointer_moved_iff_fixed (fuel : nat) (e : Env) (s : ClickWorker) :
  (forall x y,
      target_mode s = "fixed"%string -> target_pos s = Some (x, y) ->
      moved_then_clicked (x, y) (driver_calls (log fuel e s))) /\
  (target_mode s = "follow"%string -> filter is_move (log fuel e s) = []).
Proof.
  split.
  - intros x y Hmode Hpos.
    destruct (@run_filter _ action_of_driver _ _ _ _ _ _ (exec_trace fuel e s))
      as [Hnone | (lc & wc & ll & w2 & rl & Hcd & _ & Hloop & Heq)];
      unfold driver_calls.
    + rewrite Hnone. exact I.
    + rewrite Heq. destruct (total_at_loop _ _ Hcd) as (_ & _ & Htg).
      eapply loop_fixed; [exact Hloop|].
      rewrite Htg. apply fixed_target_fixed; assumption.
  - intros Hmode.
    destruct (@run_filter _ action_of_move _ _ _ _ _ _ (exec_trace fuel e s))
      as [Hnone | (lc & wc & ll & w2 & rl & Hcd & _ & Hloop & Heq)].
    + exact Hnone.
    + rewrite Heq. destruct (total_at_loop _ _ Hcd) as (_ & _ & Htg).
      eapply loop_follow; [exact Hloop|].
      rewrite Htg. apply fixed_target_follow; assumption.
Qed.

Lemma pointer_moved_iff_fixed_witness :
  target_mode plan_fixed2 = "fixed"%string /\
  target_pos plan_fixed2 = Some (-3, 40) /\
  moved_then_clicked (-3, 40) (driver_calls (log 5 quiet plan_fixed2)) /\
  target_mode plan_left3 = "follow"%string /\
  filter is_move (log 5 quiet plan_left3) = [].
Proof.
  split; [reflexivity|]. split; [reflexivity|].
  split.
  - apply (proj1 (pointer_moved_iff_fixed 5 quiet plan_fixed2)); reflexivity.
  - split; [reflexivity|].
    apply (proj2 (pointer_moved_iff_fixed 5 quiet plan_left3)); reflexivity.
Defined.

(** ** Signals that come from outside the loop *)

Lemma wait_loop_event (l : list event) :
  Forall wait_event l -> Forall loop_event l.
Proof.
  apply Forall_impl. intros [] H; simpl in *; try contradiction; exact I.
Qed.

Lemma move_loop_event (e : Env) (w : World) : Forall loop_event (move_events w).
Proof.
  unfold move_events; destruct (fixed_target (self w)); repeat constructor.
Qed.

Lemma loop_events (e : Env) (interval_s : time) (fuel : nat) :
  forall p w l w' r,
    loop_run e interval_s fuel p w l w' r -> Forall loop_event l.
Proof.
  intros p w l w' r H.
  induction H as [p w | fuel p w Hf | fuel p w Hf Hx | fuel p w s Hf Hx Hm
                 | fuel p w s Hf Hx Hm Hc
                 | fuel p w lw w4 l w' r Hf Hx Hm Hc Hw Hrec IH].
  - constructor.
  - repeat constructor.
  - repeat constructor.
  - constructor; [exact I|]. apply move_loop_event; exact e.
  - constructor; [exact I|]. apply Forall_app; split.
    + apply move_loop_event; exact e.
    + repeat constructor.
  - destruct (idles_round _ _ _ Hw) as (Hlw & _).
    constructor; [exact I|]. apply Forall_app; split.
    + apply move_loop_event; exact e.
    + constructor; [exact I|]. constructor; [exact I|].
      apply Forall_app; split; [apply wait_loop_event; exact Hlw | exact IH].
Qed.

Lemma count_app (f : event -> bool) (l1 l2 : list event) :
  count f (l1 ++ l2) = (count f l1 + count f l2)%nat.
Proof. unfold count. rewrite filter_app. apply length_app. Qed.

Lemma count_cons (f : event -> bool) (ev : event) (l : list event) :
  count f (ev :: l) = ((if f ev then 1 else 0) + count f l)%nat.
Proof. unfold count; simpl. destruct (f ev); reflexivity. Qed.

Lemma count_none (f : event -> bool) (P : event -> Prop) (l : list event) :
  (forall ev, P ev -> f ev = false) -> Forall P l -> count f l = O.
Proof.
  intros Hf. induction 1 as [|ev l Hev _ IH]; [reflexivity|].
  rewrite count_cons, (Hf ev Hev), IH. reflexivity.
Qed.

(** The countdown returns exactly when a stop request is in by the last
    of its three reads of the flag, two ticks after its start. *)
Lemma countdown_returns_iff (e : Env) (w : World) (lc : list event)
    (wc : World) (b : bool) :
  countdown_part e w = (lc, wc, b) ->
  b = countdown (self w)
      && requested_by e (clock w + countdown_tick + countdown_tick).
Proof.
  unfold countdown_part. intros H.
  assert (Htick : 0 <= countdown_tick) by (unfold countdown_tick, ns_per_s; lia).
  destruct (countdown (self w)); cbn [negb andb] in *;
    [|inversion H; reflexivity].
  destruct (requested_by e (clock w)) eqn:H0.
  { rewrite (@requested_by_mono e (clock w)) by (auto; lia).
    inversion H; reflexivity. }
  destruct (requested_by e (clock w + countdown_tick)) eqn:H1.
  { rewrite (@requested_by_mono e (clock w + countdown_tick)) by (auto; lia).
    inversion H; reflexivity. }
  destruct (requested_by e (clock w + countdown_tick + countdown_tick));
    inversion H; reflexivity.
Qed.

(** ** C10: how often [finished] is emitted *)

Lemma countdown_cancelled_eq (e : Env) (s : ClickWorker) (lc : list event)
    (wc : World) (b : bool) :
  countdown_part e (reset (start s)) = (lc, wc, b) ->
  b = countdown_cancelled e s.
Proof. intros H. apply countdown_returns_iff in H. exact H. Qed.

Lemma countdown_count_aborted (e : Env) (w : World) (lc : list event)
    (wc : World) (b : bool) :
  countdown_part e w = (lc, wc, b) ->
  count is_start_aborted lc = (if b then 1 else 0)%nat.
Proof.
  unfold countdown_part. intros H.
  destruct (negb (countdown (self w)));
    [|destruct (requested_by e (clock w));
      [|destruct (requested_by e (clock w + countdown_tick));
        [|destruct (requested_by e (clock w + countdown_tick + countdown_tick))]]];
    inversion H; subst; reflexivity.
Qed.

Lemma teardown_count_finished (e : Env) (w : World) :
  count is_finished (teardown_events e w) = 1%nat.
Proof. unfold teardown_events; destruct (_kb_listener (self w)); reflexivity. Qed.

Lemma teardown_count_aborted (e : Env) (w : World) :
  count is_start_aborted (teardown_events e w) = O.
Proof. unfold teardown_events; destruct (_kb_listener (self w)); reflexivity. Qed.

Lemma listener_count_finished (e : Env) :
  count is_finished (listener_events e) = O.
Proof.
  unfold listener_events.
  destruct (listener_new e); [|destruct (listener_start e)]; reflexivity.
Qed.

Lemma listener_count_aborted (e : Env) :
  count is_start_aborted (listener_events e) = O.
Proof.
  unfold listener_events.
  destruct (listener_new e); [|destruct (listener_start e)]; reflexivity.
Qed.

Lemma loop_count_finished (e : Env) (i : time) (fuel : nat) (p : Z)
    (w : World) (l : list event) (w' : World) (r : result Z) :
  loop_run e i fuel p w l w' r -> count is_finished l = O.
Proof.
  intros H. apply loop_events in H.
  eapply count_none; [|exact H].
  intros [] Hev; simpl in *; try contradiction; reflexivity.
Qed.

Lemma loop_count_aborted (e : Env) (i : time) (fuel : nat) (p : Z)
    (w : World) (l : list event) (w' : World) (r : result Z) :
  loop_run e i fuel p w l w' r -> count is_start_aborted l = O.
Proof.
  intros H. apply loop_events in H.
  eapply count_none; [|exact H].
  intros [] Hev; simpl in *; try contradiction; reflexivity.
Qed.

Lemma closing_not_aborted (b : bool) :
  is_start_aborted (closing_status b) = false.
Proof. destruct b; reflexivity. Qed.

(** C10. When [run] has returned, it has emitted [finished] twice if the
    countdown was cancelled (then, and only then, the status
    "Start aborted." is in the log: once at the [return] in the countdown
    and once in the [finally] block), and once on every other way through
    [run]. *)
Theorem finished_twice_iff_countdown_cancelled (fuel : nat) (e : Env)
    (s : ClickWorker) :
  outcome fuel e s <> Pending ->
  count is_finished (log fuel e s)
  = (if countdown_cancelled e s then 2 else 1)%nat /\
  count is_start_aborted (log fuel e s)
  = (if countdown_cancelled e s then 1 else 0)%nat.
Proof.
  intros Hret.
  pose proof (exec_trace fuel e s) as H.
  destruct H as [lc wc Hcd | lc wc x Hcd Hlis | lc wc ll w2 Hcd Hlis Hloop
                | lc wc ll w2 x Hcd Hlis Hloop | lc wc ll w2 p Hcd Hlis Hloop];
    try (exfalso; apply Hret; reflexivity);
    pose proof (countdown_cancelled_eq _ _ Hcd) as Hb;
    pose proof (countdown_part_spec _ _ Hcd) as (_ & _ & _ & _ & Hfin & _);
    pose proof (countdown_count_aborted _ _ Hcd) as Hab;
    rewrite <- Hb;
    repeat rewrite ?count_app, ?count_cons;
    rewrite ?Hfin, ?Hab, ?teardown_count_finished, ?teardown_count_aborted,
      ?listener_count_finished, ?listener_count_aborted,
      ?(loop_count_finished Hloop), ?(loop_count_aborted Hloop),
      ?closing_not_aborted;
    split; reflexivity.
Qed.

Lemma finished_twice_iff_countdown_cancelled_witness :
  outcome 5 (stop_after (1500 * ns_per_ms)) plan_fixed2 <> Pending /\
  count is_finished (log 5 (stop_after (1500 * ns_per_ms)) plan_fixed2) = 2%nat /\
  count is_start_aborted (log 5 (stop_after (1500 * ns_per_ms)) plan_fixed2) = 1%nat.
Proof.
  assert (H : outcome 5 (stop_after (1500 * ns_per_ms)) plan_fixed2 <> Pending)
    by (vm_compute; discriminate).
  split; [exact H|].
  exact (@finished_twice_iff_countdown_cancelled 5 _ _ H).
Defined.

(** ** C9: the key listener is stopped on every way out *)

Lemma listener_open_app (held : bool) (l1 l2 : list event) :
  listener_open held (l1 ++ l2) = listener_open (listener_open held l1) l2.
Proof.
  revert held. induction l1 as [|ev l1 IH]; intros held; [reflexivity|].
  destruct ev as [| | | | | | | | [] | |]; simpl; apply IH.
Qed.

Lemma listener_open_free (held : bool) (l : list event) :
  Forall listener_free l -> listener_open held l = held.
Proof.
  induction 1 as [|ev l Hev _ IH]; [reflexivity|].
  destruct ev; simpl in *; try contradiction; exact IH.
Qed.

Lemma loop_listener_free (l : list event) :
  Forall loop_event l -> Forall listener_free l.
Proof.
  apply Forall_impl. intros [] H; simpl in *; try contradiction; exact I.
Qed.

Lemma countdown_listener_free (e : Env) (w : World) (lc : list event)
    (wc : World) (b : bool) :
  countdown_part e w = (lc, wc, b) -> Forall listener_free lc.
Proof.
  unfold countdown_part. intros H.
  destruct (negb (countdown (self w)));
    [|destruct (requested_by e (clock w));
      [|destruct (requested_by e (clock w + countdown_tick));
        [|destruct (requested_by e (clock w + countdown_tick + countdown_tick))]]];
    inversion H; subst; repeat constructor.
Qed.

(** The loop leaves the listener field alone. *)
Lemma loop_listener (e : Env) (interval_s : time) (fuel : nat) :
  forall p w l w' r,
    loop_run e interval_s fuel p w l w' r ->
    _kb_listener (self w') = _kb_listener (self w).
Proof.
  intros p w l w' r H.
  induction H as [p w | fuel p w Hf | fuel p w Hf Hx | fuel p w s Hf Hx Hm
                 | fuel p w s Hf Hx Hm Hc
                 | fuel p w lw w4 l w' r Hf Hx Hm Hc Hw Hrec IH];
    try reflexivity;
    try (rewrite ?self_after_click, ?self_after_move;
         apply (idles_listener (idles_deliver e w))).
  destruct (idles_round _ _ _ Hw) as (_ & _ & _ & _ & _ & Hk). congruence.
Qed.

Lemma teardown_events_eq (e : Env) (w : World) :
  teardown_events e w = stop_events e w ++ [Finished].
Proof.
  unfold teardown_events, stop_events.
  destruct (_kb_listener (self w)); reflexivity.
Qed.

(** Stopping closes what is open, provided an open listener is the one
    the field holds. *)
Lemma stop_closes (e : Env) (w : World) (held : bool) :
  (held = true -> _kb_listener (self w) <> None) ->
  listener_open held (stop_events e w) = false.
Proof.
  unfold stop_events. intros H.
  destruct (_kb_listener (self w)); [reflexivity|].
  destruct held; [exfalso; apply H; reflexivity | reflexivity].
Qed.

Lemma listener_world_holds (e : Env) (w : World) :
  listener_open false (listener_events e) = true ->
  _kb_listener (self (listener_world e w)) <> None.
Proof.
  unfold listener_events, listener_world.
  destruct (listener_new e); [discriminate|].
  destruct (listener_start e); simpl; discriminate.
Qed.

(** C9. On every way out of [run] (the countdown's [return], a listener
    that cannot be started, an exception from the loop, a stop request,
    the count reached) the run ends normally, its last signal is
    [finished], and before that signal every listener object the run
    created has been told to stop; the field [_kb_listener] is [None]
    again when [run] returns. *)
Theorem listener_stopped_on_every_exit (fuel : nat) (e : Env) (s : ClickWorker) :
  outcome fuel e s <> Pending ->
  outcome fuel e s = Ok tt /\
  _kb_listener (self (final fuel e s)) = None /\
  exists l', log fuel e s = l' ++ [Finished] /\ listener_open false l' = false.
Proof.
  intros Hret.
  pose proof (exec_trace fuel e s) as H.
  destruct H as [lc wc Hcd | lc wc x Hcd Hlis | lc wc ll w2 Hcd Hlis Hloop
                | lc wc ll w2 x Hcd Hlis Hloop | lc wc ll w2 p Hcd Hlis Hloop];
    try (exfalso; apply Hret; reflexivity);
    (split; [reflexivity|]); (split; [reflexivity|]);
    pose proof (listener_open_free false (countdown_listener_free _ _ Hcd)) as Hc;
    rewrite teardown_events_eq.
  - exists (lc ++ stop_events e wc). split; [norm_app; reflexivity|].
    rewrite listener_open_app, Hc. apply stop_closes. discriminate.
  - exists (lc ++ listener_events e ++ Error (error_text x)
               :: stop_events e (listener_world e wc)).
    split; [norm_app; reflexivity|].
    rewrite !listener_open_app, Hc. simpl.
    apply stop_closes. apply listener_world_holds.
  - exists (lc ++ listener_events e ++ running :: ll
               ++ Error (error_text x) :: stop_events e w2).
    split; [norm_app; reflexivity|].
    rewrite !listener_open_app, Hc. simpl. rewrite listener_open_app.
    rewrite (listener_open_free _ (loop_listener_free (loop_events Hloop))).
    simpl. apply stop_closes.
    rewrite (loop_listener Hloop). apply listener_world_holds.
  - exists (lc ++ listener_events e ++ running :: ll
               ++ Poll (_stop_requested (self (deliver e w2)))
               :: closing_status (_stop_requested (self (deliver e w2)))
               :: stop_events e (deliver e w2)).
    split; [norm_app; reflexivity|].
    rewrite !listener_open_app, Hc. simpl. rewrite listener_open_app.
    rewrite (listener_open_free _ (loop_listener_free (loop_events Hloop))).
    simpl. apply stop_closes.
    rewrite (idles_listener (idles_deliver e w2)), (loop_listener Hloop).
    apply listener_world_holds.
Qed.

Lemma listener_stopped_on_every_exit_witness :
  outcome 5 third_click_fails plan_left10 <> Pending /\
  outcome 5 third_click_fails plan_left10 = Ok tt /\
  _kb_listener (self (final 5 third_click_fails plan_left10)) = None /\
  exists l', log 5 third_click_fails plan_left10 = l' ++ [Finished]
             /\ listener_open false l' = false.
Proof.
  assert (H : outcome 5 third_click_fails plan_left10 <> Pending)
    by (vm_compute; discriminate).
  split; [exact H|].
  exact (@listener_stopped_on_every_exit 5 _ _ H).
Defined.

(** ** Runs that nobody cancels *)

Section Uncancelled.

Variable e : Env.
Variable interval_s : time.

Hypothesis no_request : stop_at e = None.

Lemma never_requested (t : time) : requested_by e t = false.
Proof. unfold requested_by. rewrite no_request. reflexivity. Qed.

Lemma deliver_none (w : World) : deliver e w = w.
Proof. apply deliver_quiet, never_requested. Qed.

Lemma idles_self (w w' : World) : idles e w w' -> self w' = self w.
Proof.
  intros (_ & _ & _ & [H | [_ H]]); [exact H|].
  rewrite never_requested in H. discriminate.
Qed.

(** A round in which nothing raises. *)
Lemma loop_round_inv (fuel : nat) (p : Z) (w : World) (l : list event)
    (w' : World) (r : result Z) :
  loop_run e interval_s (S fuel) p w l w' r ->
  _stop_requested (self w) = false ->
  exhausted w p = false ->
  move_failure e w = None ->
  click_failure e (after_move e w) = None ->
  exists lw w4 l2,
    Forall wait_event lw /\
    self w4 = self w /\
    n_moves w4 = n_moves (after_move e w) /\
    n_clicks w4 = S (n_clicks (after_move e w)) /\
    loop_run e interval_s fuel (p + produced_by w p) w4 l2 w' r /\
    l = Poll false :: move_events w
          ++ [click_event w p; Progress (p + produced_by w p)] ++ lw ++ l2.
Proof.
  intros H Hf Hx Hm Hc.
  inversion H; subst; rewrite deliver_none in *; try congruence.
  exists lw, w4, l0.
  match goal with
  | Hw : interruptible_wait _ _ _ = _ |- _ =>
      apply interruptible_wait_spec in Hw as (_ & Hlw & Hi)
  end.
  pose proof (idles_self Hi) as Hs.
  destruct Hi as (Hnm & Hnc & _).
  rewrite self_after_click, self_after_move in Hs.
  repeat (split; [assumption || reflexivity|]).
  reflexivity.
Qed.

(** The round that finds the count reached. *)
Lemma loop_exhausted_inv (fuel : nat) (p : Z) (w : World) (l : list event)
    (w' : World) (r : result Z) :
  loop_run e interval_s (S fuel) p w l w' r ->
  _stop_requested (self w) = false ->
  exhausted w p = true ->
  l = [Poll false] /\ w' = w /\ r = Ok p.
Proof.
  intros H Hf Hx.
  inversion H; subst; rewrite deliver_none in *; try congruence.
  repeat split.
Qed.

(** The round in which the driver raises. *)
Lemma loop_raise_inv (fuel : nat) (p : Z) (w : World) (l : list event)
    (w' : World) (r : result Z) :
  loop_run e interval_s (S fuel) p w l w' r ->
  _stop_requested (self w) = false ->
  exhausted w p = false ->
  (forall s, move_failure e w = Some s ->
     l = Poll false :: move_events w /\ w' = after_move e w
     /\ r = Raised (mkExn RuntimeError s)) /\
  (forall s, move_failure e w = None ->
     click_failure e (after_move e w) = Some s ->
     l = Poll false :: move_events w ++ [click_event w p]
     /\ w' = after_click e (after_move e w)
     /\ r = Raised (mkExn RuntimeError s)).
Proof.
  intros H Hf Hx.
  inversion H; subst; rewrite deliver_none in *; try congruence;
    (split; [intros s0 Hs0 | intros s0 Hs0 Hc0]); try congruence;
    (split; [reflexivity|]); (split; [reflexivity|]); congruence.
Qed.

End Uncancelled.

(** ** The way a run ended *)

Lemma terminal_state_app_some (l1 l2 : list event) (st : RunState) :
  terminal_state l2 = Some st -> terminal_state (l1 ++ l2) = Some st.
Proof.
  intros H. induction l1 as [|ev l1 IH]; [exact H|].
  simpl. rewrite IH. reflexivity.
Qed.

Lemma terminal_state_cons_some (ev : event) (l : list event) (st : RunState) :
  terminal_state l = Some st -> terminal_state (ev :: l) = Some st.
Proof. intros H. simpl. rewrite H. reflexivity. Qed.

Lemma terminal_state_app_none (l1 l2 : list event) :
  terminal_state l2 = None -> terminal_state (l1 ++ l2) = terminal_state l1.
Proof.
  intros H. induction l1 as [|ev l1 IH]; [exact H|].
  simpl. rewrite IH. reflexivity.
Qed.

Lemma terminal_teardown (e : Env) (w : World) :
  terminal_state (teardown_events e w) = None.
Proof. unfold teardown_events; destruct (_kb_listener (self w)); reflexivity. Qed.

Lemma terminal_closing (e : Env) (w : World) (b : bool) :
  terminal_state (Poll b :: closing_status b :: teardown_events e w)
  = Some (if b then Stopped else Completed).
Proof.
  simpl. rewrite terminal_teardown. destruct b; reflexivity.
Qed.

Lemma terminal_error (e : Env) (w : World) (msg : string) :
  terminal_state (Error msg :: teardown_events e w) = Some Errored.
Proof. simpl. rewrite terminal_teardown. reflexivity. Qed.

Lemma terminal_countdown_returned (e : Env) (w : World) (lc : list event)
    (wc : World) :
  countdown_part e w = (lc, wc, true) -> terminal_state lc = Some Stopped.
Proof.
  unfold countdown_part. intros H.
  destruct (negb (countdown (self w)));
    [|destruct (requested_by e (clock w));
      [|destruct (requested_by e (clock w + countdown_tick));
        [|destruct (requested_by e (clock w + countdown_tick + countdown_tick))]]];
    inversion H; subst; reflexivity.
Qed.

(** ** C2: double clicks *)

Lemma action_of_click_or_progress (ev : event) :
  is_click_or_progress ev = true -> is_action ev = true.
Proof. destruct ev; simpl; intros H; try discriminate; reflexivity. Qed.

Lemma move_not_click_or_progress (e : Env) (w : World) :
  filter is_click_or_progress (move_events w) = [].
Proof. unfold move_events; destruct (fixed_target (self w)); reflexivity. Qed.

Lemma double_click_event (w : World) (p : Z) :
  mode (self w) = "Double (left)"%string ->
  click_button (mode (self w)) = ButtonLeft /\
  produced_by w p = double_width (total_clicks (self w)) p.
Proof.
  intros Hm. unfold produced_by, click_button, click_width. rewrite Hm.
  split; [reflexivity|]. simpl.
  unfold quota, remaining_of, double_width.
  destruct (total_clicks (self w)); reflexivity.
Qed.

Lemma loop_double (e : Env) (interval_s : time) (fuel : nat) :
  forall p w l w' r,
    loop_run e interval_s fuel p w l w' r ->
    mode (self w) = "Double (left)"%string ->
    double_clicks (total_clicks (self w)) p (filter is_click_or_progress l).
Proof.
  intros p w l w' r H.
  induction H as [p w | fuel p w Hf | fuel p w Hf Hx | fuel p w s Hf Hx Hm
                 | fuel p w s Hf Hx Hm Hc
                 | fuel p w lw w4 l w' r Hf Hx Hm Hc Hw Hrec IH];
    intros Hmode; try exact I;
    assert (Hmode' : mode (self (deliver e w)) = "Double (left)"%string)
      by (rewrite (idles_mode (idles_deliver e w)); exact Hmode);
    pose proof (idles_total (idles_deliver e w)) as Htot;
    destruct (double_click_event (deliver e w) p Hmode') as [Hb Hc'].
  - simpl. rewrite move_not_click_or_progress by exact e. exact I.
  - simpl. rewrite filter_app, move_not_click_or_progress by exact e.
    unfold click_event. simpl. rewrite Hb, Hc', Htot. auto.
  - destruct (idles_round _ _ _ Hw) as (Hlw & _ & Ht4 & Hm4 & _).
    simpl. rewrite filter_app, move_not_click_or_progress by exact e.
    unfold click_event. simpl. rewrite filter_app.
    rewrite (@wait_filter is_click_or_progress lw) by
      (try exact Hlw; intros [] Hev; simpl in *; try contradiction; reflexivity).
    simpl. rewrite Hb, Hc', Htot.
    repeat (split; [reflexivity|]).
    rewrite <- Ht4. rewrite Hc', Htot in IH. rewrite Ht4 in *.
    apply IH. congruence.
Qed.

Lemma loop_start_world (e : Env) (s : ClickWorker) (lc : list event)
    (wc : World) :
  countdown_part e (reset (start s)) = (lc, wc, false) ->
  _stop_requested (self (listener_world e wc)) = false /\
  n_moves (listener_world e wc) = O /\
  n_clicks (listener_world e wc) = O.
Proof.
  intros H. apply countdown_part_spec in H as ((Hm & Hc & _) & _ & _ & _ & _ & Hf).
  specialize (Hf eq_refl). simpl in Hf, Hm, Hc.
  unfold listener_world. destruct (listener_new e); simpl; auto.
Qed.

Lemma progress_of_round (e : Env) (w : World) (p : Z) (lw l2 : list event) :
  Forall wait_event lw ->
  progress_values
    (Poll false :: move_events w
       ++ [click_event w p; Progress (p + produced_by w p)] ++ lw ++ l2)
  = (p + produced_by w p) :: progress_values l2.
Proof.
  intros Hlw. simpl. rewrite progress_values_app, move_no_progress by exact e.
  simpl. rewrite progress_values_app, (wait_no_progress Hlw). reflexivity.
Qed.

Section FiveDoubleClicks.

Variable e : Env.
Variable interval_s : time.

Hypothesis no_request : stop_at e = None.
Hypothesis moves_succeed : forall k, snd (move_call e k) = None.

Hypothesis clicks_succeed : forall k, snd (click_call e k) = None.

Lemma no_move_failure (w : World) : move_failure e w = None.
Proof.
  unfold move_failure. destruct (fixed_target (self w)); [|reflexivity].
  rewrite moves_succeed. reflexivity.
Qed.

Lemma no_click_failure (w : World) : click_failure e w = None.
Proof. apply clicks_succeed. Qed.

(** One round of an uncancelled run whose driver calls succeed. *)
Lemma good_round (fuel : nat) (p : Z) (w : World) (l : list event)
    (w' : World) (r : result Z) :
  loop_run e interval_s (S fuel) p w l w' r ->
  _stop_requested (self w) = false ->
  exhausted w p = false ->
  exists w4 l2,
    self w4 = self w /\
    loop_run e interval_s fuel (p + produced_by w p) w4 l2 w' r /\
    progress_values l = (p + produced_by w p) :: progress_values l2.
Proof.
  intros H Hf Hx.
  destruct (loop_round_inv no_request H Hf Hx (no_move_failure w)
              (no_click_failure _))
    as (lw & w4 & l2 & Hlw & Hs & _ & _ & Hrec & ->).
  exists w4, l2. split; [exact Hs|]. split; [exact Hrec|].
  apply progress_of_round; assumption.
Qed.

Lemma five_double_loop (fuel : nat) (w : World) (l : list event)
    (w' : World) (r : result Z) :
  loop_run e interval_s (S (S (S (S fuel)))) 0 w l w' r ->
  _stop_requested (self w) = false ->
  mode (self w) = "Double (left)"%string ->
  total_clicks (self w) = Some 5 ->
  progress_values l = [2; 4; 5] /\ r = Ok 5 /\
  _stop_requested (self w') = false.
Proof.
  intros H Hf Hm Ht.
  destruct (good_round H Hf) as (w1 & l1 & Hs1 & H1 & ->).
  { unfold exhausted, remaining_of. rewrite Ht. reflexivity. }
  assert (Hp0 : 0 + produced_by w 0 = 2).
  { unfold produced_by, quota, remaining_of, click_width.
    rewrite Hm, Ht. reflexivity. }
  rewrite Hp0 in *.
  destruct (good_round H1) as (w2 & l2 & Hs2 & H2 & ->).
  { rewrite Hs1. exact Hf. }
  { unfold exhausted, remaining_of. rewrite Hs1, Ht. reflexivity. }
  assert (Hp1 : 2 + produced_by w1 2 = 4).
  { unfold produced_by, quota, remaining_of, click_width.
    rewrite Hs1, Hm, Ht. reflexivity. }
  rewrite Hp1 in *.
  destruct (good_round H2) as (w3 & l3 & Hs3 & H3 & ->).
  { rewrite Hs2, Hs1. exact Hf. }
  { unfold exhausted, remaining_of. rewrite Hs2, Hs1, Ht. reflexivity. }
  assert (Hp2 : 4 + produced_by w2 4 = 5).
  { unfold produced_by, quota, remaining_of, click_width.
    rewrite Hs2, Hs1, Hm, Ht. reflexivity. }
  rewrite Hp2 in *.
  destruct (loop_exhausted_inv no_request H3) as (-> & -> & ->).
  { rewrite Hs3, Hs2, Hs1. exact Hf. }
  { unfold exhausted, remaining_of. rewrite Hs3, Hs2, Hs1, Ht. reflexivity. }
  repeat split. rewrite Hs3, Hs2, Hs1. exact Hf.
Qed.

End FiveDoubleClicks.

(** C2. In mode "Double (left)" every action of a run asks for 2 clicks
    when at least 2 remain of a bounded total and for 1 otherwise, and
    always for 2 when the run is unbounded; the counter grows by what was
    asked.  A run bounded by 5 that nobody cancels and in which no call
    raises signals the counts 2, 4, 5 (steps 2, 2, 1) and ends with
    "Completed.". *)
Theorem double_left_clicks (fuel : nat) (e : Env) (s : ClickWorker) :
  mode s = "Double (left)"%string ->
  double_clicks (total_clicks s) 0
    (filter is_click_or_progress (log fuel e s)) /\
  (total_clicks s = Some 5 ->
   stop_at e = None ->
   listener_failure e = None ->
   (forall k, snd (move_call e k) = None) ->
   (forall k, snd (click_call e k) = None) ->
   (4 <= fuel)%nat ->
   progress_values (log fuel e s) = [2; 4; 5] /\
   increments 0 (progress_values (log fuel e s)) = [2; 2; 1] /\
   performed_of (log fuel e s) = 5 /\
   terminal_state (log fuel e s) = Some Completed /\
   outcome fuel e s = Ok tt).
Proof.
  intros Hmode. split.
  - destruct (@run_filter _ action_of_click_or_progress _ _ _ _ _ _
                (exec_trace fuel e s))
      as [Hnone | (lc & wc & ll & w2 & rl & Hcd & _ & Hloop & Heq)].
    + rewrite Hnone. exact I.
    + rewrite Heq. destruct (total_at_loop _ _ Hcd) as (Ht & Hm & _).
      rewrite <- Ht. eapply loop_double; [exact Hloop|]. congruence.
  - intros Htotal Hstop Hlis Hmoves Hclicks Hfuel.
    destruct fuel as [|[|[|[|fuel]]]]; try lia.
    assert (Hprog : progress_values (log (S (S (S (S fuel)))) e s) = [2; 4; 5]
                    /\ terminal_state (log (S (S (S (S fuel)))) e s) = Some Completed
                    /\ outcome (S (S (S (S fuel)))) e s = Ok tt).
    { pose proof (exec_trace (S (S (S (S fuel)))) e s) as H.
      destruct H as [lc wc Hcd | lc wc x Hcd Hlis' | lc wc ll w2 Hcd Hlis' Hloop
                    | lc wc ll w2 x Hcd Hlis' Hloop | lc wc ll w2 p Hcd Hlis' Hloop].
      - apply countdown_cancelled_eq in Hcd.
        unfold countdown_cancelled in Hcd.
        rewrite (never_requested e Hstop), andb_false_r in Hcd. discriminate.
      - congruence.
      - destruct (total_at_loop _ _ Hcd) as (Ht & Hm & _).
        destruct (loop_start_world _ _ Hcd) as (Hf & _).
        destruct (five_double_loop Hstop Hmoves Hclicks Hloop Hf)
          as (_ & Hr & _); [congruence | congruence | discriminate].
      - destruct (total_at_loop _ _ Hcd) as (Ht & Hm & _).
        destruct (loop_start_world _ _ Hcd) as (Hf & _).
        destruct (five_double_loop Hstop Hmoves Hclicks Hloop Hf)
          as (_ & Hr & _); [congruence | congruence | discriminate].
      - destruct (total_at_loop _ _ Hcd) as (Ht & Hm & _).
        destruct (loop_start_world _ _ Hcd) as (Hf & _).
        destruct (five_double_loop Hstop Hmoves Hclicks Hloop Hf)
          as (Hpv & Hr & Hf2); [congruence | congruence |].
        pose proof (countdown_part_spec _ _ Hcd) as (_ & Hp & _).
        rewrite (deliver_none e Hstop), Hf2.
        split; [|split; [|reflexivity]].
        + rewrite !progress_values_app, Hp, listener_no_progress. simpl.
          rewrite progress_values_app, Hpv. simpl.
          rewrite teardown_no_progress. reflexivity.
        + apply terminal_state_app_some, terminal_state_app_some,
            terminal_state_cons_some, terminal_state_app_some.
          apply (terminal_closing e w2 false). }
    destruct Hprog as (Hpv & Hts & Hout).
    unfold performed_of. rewrite Hpv.
    repeat split; assumption.
Qed.

Lemma double_left_clicks_witness :
  mode plan_double5 = "Double (left)"%string /\
  double_clicks (total_clicks plan_double5) 0
    (filter is_click_or_progress (log 6 quiet plan_double5)) /\
  progress_values (log 6 quiet plan_double5) = [2; 4; 5] /\
  increments 0 (progress_values (log 6 quiet plan_double5)) = [2; 2; 1] /\
  performed_of (log 6 quiet plan_double5) = 5 /\
  terminal_state (log 6 quiet plan_double5) = Some Completed /\
  outcome 6 quiet plan_double5 = Ok tt.
Proof.
  assert (Hm : mode plan_double5 = "Double (left)"%string) by reflexivity.
  split; [exact Hm|].
  destruct (@double_left_clicks 6 quiet plan_double5 Hm) as [H1 H2].
  split; [exact H1|].
  apply H2; try reflexivity. lia.
Defined.

(** ** Counting driver calls *)

Lemma count_move_events (e : Env) (w : World) :
  n_moves (after_move e w) = (n_moves w + count is_move (move_events w))%nat /\
  n_clicks (after_move e w) = n_clicks w /\
  count is_click (move_events w) = O.
Proof.
  unfold after_move, move_events, count.
  destruct (fixed_target (self w)); simpl; repeat split; lia.
Qed.

Lemma wait_count (f : event -> bool) (l : list event) :
  (forall ev, wait_event ev -> f ev = false) ->
  Forall wait_event l -> count f l = O.
Proof. intros Hf Hl. unfold count. rewrite (wait_filter f Hf Hl). reflexivity. Qed.

Lemma wait_not_click (ev : event) : wait_event ev -> is_click ev = false.
Proof. destruct ev; simpl; intros H; try contradiction; reflexivity. Qed.

Lemma wait_not_move (ev : event) : wait_event ev -> is_move ev = false.
Proof. destruct ev; simpl; intros H; try contradiction; reflexivity. Qed.

Lemma count_nil (f : event -> bool) : count f [] = O.
Proof. reflexivity. Qed.

Ltac count_steps :=
  repeat rewrite ?count_cons, ?count_app, ?count_nil;
  cbn [is_click is_move is_error is_finished click_event].

(** The world counts the calls that the log shows. *)
Lemma loop_counters (e : Env) (interval_s : time) (fuel : nat) :
  forall p w l w' r,
    loop_run e interval_s fuel p w l w' r ->
    n_clicks w' = (n_clicks w + count is_click l)%nat /\
    n_moves w' = (n_moves w + count is_move l)%nat.
Proof.
  intros p w l w' r H.
  induction H as [p w | fuel p w Hf | fuel p w Hf Hx | fuel p w s Hf Hx Hm
                 | fuel p w s Hf Hx Hm Hc
                 | fuel p w lw w4 l w' r Hf Hx Hm Hc Hw Hrec IH];
    try (destruct (idles_deliver e w) as (Hdm & Hdc & _));
    try (destruct (count_move_events e (deliver e w)) as (Hmm & Hmc & Hmz)).
  - unfold count; simpl; lia.
  - unfold count; simpl; lia.
  - unfold count; simpl; lia.
  - count_steps. lia.
  - count_steps. unfold after_click; simpl. lia.
  - destruct (idles_round _ _ _ Hw) as (Hlw & (Him & Hic & _) & _).
    destruct IH as [IHc IHm].
    count_steps.
    rewrite (wait_count _ wait_not_click Hlw), (wait_count _ wait_not_move Hlw).
    unfold after_click in Him, Hic; simpl in Him, Hic. lia.
Qed.

(** ** C3: a driver call that raises *)

Lemma last_cons (v d : Z) (vs : list Z) : last (v :: vs) d = last vs v.
Proof.
  revert v d. induction vs as [|v' vs IH]; intros v d; [reflexivity|].
  change (last (v :: v' :: vs) d) with (last (v' :: vs) d).
  rewrite (IH v' d), (IH v' v). reflexivity.
Qed.

Section FailingAction.

Variable e : Env.
Variable interval_s : time.

Variable s : ClickWorker.
Variable n : Z.

Variable k : nat.
Hypothesis no_request : stop_at e = None.
Hypothesis bounded : total_clicks s = Some n.

Hypothesis before_succeed : forall j, (j < k)%nat -> action_raises e s j = false.
Hypothesis kth_raises : action_raises e s k = true.

Hypothesis kth_due : Z.of_nat k * clicks_per_action (mode s) < n.

Lemma per_action_pos : 1 <= clicks_per_action (mode s).
Proof.
  unfold clicks_per_action. destruct (mode s =? "Double (left)")%string; lia.
Qed.

(** Before the action [j <= k] the count is not reached, and an action
    before the [k]-th makes [clicks_per_action] clicks. *)
Lemma not_exhausted_at (w : World) (j : nat) :
  self w = s -> (j <= k)%nat ->
  exhausted w (Z.of_nat j * clicks_per_action (mode s)) = false.
Proof.
  intros Hs Hj. unfold exhausted, remaining_of. rewrite Hs, bounded. simpl.
  apply Z.leb_gt. pose proof per_action_pos. nia.
Qed.

Lemma produced_before (w : World) (j : nat) :
  self w = s -> (j < k)%nat ->
  produced_by w (Z.of_nat j * clicks_per_action (mode s))
  = clicks_per_action (mode s).
Proof.
  intros Hs Hj. unfold produced_by, quota, remaining_of, click_width,
    clicks_per_action in *.
  rewrite Hs, bounded. simpl.
  destruct (mode s =? "Double (left)")%string; [|reflexivity].
  assert (H : 2 <= n - Z.of_nat j * 2) by nia.
  apply Z.leb_le in H. rewrite H. reflexivity.
Qed.

(** From the action [j] on, with the flag still down: the loop goes on
    to the action [k], which raises. *)
Lemma loop_until_failure (d : nat) :
  forall fuel w l w' r,
    (n_clicks w + d = k)%nat ->
    (fixed_target s <> None -> n_moves w = n_clicks w) ->
    self w = s ->
    _stop_requested s = false ->
    (d < fuel)%nat ->
    loop_run e interval_s fuel
      (Z.of_nat (n_clicks w) * clicks_per_action (mode s)) w l w' r ->
    (exists x, r = Raised x /\ exn_cls x = RuntimeError) /\
    last (progress_values l) (Z.of_nat (n_clicks w) * clicks_per_action (mode s))
    = Z.of_nat k * clicks_per_action (mode s) /\
    n_clicks w' = (if move_raises e s k then k else S k) /\
    (fixed_target s <> None -> n_moves w' = S k).
Proof.
  induction d as [|d IH]; intros fuel w l w' r Hk Hmv Hs Hflag Hfuel Hloop;
    (destruct fuel as [|fuel]; [lia|]);
    assert (Hf : _stop_requested (self w) = false) by (rewrite Hs; exact Hflag).
  - assert (Hc : n_clicks w = k) by lia.
    pose proof (@not_exhausted_at w k Hs (le_n k)) as Hx.
    rewrite <- Hc in Hx at 1.
    destruct (loop_raise_inv no_request Hloop Hf Hx) as [Hmove Hclick].
    unfold action_raises, move_raises, click_raises in kth_raises.
    unfold move_raises.
    destruct (move_failure e w) as [msg|] eqn:Hmf.
    + destruct (Hmove msg eq_refl) as (-> & -> & ->).
      unfold move_failure in Hmf. rewrite Hs in Hmf.
      destruct (fixed_target s) as [pos|] eqn:Hft; [|discriminate].
      assert (Hnm : n_moves w = k) by (rewrite Hmv; [exact Hc | discriminate]).
      rewrite Hnm in Hmf.
      destruct (snd (move_call e k)); [|discriminate].
      split; [eexists; split; reflexivity|].
      split.
      { simpl. rewrite move_no_progress by exact e. simpl. rewrite Hc. reflexivity. }
      unfold after_move. rewrite Hs, Hft. simpl.
      split; [exact Hc | intros _; lia].
    + assert (Hcf : exists msg, click_failure e (after_move e w) = Some msg
                                /\ move_raises e s k = false).
      { unfold click_failure.
        destruct (count_move_events e w) as (_ & -> & _). rewrite Hc.
        unfold move_failure in Hmf. rewrite Hs in Hmf.
        unfold move_raises.
        destruct (fixed_target s) as [pos|] eqn:Hft.
        - assert (Hnm : n_moves w = k) by (rewrite Hmv; [exact Hc | discriminate]).
          rewrite Hnm in Hmf.
          destruct (snd (move_call e k)); [discriminate|].
          simpl in kth_raises.
          destruct (snd (click_call e k)) as [msg|]; [|discriminate].
          exists msg; split; reflexivity.
        - simpl in kth_raises.
          destruct (snd (click_call e k)) as [msg|]; [|discriminate].
          exists msg; split; reflexivity. }
      destruct Hcf as (msg & Hcf & Hmr).
      destruct (Hclick msg eq_refl Hcf) as (-> & -> & ->).
      split; [eexists; split; reflexivity|].
      split.
      { simpl. rewrite progress_values_app, move_no_progress by exact e.
        simpl. rewrite Hc. reflexivity. }
      unfold move_raises in Hmr. rewrite Hmr.
      destruct (count_move_events e w) as (Hnm & Hnc & _).
      unfold after_click; simpl. rewrite Hnc.
      split; [lia|].
      intros Hfix. unfold after_move. rewrite Hs.
      destruct (fixed_target s); [simpl; rewrite Hmv by discriminate; lia
                                 | contradiction].
  - assert (Hj : (n_clicks w < k)%nat) by lia.
    pose proof (@not_exhausted_at w (n_clicks w) Hs ltac:(lia)) as Hx.
    pose proof (@before_succeed (n_clicks w) Hj) as Hok.
    unfold action_raises in Hok. apply orb_false_iff in Hok as [Hmr Hcr].
    assert (Hmf : move_failure e w = None).
    { unfold move_failure. rewrite Hs. unfold move_raises in Hmr.
      destruct (fixed_target s) as [pos|] eqn:Hft; [|reflexivity].
      rewrite Hmv by discriminate.
      destruct (snd (move_call e (n_clicks w))); [discriminate | reflexivity]. }
    assert (Hcf : click_failure e (after_move e w) = None).
    { unfold click_failure.
      destruct (count_move_events e w) as (_ & -> & _).
      unfold click_raises in Hcr.
      destruct (snd (click_call e (n_clicks w))); [discriminate | reflexivity]. }
    destruct (loop_round_inv no_request Hloop Hf Hx Hmf Hcf)
      as (lw & w4 & l2 & Hlw & Hs4 & Hnm4 & Hnc4 & Hrec & ->).
    rewrite (@produced_before w (n_clicks w) Hs Hj) in *.
    destruct (count_move_events e w) as (Hnm & Hnc & _).
    rewrite Hnc in Hnc4.
    assert (Hp : Z.of_nat (n_clicks w) * clicks_per_action (mode s)
                 + clicks_per_action (mode s)
                 = Z.of_nat (n_clicks w4) * clicks_per_action (mode s))
      by (rewrite Hnc4; lia).
    rewrite Hp in *.
    destruct (IH fuel w4 l2 w' r) as (Hr & Hlast & Hcount & Hmoves);
      try assumption; try lia; try congruence.
    { intros Hfix. rewrite Hnm4, Hnc4. unfold after_move. rewrite Hs.
      destruct (fixed_target s); [simpl; rewrite Hmv by discriminate; reflexivity
                                 | contradiction]. }
    split; [exact Hr|].
    split; [|split; assumption].
    unfold click_event. cbn [progress_values].
    rewrite progress_values_app, move_no_progress by exact e.
    cbn [app progress_values].
    rewrite progress_values_app, (wait_no_progress Hlw).
    cbn [app]. rewrite last_cons. exact Hlast.
Qed.

Lemma loop_fails_at (fuel : nat) (w : World) (l : list event) (w' : World)
    (r : result Z) :
  n_clicks w = O -> n_moves w = O ->
  self w = s ->
  _stop_requested s = false ->
  (k < fuel)%nat ->
  loop_run e interval_s fuel 0 w l w' r ->
  (exists x, r = Raised x /\ exn_cls x = RuntimeError) /\
  last (progress_values l) 0 = Z.of_nat k * clicks_per_action (mode s) /\
  n_clicks w' = (if move_raises e s k then k else S k) /\
  (fixed_target s <> None -> n_moves w' = S k).
Proof.
  intros Hc Hm Hs Hflag Hfuel Hloop.
  assert (H0 : 0 = Z.of_nat (n_clicks w) * clicks_per_action (mode s))
    by (rewrite Hc; reflexivity).
  rewrite H0 in Hloop |- * at 1.
  apply (@loop_until_failure k fuel w l w' r); try assumption; try lia;
    intros _; congruence.
Qed.

End FailingAction.

Lemma count_no_action (f : event -> bool) (l : list event) :
  (forall ev, f ev = true -> is_action ev = true) ->
  no_action l -> count f l = O.
Proof.
  intros Hf Hl. unfold count. rewrite (filter_no_action f Hf Hl). reflexivity.
Qed.

Lemma action_of_click (ev : event) : is_click ev = true -> is_action ev = true.
Proof. destruct ev; simpl; intros H; try discriminate; reflexivity. Qed.

Lemma count_error_outside (e : Env) (w : World) (lc : list event) (wc : World)
    (b : bool) :
  countdown_part e w = (lc, wc, b) ->
  count is_error lc = O /\
  count is_error (listener_events e) = O /\
  forall w', count is_error (teardown_events e w') = O.
Proof.
  intros H. apply countdown_part_spec in H as (_ & _ & _ & He & _).
  unfold count. rewrite He. split; [reflexivity|]. split.
  - unfold listener_events.
    destruct (listener_new e); [|destruct (listener_start e)]; reflexivity.
  - intros w'. unfold teardown_events.
    destruct (_kb_listener (self w')); reflexivity.
Qed.

Lemma loop_count_error (e : Env) (i : time) (fuel : nat) (p : Z)
    (w : World) (l : list event) (w' : World) (r : result Z) :
  loop_run e i fuel p w l w' r -> count is_error l = O.
Proof.
  intros H. apply loop_events in H.
  eapply count_none; [|exact H].
  intros [] Hev; simpl in *; try contradiction; reflexivity.
Qed.

(** C3. In a bounded run that nobody cancels, let the driver raise in the
    action number [k] (counted from 0; its move or its click), the
    actions before it succeeding, with fewer than the total performed by
    then.  The run then ends through its error handler: it returns,
    errored, after exactly one error signal; the clicks performed are
    those of the [k] actions before ([2] when the third of ten single
    clicks fails); and the driver was asked for no more than those
    actions and the failing call, which is not tried again. *)
Theorem driver_failure_ends_run (fuel : nat) (e : Env) (s : ClickWorker)
    (n : Z) (k : nat) :
  total_clicks s = Some n ->
  stop_at e = None ->
  listener_failure e = None ->
  (forall j, (j < k)%nat -> action_raises e s j = false) ->
  action_raises e s k = true ->
  Z.of_nat k * clicks_per_action (mode s) < n ->
  (k < fuel)%nat ->
  outcome fuel e s = Ok tt /\
  terminal_state (log fuel e s) = Some Errored /\
  performed_of (log fuel e s) = Z.of_nat k * clicks_per_action (mode s) /\
  count is_error (log fuel e s) = 1%nat /\
  count is_click (log fuel e s) = (if move_raises e s k then k else S k) /\
  count is_move (log fuel e s)
  = match fixed_target s with Some _ => S k | None => O end.
Proof.
  intros Htotal Hstop Hlis Hbefore Hkth Hdue Hfuel.
  pose proof (exec_trace fuel e s) as H.
  destruct H as [lc wc Hcd | lc wc x Hcd Hlis' | lc wc ll w2 Hcd Hlis' Hloop
                | lc wc ll w2 x Hcd Hlis' Hloop | lc wc ll w2 p Hcd Hlis' Hloop];
    [ apply countdown_cancelled_eq in Hcd; unfold countdown_cancelled in Hcd;
      rewrite (never_requested e Hstop), andb_false_r in Hcd; discriminate
    | congruence | | | ];
    destruct (total_at_loop _ _ Hcd) as (Ht & Hm & Htg);
    destruct (loop_start_world _ _ Hcd) as (Hf & Hnm & Hnc);
    assert (Hbefore' : forall j, (j < k)%nat ->
              action_raises e (self (listener_world e wc)) j = false)
      by (intros j Hj; unfold action_raises, move_raises; rewrite Htg;
          apply (Hbefore j Hj));
    assert (Hkth' : action_raises e (self (listener_world e wc)) k = true)
      by (unfold action_raises, move_raises; rewrite Htg; exact Hkth);
    assert (Hdue' : Z.of_nat k * clicks_per_action
                      (mode (self (listener_world e wc))) < n)
      by (rewrite Hm; exact Hdue);
    assert (Ht' : total_clicks (self (listener_world e wc)) = Some n)
      by congruence;
    destruct (@loop_fails_at e _ _ n k Hstop Ht' Hbefore' Hkth' Hdue'
                fuel _ _ _ _ Hnc Hnm eq_refl Hf Hfuel Hloop)
      as ((x0 & Hr & Hcls) & Hlast & Hclicks & Hmoves);
    try discriminate.
  inversion Hr; subst x0. clear Hr.
  destruct (loop_counters Hloop) as [Hcc Hcm].
  rewrite Hnc in Hcc. rewrite Hnm in Hcm. simpl in Hcc, Hcm.
  destruct (count_error_outside _ _ Hcd) as (Hec & Hel & Het).
  pose proof (countdown_part_spec _ _ Hcd) as (_ & Hp & _).
  pose proof (countdown_no_action _ _ Hcd) as Hna.
  split; [reflexivity|].
  split.
  { apply terminal_state_app_some, terminal_state_app_some,
      terminal_state_cons_some, terminal_state_app_some.
    apply terminal_error. }
  split.
  { unfold performed_of.
    rewrite !progress_values_app, Hp, listener_no_progress. simpl.
    rewrite progress_values_app. simpl.
    rewrite teardown_no_progress, app_nil_r, Hlast, Hm. reflexivity. }
  split.
  { count_steps. rewrite Hec, Hel, Het, (loop_count_error Hloop). reflexivity. }
  split.
  { count_steps.
    rewrite (count_no_action _ action_of_click Hna),
      (count_no_action _ action_of_click (listener_no_action e)),
      (count_no_action _ action_of_click (teardown_no_action e w2)).
    simpl. rewrite Nat.add_0_r, <- Hcc, Hclicks.
    unfold move_raises. rewrite Htg. reflexivity. }
  count_steps.
  rewrite (count_no_action _ action_of_move Hna),
    (count_no_action _ action_of_move (listener_no_action e)),
    (count_no_action _ action_of_move (teardown_no_action e w2)).
  simpl. rewrite Nat.add_0_r, <- Hcm.
  rewrite Htg in Hmoves.
  destruct (fixed_target s) as [pos|] eqn:Hft.
  - apply Hmoves. discriminate.
  - symmetry in Hcm. rewrite <- Hcm.
    unfold count. erewrite loop_follow; [reflexivity | exact Hloop |].
    rewrite Htg. reflexivity.
Qed.

Lemma driver_failure_ends_run_witness :
  outcome 5 third_click_fails plan_left10 = Ok tt /\
  terminal_state (log 5 third_click_fails plan_left10) = Some Errored /\
  performed_of (log 5 third_click_fails plan_left10) = 2 /\
  count is_error (log 5 third_click_fails plan_left10) = 1%nat /\
  count is_click (log 5 third_click_fails plan_left10) = 3%nat /\
  count is_move (log 5 third_click_fails plan_left10) = O.
Proof.
  apply (@driver_failure_ends_run 5 third_click_fails plan_left10 10 2);
    try reflexivity; try lia.
  intros [|[|j]] Hj; try reflexivity. lia.
Defined.

(** ** C8: a listener that cannot be installed *)

Lemma countdown_count_running (e : Env) (w : World) (lc : list event)
    (wc : World) (b : bool) :
  countdown_part e w = (lc, wc, b) -> count is_running lc = O.
Proof.
  unfold countdown_part. intros H.
  destruct (negb (countdown (self w)));
    [|destruct (requested_by e (clock w));
      [|destruct (requested_by e (clock w + countdown_tick));
        [|destruct (requested_by e (clock w + countdown_tick + countdown_tick))]]];
    inversion H; subst; reflexivity.
Qed.

Lemma listener_count_running (e : Env) :
  count is_running (listener_events e) = O.
Proof.
  unfold listener_events.
  destruct (listener_new e); [|destruct (listener_start e)]; reflexivity.
Qed.

Lemma teardown_count_running (e : Env) (w : World) :
  count is_running (teardown_events e w) = O.
Proof. unfold teardown_events; destruct (_kb_listener (self w)); reflexivity. Qed.

(** The claim C8 fails: when the listener cannot be installed the run
    makes no click and ends with an error signal. *)
Lemma listener_failure_stops_run_example :
  listener_failure no_hook <> None /\
  log 5 no_hook plan_left3
  = [ListenerNew false; Error "Unexpected error: hook refused"; Finished] /\
  count is_click (log 5 no_hook plan_left3) = O /\
  terminal_state (log 5 no_hook plan_left3) = Some Errored.
Proof.
  split; [discriminate|]. vm_compute. repeat split.
Qed.

(** C8, amended. When the key listener cannot be installed (its
    constructor or its [start] raises) in a run whose countdown was not
    cancelled, the run does not reach its loop: it signals no "Running"
    status, calls the pointer driver not at all and signals no progress;
    it emits one error signal, carrying the text of the exception, and
    returns, errored. *)
Theorem listener_failure_ends_run (fuel : nat) (e : Env) (s : ClickWorker)
    (x : exn) :
  countdown_cancelled e s = false ->
  listener_failure e = Some x ->
  outcome fuel e s = Ok tt /\
  terminal_state (log fuel e s) = Some Errored /\
  count is_error (log fuel e s) = 1%nat /\
  In (Error (error_text x)) (log fuel e s) /\
  count is_running (log fuel e s) = O /\
  filter is_driver (log fuel e s) = [] /\
  progress_values (log fuel e s) = [].
Proof.
  intros Hcc Hlis.
  pose proof (exec_trace fuel e s) as H.
  destruct H as [lc wc Hcd | lc wc x' Hcd Hlis' | lc wc ll w2 Hcd Hlis' Hloop
                | lc wc ll w2 x' Hcd Hlis' Hloop | lc wc ll w2 p Hcd Hlis' Hloop];
    [ apply countdown_cancelled_eq in Hcd; congruence
    | | congruence | congruence | congruence ].
  assert (x' = x) by congruence. subst x'.
  destruct (count_error_outside _ _ Hcd) as (Hec & Hel & Het).
  pose proof (countdown_part_spec _ _ Hcd) as (_ & Hp & Hd & _).
  split; [reflexivity|].
  split; [apply terminal_state_app_some, terminal_state_app_some,
            terminal_error|].
  split; [count_steps; rewrite Hec, Hel, Het; reflexivity|].
  split; [apply in_or_app; right; apply in_or_app; right; left; reflexivity|].
  split.
  { count_steps.
    rewrite (countdown_count_running _ _ Hcd), listener_count_running,
      teardown_count_running. reflexivity. }
  split.
  { rewrite !filter_app, Hd. simpl.
    rewrite (filter_no_action _ action_of_driver (listener_no_action e)).
    simpl. apply (filter_no_action _ action_of_driver), teardown_no_action. }
  rewrite !progress_values_app, Hp, listener_no_progress. simpl.
  apply teardown_no_progress.
Qed.

Lemma listener_failure_ends_run_witness :
  countdown_cancelled no_hook plan_left3 = false /\
  listener_failure no_hook = Some (mkExn OtherException "hook refused") /\
  outcome 5 no_hook plan_left3 = Ok tt /\
  terminal_state (log 5 no_hook plan_left3) = Some Errored /\
  count is_error (log 5 no_hook plan_left3) = 1%nat /\
  In (Error "Unexpected error: hook refused") (log 5 no_hook plan_left3) /\
  count is_running (log 5 no_hook plan_left3) = O /\
  filter is_driver (log 5 no_hook plan_left3) = [] /\
  progress_values (log 5 no_hook plan_left3) = [].
Proof.
  split; [reflexivity|]. split; [reflexivity|].
  apply (@listener_failure_ends_run 5 no_hook plan_left3
           (mkExn OtherException "hook refused")); reflexivity.
Defined.

(** ** C4: cancelling before the countdown is over *)

Lemma requested_by_spec (e : Env) (T t : time) :
  stop_at e = Some T ->
  (requested_by e t = true <-> 0 <= T <= t).
Proof.
  unfold requested_by. intros ->. rewrite andb_true_iff, !Z.leb_le. tauto.
Qed.

Lemma requested_by_false (e : Env) (T t : time) :
  stop_at e = Some T -> 0 <= T ->
  requested_by e t = false -> t < T.
Proof.
  intros Hs HT H. destruct (Z.lt_ge_cases t T) as [Hlt|Hge]; [exact Hlt|].
  assert (Hr : requested_by e t = true)
    by (apply (requested_by_spec e t Hs); lia).
  congruence.
Qed.

Lemma clock_listener_world (e : Env) (w : World) :
  clock (listener_world e w) = clock w.
Proof. unfold listener_world; destruct (listener_new e); reflexivity. Qed.

(** A countdown that is not cancelled takes three ticks. *)
Lemma countdown_passed (e : Env) (w : World) (lc : list event) (wc : World) :
  countdown (self w) = true ->
  countdown_part e w = (lc, wc, false) ->
  clock wc = clock w + 3 * countdown_tick /\
  filter is_sleep lc
  = [Sleep countdown_tick; Sleep countdown_tick; Sleep countdown_tick].
Proof.
  unfold countdown_part. intros -> H. cbn [negb] in H.
  destruct (requested_by e (clock w)); [discriminate|].
  destruct (requested_by e (clock w + countdown_tick)); [discriminate|].
  destruct (requested_by e (clock w + countdown_tick + countdown_tick));
    [discriminate|].
  inversion H; subst. split; [cbn [clock advance]; lia | reflexivity].
Qed.

(** The loop finds the flag up at its first read. *)
Lemma loop_first_poll (e : Env) (interval_s : time) (fuel : nat) (p : Z)
    (w : World) (l : list event) (w' : World) (r : result Z) :
  loop_run e interval_s (S fuel) p w l w' r ->
  _stop_requested (self (deliver e w)) = true ->
  l = [Poll true] /\ w' = deliver e w /\ r = Ok p.
Proof.
  intros H Hflag. inversion H; subst; try congruence. repeat split.
Qed.

Lemma deliver_idem (e : Env) (w : World) : deliver e (deliver e w) = deliver e w.
Proof.
  unfold deliver at 1. rewrite clock_deliver.
  destruct (requested_by e (clock w)) eqn:H; [|reflexivity].
  unfold deliver. rewrite H. reflexivity.
Qed.

(** The claim C4 fails in its state: the request came before the end of
    the countdown, and the run does not end stopped. *)
Lemma cancel_in_last_tick_errors_example :
  countdown plan_fixed2 = true /\
  stop_at late_stop_no_hook = Some (2500 * ns_per_ms) /\
  2500 * ns_per_ms < 3 * countdown_tick /\
  terminal_state (log 5 late_stop_no_hook plan_fixed2) = Some Errored /\
  terminal_state (log 5 late_stop_no_hook plan_fixed2) <> Some Stopped.
Proof.
  split; [reflexivity|]. split; [reflexivity|]. split; [reflexivity|].
  assert (H : terminal_state (log 5 late_stop_no_hook plan_fixed2) = Some Errored)
    by (vm_compute; reflexivity).
  split; [exact H | rewrite H; discriminate].
Qed.

(** C4, amended. With the countdown on and a stop request made before the
    countdown is over, the run returns without a single call of the
    pointer driver and without a progress signal (0 clicks performed).
    It ends stopped, except that a request which comes only after the
    last check of the countdown meets the start of the key listener
    first: if that raises, the run ends errored. *)
Theorem cancel_before_countdown_ends (fuel : nat) (e : Env) (s : ClickWorker)
    (T : time) :
  countdown s = true ->
  stop_at e = Some T ->
  0 <= T < 3 * countdown_tick ->
  outcome (S fuel) e s = Ok tt /\
  filter is_driver (log (S fuel) e s) = [] /\
  progress_values (log (S fuel) e s) = [] /\
  performed_of (log (S fuel) e s) = 0 /\
  terminal_state (log (S fuel) e s)
  = Some (match listener_failure e with
          | Some _ => if countdown_cancelled e s then Stopped else Errored
          | None => Stopped
          end).
Proof.
  intros Hcd' Hstop HT.
  assert (Hmain :
    outcome (S fuel) e s = Ok tt /\
    filter is_driver (log (S fuel) e s) = [] /\
    progress_values (log (S fuel) e s) = [] /\
    terminal_state (log (S fuel) e s)
    = Some (match listener_failure e with
            | Some _ => if countdown_cancelled e s then Stopped else Errored
            | None => Stopped
            end)).
  { pose proof (exec_trace (S fuel) e s) as H.
    destruct H as [lc wc Hcd | lc wc x Hcd Hlis | lc wc ll w2 Hcd Hlis Hloop
                  | lc wc ll w2 x Hcd Hlis Hloop | lc wc ll w2 p Hcd Hlis Hloop];
      pose proof (countdown_cancelled_eq _ _ Hcd) as Hb;
      pose proof (countdown_part_spec _ _ Hcd) as (_ & Hp & Hd & _).
    - split; [reflexivity|]. split; [|split].
      + rewrite filter_app, Hd.
        apply (filter_no_action _ action_of_driver), teardown_no_action.
      + rewrite progress_values_app, Hp. apply teardown_no_progress.
      + rewrite <- Hb.
        rewrite (terminal_state_app_none _ _ (terminal_teardown e wc)).
        rewrite (terminal_countdown_returned _ _ Hcd).
        destruct (listener_failure e); reflexivity.
    - split; [reflexivity|]. split; [|split].
      + rewrite !filter_app, Hd. simpl.
        rewrite (filter_no_action _ action_of_driver (listener_no_action e)).
        simpl. apply (filter_no_action _ action_of_driver), teardown_no_action.
      + rewrite !progress_values_app, Hp, listener_no_progress. simpl.
        apply teardown_no_progress.
      + rewrite <- Hb, Hlis.
        apply terminal_state_app_some, terminal_state_app_some, terminal_error.
    - exfalso.
      destruct (countdown_passed e (reset (start s)) Hcd' Hcd) as [Hclock _].
      assert (Hflag : _stop_requested (self (deliver e (listener_world e wc))) = true).
      { rewrite flag_deliver, clock_listener_world, Hclock.
        apply orb_true_iff; right.
        apply (requested_by_spec e _ Hstop).
        cbn [clock reset start with_self].
        unfold countdown_tick, ns_per_s in *. lia. }
      destruct (loop_first_poll Hloop Hflag) as (_ & _ & Hr). discriminate.
    - exfalso.
      destruct (countdown_passed e (reset (start s)) Hcd' Hcd) as [Hclock _].
      assert (Hflag : _stop_requested (self (deliver e (listener_world e wc))) = true).
      { rewrite flag_deliver, clock_listener_world, Hclock.
        apply orb_true_iff; right.
        apply (requested_by_spec e _ Hstop).
        cbn [clock reset start with_self].
        unfold countdown_tick, ns_per_s in *. lia. }
      destruct (loop_first_poll Hloop Hflag) as (_ & _ & Hr). discriminate.
    - destruct (countdown_passed e (reset (start s)) Hcd' Hcd) as [Hclock _].
      assert (Hflag : _stop_requested (self (deliver e (listener_world e wc))) = true).
      { rewrite flag_deliver, clock_listener_world, Hclock.
        apply orb_true_iff; right.
        apply (requested_by_spec e _ Hstop).
        cbn [clock reset start with_self].
        unfold countdown_tick, ns_per_s in *. lia. }
      destruct (loop_first_poll Hloop Hflag) as (-> & -> & _).
      rewrite deliver_idem, Hflag.
      split; [reflexivity|]. split; [|split].
      + rewrite !filter_app, Hd. simpl.
        rewrite (filter_no_action _ action_of_driver (listener_no_action e)).
        simpl.
        apply (filter_no_action _ action_of_driver), teardown_no_action.
      + rewrite !progress_values_app, Hp, listener_no_progress. simpl.
        apply teardown_no_progress.
      + rewrite Hlis.
        apply terminal_state_app_some, terminal_state_app_some,
          terminal_state_cons_some.
        apply (terminal_state_app_some [Poll true]).
        apply (terminal_closing e _ true). }
  destruct Hmain as (Hout & Hdrv & Hprog & Hterm).
  unfold performed_of. rewrite Hprog.
  repeat split; assumption.
Qed.

Lemma cancel_before_countdown_ends_witness :
  countdown plan_fixed2 = true /\
  stop_at (stop_after (1500 * ns_per_ms)) = Some (1500 * ns_per_ms) /\
  0 <= 1500 * ns_per_ms < 3 * countdown_tick /\
  outcome 1 (stop_after (1500 * ns_per_ms)) plan_fixed2 = Ok tt /\
  filter is_driver (log 1 (stop_after (1500 * ns_per_ms)) plan_fixed2) = [] /\
  progress_values (log 1 (stop_after (1500 * ns_per_ms)) plan_fixed2) = [] /\
  performed_of (log 1 (stop_after (1500 * ns_per_ms)) plan_fixed2) = 0 /\
  terminal_state (log 1 (stop_after (1500 * ns_per_ms)) plan_fixed2)
  = Some Stopped.
Proof.
  assert (HT : 0 <= 1500 * ns_per_ms < 3 * countdown_tick)
    by (unfold ns_per_ms, countdown_tick, ns_per_s; lia).
  split; [reflexivity|]. split; [reflexivity|]. split; [exact HT|].
  exact (@cancel_before_countdown_ends 0 (stop_after (1500 * ns_per_ms))
           plan_fixed2 (1500 * ns_per_ms) eq_refl eq_refl HT).
Defined.

(** ** C5: the sleep of a countdown tick *)

(** The claim C5 fails: with a stop request a tenth of a second into the
    first tick, the tick still sleeps its whole second in one piece, and
    the run returns 900 ms after the request, not within a quantum. *)
Lemma countdown_sleep_not_cut_short_example :
  log 5 (stop_after (100 * ns_per_ms)) plan_fixed2
  = [Poll false; Status "Starting in 3… (press ESC to cancel)";
     Sleep countdown_tick;
     Poll true; Status "Start aborted."; Finished; Finished] /\
  clock (final 5 (stop_after (100 * ns_per_ms)) plan_fixed2) = countdown_tick /\
  ~ (clock (final 5 (stop_after (100 * ns_per_ms)) plan_fixed2)
       - 100 * ns_per_ms <= poll_quantum).
Proof.
  split; [vm_compute; reflexivity|].
  assert (H : clock (final 5 (stop_after (100 * ns_per_ms)) plan_fixed2)
              = countdown_tick) by (vm_compute; reflexivity).
  split; [exact H|]. rewrite H. vm_compute. intros Hle. apply Hle. reflexivity.
Qed.

Lemma teardown_no_sleep (e : Env) (w : World) :
  filter is_sleep (teardown_events e w) = [].
Proof. unfold teardown_events; destruct (_kb_listener (self w)); reflexivity. Qed.

Lemma listener_no_sleep (e : Env) : filter is_sleep (listener_events e) = [].
Proof.
  unfold listener_events.
  destruct (listener_new e); [|destruct (listener_start e)]; reflexivity.
Qed.

(** C5, amended. With the countdown on and a stop request made at the
    instant [T] of the countdown, every sleep of the run is one whole
    tick of one second: the flag is read only between ticks, and the run
    takes note of the request at the next whole second, that is up to a
    second after it was made. *)
Theorem countdown_sleeps_whole_ticks (fuel : nat) (e : Env) (s : ClickWorker)
    (T : time) :
  countdown s = true ->
  stop_at e = Some T ->
  0 <= T <= 3 * countdown_tick ->
  filter is_sleep (log (S fuel) e s)
  = repeat (Sleep countdown_tick) (Z.to_nat (ticks_until T)) /\
  clock (final (S fuel) e s) = ticks_until T * countdown_tick /\
  T <= clock (final (S fuel) e s) < T + countdown_tick.
Proof.
  intros Hcd' Hstop HT.
  assert (Hmain :
    filter is_sleep (log (S fuel) e s)
    = repeat (Sleep countdown_tick) (Z.to_nat (ticks_until T)) /\
    clock (final (S fuel) e s) = ticks_until T * countdown_tick).
  { pose proof (exec_trace (S fuel) e s) as H.
    destruct H as [lc wc Hcd | lc wc x Hcd Hlis | lc wc ll w2 Hcd Hlis Hloop
                  | lc wc ll w2 x Hcd Hlis Hloop | lc wc ll w2 p Hcd Hlis Hloop].
    - (* the countdown returns *)
      rewrite filter_app, teardown_no_sleep, app_nil_r.
      unfold countdown_part in Hcd. cbn [reset start with_self self clock] in Hcd.
      change (countdown (set_stop_requested false s)) with (countdown s) in Hcd.
      rewrite Hcd' in Hcd. cbn [negb] in Hcd.
      destruct (requested_by e 0) eqn:H0.
      { apply (requested_by_spec e 0 Hstop) in H0.
        inversion Hcd; subst. cbn [close with_self clock].
        assert (HT0 : T = 0) by lia. subst T.
        split; reflexivity. }
      apply (requested_by_false e 0 Hstop) in H0; [|lia].
      destruct (requested_by e (0 + countdown_tick)) eqn:H1.
      { apply (requested_by_spec e _ Hstop) in H1.
        inversion Hcd; subst. cbn [close with_self clock advance].
        assert (Hk : ticks_until T = 1)
          by (unfold ticks_until, countdown_tick, ns_per_s in *;
              Z.div_mod_to_equations; lia).
        rewrite Hk. split; [reflexivity | cbn [clock reset start with_self]; lia]. }
      apply (requested_by_false e _ Hstop) in H1; [|lia].
      destruct (requested_by e (0 + countdown_tick + countdown_tick)) eqn:H2;
        [|discriminate].
      apply (requested_by_spec e _ Hstop) in H2.
      inversion Hcd; subst. cbn [close with_self clock advance].
      assert (Hk : ticks_until T = 2)
        by (unfold ticks_until, countdown_tick, ns_per_s in *;
              Z.div_mod_to_equations; lia).
      rewrite Hk. split; [reflexivity | cbn [clock reset start with_self]; lia].
    - (* the listener cannot be started, after three ticks *)
      destruct (countdown_passed e (reset (start s)) Hcd' Hcd) as [Hclock Hsl].
      pose proof (countdown_cancelled_eq _ _ Hcd) as Hb.
      unfold countdown_cancelled in Hb. rewrite Hcd' in Hb. symmetry in Hb.
      apply (requested_by_false e _ Hstop) in Hb; [|lia].
      assert (Hk : ticks_until T = 3)
        by (unfold ticks_until, countdown_tick, ns_per_s in *;
              Z.div_mod_to_equations; lia).
      rewrite Hk. split.
      + rewrite !filter_app, Hsl, listener_no_sleep. simpl.
        rewrite teardown_no_sleep. reflexivity.
      + cbn [close with_self clock]. rewrite clock_listener_world, Hclock.
        reflexivity.
    - exfalso.
      destruct (countdown_passed e (reset (start s)) Hcd' Hcd) as [Hclock _].
      assert (Hflag : _stop_requested (self (deliver e (listener_world e wc))) = true).
      { rewrite flag_deliver, clock_listener_world, Hclock.
        apply orb_true_iff; right.
        apply (requested_by_spec e _ Hstop).
        cbn [clock reset start with_self]. lia. }
      destruct (loop_first_poll Hloop Hflag) as (_ & _ & Hr). discriminate.
    - exfalso.
      destruct (countdown_passed e (reset (start s)) Hcd' Hcd) as [Hclock _].
      assert (Hflag : _stop_requested (self (deliver e (listener_world e wc))) = true).
      { rewrite flag_deliver, clock_listener_world, Hclock.
        apply orb_true_iff; right.
        apply (requested_by_spec e _ Hstop).
        cbn [clock reset start with_self]. lia. }
      destruct (loop_first_poll Hloop Hflag) as (_ & _ & Hr). discriminate.
    - destruct (countdown_passed e (reset (start s)) Hcd' Hcd) as [Hclock Hsl].
      assert (Hflag : _stop_requested (self (deliver e (listener_world e wc))) = true).
      { rewrite flag_deliver, clock_listener_world, Hclock.
        apply orb_true_iff; right.
        apply (requested_by_spec e _ Hstop).
        cbn [clock reset start with_self]. lia. }
      destruct (loop_first_poll Hloop Hflag) as (-> & -> & _).
      pose proof (countdown_cancelled_eq _ _ Hcd) as Hb.
      unfold countdown_cancelled in Hb. rewrite Hcd' in Hb. symmetry in Hb.
      apply (requested_by_false e _ Hstop) in Hb; [|lia].
      assert (Hk : ticks_until T = 3)
        by (unfold ticks_until, countdown_tick, ns_per_s in *;
              Z.div_mod_to_equations; lia).
      rewrite Hk. split.
      + rewrite !filter_app, Hsl, listener_no_sleep. simpl.
        rewrite teardown_no_sleep. reflexivity.
      + cbn [close with_self clock].
        rewrite !clock_deliver, clock_listener_world, Hclock. reflexivity. }
  destruct Hmain as [Hsl Hclock].
  split; [exact Hsl|]. split; [exact Hclock|].
  rewrite Hclock. unfold ticks_until, countdown_tick, ns_per_s in *.
  Z.div_mod_to_equations. lia.
Qed.

Lemma countdown_sleeps_whole_ticks_witness :
  countdown plan_fixed2 = true /\
  stop_at (stop_after (100 * ns_per_ms)) = Some (100 * ns_per_ms) /\
  0 <= 100 * ns_per_ms <= 3 * countdown_tick /\
  filter is_sleep (log 1 (stop_after (100 * ns_per_ms)) plan_fixed2)
  = [Sleep countdown_tick] /\
  clock (final 1 (stop_after (100 * ns_per_ms)) plan_fixed2) = countdown_tick /\
  100 * ns_per_ms <= clock (final 1 (stop_after (100 * ns_per_ms)) plan_fixed2)
    < 100 * ns_per_ms + countdown_tick.
Proof.
  assert (HT : 0 <= 100 * ns_per_ms <= 3 * countdown_tick)
    by (unfold ns_per_ms, countdown_tick, ns_per_s; lia).
  split; [reflexivity|]. split; [reflexivity|]. split; [exact HT|].
  exact (@countdown_sleeps_whole_ticks 0 (stop_after (100 * ns_per_ms))
           plan_fixed2 (100 * ns_per_ms) eq_refl eq_refl HT).
Defined.

(** ** C6: how fast a stop request is seen *)

Lemma run_phase_none (l : list event) : count is_running l = O -> run_phase l = [].
Proof.
  induction l as [|ev l IH]; [reflexivity|].
  rewrite count_cons. simpl. destruct (is_running ev); [discriminate|].
  exact IH.
Qed.

Lemma run_phase_app (l1 l2 : list event) :
  count is_running l1 = O -> run_phase (l1 ++ l2) = run_phase l2.
Proof.
  induction l1 as [|ev l1 IH]; [reflexivity|].
  rewrite count_cons. simpl. destruct (is_running ev); [discriminate|].
  exact IH.
Qed.

Lemma loop_quantum_sleeps (e : Env) (interval_s : time) (fuel : nat) :
  forall p w l w' r,
    loop_run e interval_s fuel p w l w' r -> Forall quantum_sleep l.
Proof.
  intros p w l w' r H.
  assert (Hmove : forall w0, Forall quantum_sleep (move_events w0)).
  { intros w0. unfold move_events.
    destruct (fixed_target (self w0)); repeat constructor. }
  induction H as [p w | fuel p w Hf | fuel p w Hf Hx | fuel p w s Hf Hx Hm
                 | fuel p w s Hf Hx Hm Hc
                 | fuel p w lw w4 l w' r Hf Hx Hm Hc Hw Hrec IH].
  - constructor.
  - repeat constructor.
  - repeat constructor.
  - constructor; [exact I | apply Hmove].
  - constructor; [exact I|]. apply Forall_app; split; [apply Hmove|].
    repeat constructor.
  - destruct (idles_round _ _ _ Hw) as (Hlw & _).
    constructor; [exact I|]. apply Forall_app; split; [apply Hmove|].
    constructor; [exact I|]. constructor; [exact I|].
    apply Forall_app; split; [|exact IH].
    revert Hlw. apply Forall_impl.
    intros [] Hev; simpl in *; try contradiction; auto.
Qed.

Section Latency.

Variable e : Env.
Variable interval_s : time.

Variable T : time.
Variable D : time.

Hypothesis requested : stop_at e = Some T.
Hypothesis T_nonneg : 0 <= T.

Hypothesis moves_take_time : forall k, 0 <= fst (move_call e k).
Hypothesis clicks_take_time : forall k, 0 <= fst (click_call e k).

Hypothesis action_within :
  forall k j, fst (move_call e k) + fst (click_call e j) <= D.

(** While the flag is found down, the request is still to come. *)
Lemma flag_down_before (w : World) :
  _stop_requested (self (deliver e w)) = false ->
  clock w < T /\ _stop_requested (self w) = false.
Proof.
  rewrite flag_deliver. intros H. apply orb_false_iff in H as [Hf Hr].
  split; [|exact Hf]. apply (requested_by_false e _ requested T_nonneg Hr).
Qed.

Lemma wait_loop_latency (target : time) (n : nat) :
  forall w l w' r,
    wait_loop n e target w = (l, w', r) ->
    clock w < T + (poll_quantum + D) ->
    clock w' < T + (poll_quantum + D) /\
    (r = Ok tt -> _stop_requested (self w') = true \/ target <= clock w').
Proof.
  pose proof (moves_take_time O) as Hm0.
  pose proof (clicks_take_time O) as Hc0.
  pose proof (action_within O O) as HD.
  induction n as [|n IH]; intros w l w' r H Hlt.
  - simpl in H. unfold_m in H. inversion H; subst.
    split; [exact Hlt | discriminate].
  - simpl in H. unfold_m in H. simpl in H.
    destruct (_stop_requested (self (deliver e w))) eqn:Hflag.
    + inversion H; subst. rewrite clock_deliver. auto.
    + simpl in H.
      destruct (target <=? clock (deliver e w)) eqn:Ht.
      * inversion H; subst. rewrite clock_deliver in *.
        apply Z.leb_le in Ht. auto.
      * simpl in H. apply Z.leb_gt in Ht.
        destruct (flag_down_before w Hflag) as [Hbefore _].
        set (d := Z.min poll_quantum (target - clock (deliver e w))) in *.
        destruct (wait_loop n e target (advance d (deliver e w)))
          as [[l2 w2] r2] eqn:Hrec.
        apply IH in Hrec.
        -- destruct Hrec as [Hc Hr].
           destruct r2; inversion H; subst; auto.
        -- cbn [clock advance]. rewrite clock_deliver. unfold d. lia.
Qed.

Lemma interruptible_wait_latency (w : World) (l : list event) (w' : World)
    (r : result unit) :
  interruptible_wait e interval_s w = (l, w', r) ->
  clock w < T + (poll_quantum + D) ->
  clock w' < T + (poll_quantum + D) /\
  (_stop_requested (self w') = true \/ clock w + interval_s <= clock w').
Proof.
  intros H Hlt.
  pose proof (interruptible_wait_spec _ _ _ H) as (-> & _ & _).
  unfold interruptible_wait in H. unfold_m in H. simpl in H.
  destruct (wait_loop (wait_rounds interval_s) e (clock w + interval_s) w)
    as [[l2 w2] r2] eqn:Hw.
  destruct (wait_loop_latency _ _ _ Hw Hlt) as [Hc Hr].
  destruct r2 as [[]| |]; inversion H; subst.
  split; [exact Hc | apply Hr; reflexivity].
Qed.

Lemma clock_after_action (w : World) :
  clock w <= clock (after_move e w) <= clock w + D /\
  clock w <= clock (after_click e (after_move e w)) <= clock w + D.
Proof.
  unfold after_click, after_move.
  pose proof (moves_take_time (n_moves w)) as Hm.
  pose proof (action_within (n_moves w) O) as HD0.
  pose proof (clicks_take_time O) as Hc0.
  destruct (fixed_target (self w)); simpl.
  - pose proof (clicks_take_time (n_clicks w)) as Hc.
    pose proof (action_within (n_moves w) (n_clicks w)) as HD.
    lia.
  - pose proof (clicks_take_time (n_clicks w)) as Hc.
    pose proof (action_within (n_moves w) (n_clicks w)) as HD.
    lia.
Qed.

(** At no point of the loop is the clock a quantum and an action past
    the request. *)
Lemma loop_latency (fuel : nat) :
  forall p w l w' r,
    loop_run e interval_s fuel p w l w' r ->
    clock w < T + (poll_quantum + D) ->
    clock w' < T + (poll_quantum + D).
Proof.
  pose proof poll_quantum_pos as Hq.
  intros p w l w' r H.
  induction H as [p w | fuel p w Hf | fuel p w Hf Hx | fuel p w s Hf Hx Hm
                 | fuel p w s Hf Hx Hm Hc
                 | fuel p w lw w4 l w' r Hf Hx Hm Hc Hw Hrec IH];
    intros Hlt; rewrite ?clock_deliver; try exact Hlt;
    destruct (flag_down_before w Hf) as [Hbefore _];
    destruct (clock_after_action (deliver e w)) as [Hmv Hcl];
    rewrite clock_deliver in Hmv, Hcl.
  - lia.
  - lia.
  - apply IH.
    apply (interruptible_wait_latency _ Hw). lia.
Qed.

(** With rounds enough for the time up to the request, the loop is
    over. *)
Lemma loop_returns (fuel : nat) :
  forall p w l w' r,
    loop_run e interval_s fuel p w l w' r ->
    0 < interval_s ->
    clock w < T + (poll_quantum + D) ->
    (1 <= fuel)%nat ->
    (_stop_requested (self w) = true \/
     T + (poll_quantum + D) - clock w <= (Z.of_nat fuel - 1) * interval_s) ->
    r <> Pending.
Proof.
  pose proof poll_quantum_pos as Hq.
  pose proof (moves_take_time O) as Hm0.
  pose proof (clicks_take_time O) as Hc0.
  pose proof (action_within O O) as HD.
  intros p w l w' r H Hi.
  induction H as [p w | fuel p w Hf | fuel p w Hf Hx | fuel p w s Hf Hx Hm
                 | fuel p w s Hf Hx Hm Hc
                 | fuel p w lw w4 l w' r Hf Hx Hm Hc Hw Hrec IH];
    intros Hlt Hfuel Hfit; try discriminate; [lia|].
  destruct (flag_down_before w Hf) as [Hbefore Hdown].
  destruct Hfit as [Hup | Hfit]; [congruence|].
  destruct (clock_after_action (deliver e w)) as [_ Hcl].
  rewrite clock_deliver in Hcl.
  destruct (interruptible_wait_latency _ Hw ltac:(lia)) as [Hlt4 Hprog].
  assert (Hfuel' : (1 <= fuel)%nat) by nia.
  apply IH; [exact Hlt4 | exact Hfuel' |].
  destruct Hprog as [Hup | Hadv]; [left; exact Hup | right].
  nia.
Qed.

End Latency.

Lemma teardown_quantum_sleeps (e : Env) (w : World) :
  Forall quantum_sleep (teardown_events e w).
Proof.
  unfold teardown_events; destruct (_kb_listener (self w)); repeat constructor.
Qed.

Lemma loop_start_clock (e : Env) (s : ClickWorker) (lc : list event)
    (wc : World) :
  countdown_part e (reset (start s)) = (lc, wc, false) ->
  clock (listener_world e wc) = loop_start s /\
  interval_of (self wc) = interval_of s.
Proof.
  intros Hcd. rewrite clock_listener_world. unfold loop_start. split.
  - destruct (countdown s) eqn:Hc.
    + destruct (countdown_passed e (reset (start s)) Hc Hcd) as [-> _].
      reflexivity.
    + unfold countdown_part in Hcd.
      change (countdown (self (reset (start s)))) with (countdown s) in Hcd.
      rewrite Hc in Hcd. inversion Hcd; subst. reflexivity.
  - apply countdown_part_spec in Hcd as (Hi & _).
    destruct (idles_plan Hi) as (Hms & _).
    unfold interval_of. rewrite Hms. reflexivity.
Qed.

(** C6. Let a stop request be made at the instant [T], the run loop
    running (after the countdown, if there is one), and let no pointer
    action (a move and a click) take longer than [D].  Then, whatever the
    interval, the run is at no point later than one quantum of 10 ms plus
    [D] after [T]; given rounds enough to reach that instant it has
    returned; and every sleep of the run loop is of at most one
    quantum. *)
Theorem stop_seen_within_quantum (fuel : nat) (e : Env) (s : ClickWorker)
    (T D : time) :
  stop_at e = Some T ->
  loop_start s <= T ->
  (forall k, 0 <= fst (move_call e k)) ->
  (forall k, 0 <= fst (click_call e k)) ->
  (forall k j, fst (move_call e k) + fst (click_call e j) <= D) ->
  clock (final fuel e s) - T < poll_quantum + D /\
  (T + (poll_quantum + D) <= (Z.of_nat fuel - 1) * interval_of s ->
   outcome fuel e s <> Pending) /\
  Forall quantum_sleep (run_phase (log fuel e s)).
Proof.
  intros Hstop Hmid Hmt Hct HD.
  pose proof poll_quantum_pos as Hq.
  pose proof (Hmt O) as Hm0. pose proof (Hct O) as Hc0.
  pose proof (HD O O) as HD0.
  assert (Htick : 0 < countdown_tick) by reflexivity.
  assert (HT : 0 <= T) by (unfold loop_start in Hmid; destruct (countdown s); lia).
  assert (Hint : 0 < interval_of s)
    by (unfold interval_of, min_interval, ns_per_ms; lia).
  pose proof (exec_trace fuel e s) as H.
  destruct H as [lc wc Hcd | lc wc x Hcd Hlis | lc wc ll w2 Hcd Hlis Hloop
                | lc wc ll w2 x Hcd Hlis Hloop | lc wc ll w2 p Hcd Hlis Hloop].
  - exfalso. apply countdown_cancelled_eq in Hcd.
    unfold countdown_cancelled in Hcd. unfold loop_start in Hmid.
    destruct (countdown s); [|discriminate].
    cbn [andb] in Hcd. symmetry in Hcd.
    apply (requested_by_spec e _ Hstop) in Hcd. lia.
  - destruct (loop_start_clock _ _ Hcd) as [Hclock _].
    split; [|split].
    + cbn [close with_self clock]. rewrite Hclock. lia.
    + discriminate.
    + rewrite run_phase_none; [constructor|].
      count_steps.
      rewrite (countdown_count_running _ _ Hcd), listener_count_running,
        teardown_count_running. reflexivity.
  - destruct (loop_start_clock _ _ Hcd) as [Hclock Hi].
    pose proof (@loop_latency e _ T D Hstop HT Hmt Hct HD _ _ _ _ _ _ Hloop
                  ltac:(lia)) as Hlat.
    split; [lia|]. split.
    + intros Hfit. exfalso.
      assert (H0 : 0 <= loop_start s)
        by (unfold loop_start; destruct (countdown s); lia).
      apply (@loop_returns e _ T D Hstop HT Hmt Hct HD _ _ _ _ _ _ Hloop).
      * rewrite Hi; exact Hint.
      * lia.
      * nia.
      * right. rewrite Hi, Hclock. lia.
      * reflexivity.
    + rewrite run_phase_app by apply (countdown_count_running _ _ Hcd).
      rewrite run_phase_app by apply listener_count_running.
      simpl. apply (loop_quantum_sleeps Hloop).
  - destruct (loop_start_clock _ _ Hcd) as [Hclock Hi].
    pose proof (@loop_latency e _ T D Hstop HT Hmt Hct HD _ _ _ _ _ _ Hloop
                  ltac:(lia)) as Hlat.
    split; [cbn [close with_self clock]; lia|]. split; [discriminate|].
    rewrite run_phase_app by apply (countdown_count_running _ _ Hcd).
    rewrite run_phase_app by apply listener_count_running.
    simpl. apply Forall_app; split; [apply (loop_quantum_sleeps Hloop)|].
    constructor; [exact I | apply teardown_quantum_sleeps].
  - destruct (loop_start_clock _ _ Hcd) as [Hclock Hi].
    pose proof (@loop_latency e _ T D Hstop HT Hmt Hct HD _ _ _ _ _ _ Hloop
                  ltac:(lia)) as Hlat.
    split; [cbn [close with_self clock]; rewrite clock_deliver; lia|].
    split; [discriminate|].
    rewrite run_phase_app by apply (countdown_count_running _ _ Hcd).
    rewrite run_phase_app by apply listener_count_running.
    simpl. apply Forall_app; split; [apply (loop_quantum_sleeps Hloop)|].
    constructor; [exact I|]. constructor; [exact I|].
    apply teardown_quantum_sleeps.
Qed.

Lemma stop_seen_within_quantum_witness :
  stop_at (stop_after (25 * ns_per_ms)) = Some (25 * ns_per_ms) /\
  loop_start plan_left3 <= 25 * ns_per_ms /\
  clock (final 5 (stop_after (25 * ns_per_ms)) plan_left3) - 25 * ns_per_ms
    < poll_quantum + 0 /\
  outcome 5 (stop_after (25 * ns_per_ms)) plan_left3 <> Pending /\
  Forall quantum_sleep (run_phase (log 5 (stop_after (25 * ns_per_ms)) plan_left3)).
Proof.
  assert (Hmid : loop_start plan_left3 <= 25 * ns_per_ms)
    by (vm_compute; discriminate).
  split; [reflexivity|]. split; [exact Hmid|].
  destruct (@stop_seen_within_quantum 5 (stop_after (25 * ns_per_ms))
              plan_left3 (25 * ns_per_ms) 0 eq_refl Hmid)
    as (Hlat & Hret & Hsleeps).
  - intros k; simpl; lia.
  - intros k; simpl; lia.
  - intros k j; simpl; lia.
  - split; [exact Hlat|]. split; [|exact Hsleeps].
    apply Hret. vm_compute. discriminate.
Defined.

(** * Further properties of [ClickWorker.run] *)

(** ** Runs that reach their count *)

Lemma loop_total (e : Env) (interval_s : time) (fuel : nat) :
  forall p w l w' r,
    loop_run e interval_s fuel p w l w' r ->
    total_clicks (self w') = total_clicks (self w).
Proof.
  intros p w l w' r H.
  induction H as [p w | fuel p w Hf | fuel p w Hf Hx | fuel p w s Hf Hx Hm
                 | fuel p w s Hf Hx Hm Hc
                 | fuel p w lw w4 l w' r Hf Hx Hm Hc Hw Hrec IH];
    try reflexivity;
    try (rewrite ?self_after_click, ?self_after_move;
         apply (idles_total (idles_deliver e w))).
  destruct (idles_round _ _ _ Hw) as (_ & _ & Ht & _). congruence.
Qed.

Section Succeeding.

Variable e : Env.
Variable interval_s : time.
Hypothesis no_request : stop_at e = None.
Hypothesis moves_succeed : forall k, snd (move_call e k) = None.
Hypothesis clicks_succeed : forall k, snd (click_call e k) = None.

(** With rounds enough for the clicks that remain, the loop reaches the
    count exactly. *)
Lemma loop_reaches_count (n : Z) (fuel : nat) :
  forall p w l w' r,
    loop_run e interval_s fuel p w l w' r ->
    _stop_requested (self w) = false ->
    total_clicks (self w) = Some n ->
    p <= n ->
    (Z.to_nat (n - p) < fuel)%nat ->
    r = Ok n /\ last (progress_values l) p = n /\
    _stop_requested (self w') = false.
Proof.
  induction fuel as [|fuel IH]; intros p w l w' r H Hf Ht Hp Hfuel; [lia|].
  destruct (exhausted w p) eqn:Hx.
  - destruct (loop_exhausted_inv no_request H Hf Hx) as (-> & -> & ->).
    unfold exhausted, remaining_of in Hx. rewrite Ht in Hx. simpl in Hx.
    apply Z.leb_le in Hx. assert (p = n) by lia. subst p.
    repeat split. exact Hf.
  - destruct (good_round no_request moves_succeed clicks_succeed H Hf Hx)
      as (w4 & l2 & Hs & Hrec & ->).
    destruct (quota_bounded _ _ Ht Hx) as [Hq Hrem].
    pose proof (click_width_pos (mode (self w)) (quota w p)) as Hpos.
    pose proof (click_width_le (mode (self w)) Hrem) as Hle.
    rewrite <- Hq in Hle.
    fold (produced_by w p) in Hpos, Hle.
    destruct (IH _ _ _ _ _ Hrec) as (Hr & Hlast & Hflag);
      try (rewrite Hs; assumption); try lia.
    split; [exact Hr|]. split; [|exact Hflag].
    rewrite last_cons. exact Hlast.
Qed.

(** Without a count, the loop is still going after any number of
    rounds. *)
Lemma loop_goes_on (fuel : nat) :
  forall p w l w' r,
    loop_run e interval_s fuel p w l w' r ->
    _stop_requested (self w) = false ->
    total_clicks (self w) = None ->
    r = Pending /\ List.length (progress_values l) = fuel.
Proof.
  induction fuel as [|fuel IH]; intros p w l w' r H Hf Ht.
  - inversion H; subst. split; reflexivity.
  - assert (Hx : exhausted w p = false)
      by (unfold exhausted, remaining_of; rewrite Ht; reflexivity).
    destruct (good_round no_request moves_succeed clicks_succeed H Hf Hx)
      as (w4 & l2 & Hs & Hrec & ->).
    destruct (IH _ _ _ _ _ Hrec) as (Hr & Hlen);
      try (rewrite Hs; assumption).
    split; [exact Hr|]. simpl. rewrite Hlen. reflexivity.
Qed.

End Succeeding.

Lemma uncancelled_reaches_loop (fuel : nat) (e : Env) (s : ClickWorker)
    (l : list event) (w : World) (r : result unit) :
  stop_at e = None ->
  listener_failure e = None ->
  run_trace fuel e (start s) l w r ->
  exists lc wc ll w2 rl,
    countdown_part e (reset (start s)) = (lc, wc, false) /\
    loop_run e (interval_of (self wc)) fuel 0 (listener_world e wc) ll w2 rl /\
    match rl with
    | Pending => l = lc ++ listener_events e ++ running :: ll /\ r = Pending
    | Raised x =>
        l = lc ++ listener_events e ++ running :: ll
              ++ Error (error_text x) :: teardown_events e w2 /\ r = Ok tt
    | Ok _ =>
        l = lc ++ listener_events e ++ running :: ll
              ++ Poll (_stop_requested (self w2))
              :: closing_status (_stop_requested (self w2))
              :: teardown_events e w2 /\ r = Ok tt
    end.
Proof.
  intros Hstop Hlis H.
  destruct H as [lc wc Hcd | lc wc x Hcd Hlis' | lc wc ll w2 Hcd Hlis' Hloop
                | lc wc ll w2 x Hcd Hlis' Hloop | lc wc ll w2 p Hcd Hlis' Hloop].
  - apply countdown_cancelled_eq in Hcd. unfold countdown_cancelled in Hcd.
    rewrite (never_requested e Hstop), andb_false_r in Hcd. discriminate.
  - congruence.
  - exists lc, wc, ll, w2, Pending. repeat split; assumption.
  - exists lc, wc, ll, w2, (Raised x). repeat split; assumption.
  - exists lc, wc, ll, w2, (Ok p). rewrite (deliver_none e Hstop).
    repeat split; assumption.
Qed.

(** X1. A run bounded by [n] clicks that nobody cancels and in which no
    call raises returns, given more than [n] rounds: it has signalled
    "Completed." and performed exactly [n] clicks, whatever the mode. *)
Theorem bounded_run_completes (fuel : nat) (e : Env) (s : ClickWorker) (n : Z) :
  total_clicks s = Some n ->
  0 <= n ->
  stop_at e = None ->
  listener_failure e = None ->
  (forall k, snd (move_call e k) = None) ->
  (forall k, snd (click_call e k) = None) ->
  (Z.to_nat n < fuel)%nat ->
  outcome fuel e s = Ok tt /\
  terminal_state (log fuel e s) = Some Completed /\
  performed_of (log fuel e s) = n.
Proof.
  intros Htotal Hn Hstop Hlis Hmoves Hclicks Hfuel.
  destruct (uncancelled_reaches_loop Hstop Hlis (exec_trace fuel e s))
    as (lc & wc & ll & w2 & rl & Hcd & Hloop & Hshape).
  destruct (total_at_loop _ _ Hcd) as (Ht & _).
  destruct (loop_start_world _ _ Hcd) as (Hf & _).
  destruct (@loop_reaches_count e _ Hstop Hmoves Hclicks n fuel _ _ _ _ _
              Hloop Hf) as (-> & Hlast & Hflag);
    [congruence | lia | rewrite Z.sub_0_r; exact Hfuel |].
  destruct Hshape as [Hl Hr].
  pose proof (countdown_part_spec _ _ Hcd) as (_ & Hp & _).
  split; [exact Hr|]. rewrite Hl, Hflag. split.
  - apply terminal_state_app_some, terminal_state_app_some,
      terminal_state_cons_some, terminal_state_app_some.
    apply (terminal_closing e w2 false).
  - unfold performed_of.
    rewrite !progress_values_app, Hp, listener_no_progress. simpl.
    rewrite progress_values_app. simpl.
    rewrite teardown_no_progress, app_nil_r. exact Hlast.
Qed.


Lemma bounded_run_completes_witness :
  outcome 8 quiet plan_right7 = Ok tt /\
  terminal_state (log 8 quiet plan_right7) = Some Completed /\
  performed_of (log 8 quiet plan_right7) = 7.
Proof.
  apply (@bounded_run_completes 8 quiet plan_right7 7); try reflexivity.
  - lia.
  - simpl. lia.
Defined.

(** X2. A continuous run (no count) that nobody cancels and in which no
    call raises does not return: after any number of rounds it is still
    going, with one progress signal per round. *)
Theorem continuous_run_goes_on (fuel : nat) (e : Env) (s : ClickWorker) :
  total_clicks s = None ->
  stop_at e = None ->
  listener_failure e = None ->
  (forall k, snd (move_call e k) = None) ->
  (forall k, snd (click_call e k) = None) ->
  outcome fuel e s = Pending /\
  List.length (progress_values (log fuel e s)) = fuel.
Proof.
  intros Htotal Hstop Hlis Hmoves Hclicks.
  destruct (uncancelled_reaches_loop Hstop Hlis (exec_trace fuel e s))
    as (lc & wc & ll & w2 & rl & Hcd & Hloop & Hshape).
  destruct (total_at_loop _ _ Hcd) as (Ht & _).
  destruct (loop_start_world _ _ Hcd) as (Hf & _).
  destruct (@loop_goes_on e _ Hstop Hmoves Hclicks fuel _ _ _ _ _ Hloop Hf)
    as (-> & Hlen); [congruence|].
  destruct Hshape as [Hl Hr].
  pose proof (countdown_part_spec _ _ Hcd) as (_ & Hp & _).
  split; [exact Hr|]. rewrite Hl.
  rewrite !progress_values_app, Hp, listener_no_progress. simpl. exact Hlen.
Qed.


Lemma continuous_run_goes_on_witness :
  outcome 6 quiet plan_continuous = Pending /\
  List.length (progress_values (log 6 quiet plan_continuous)) = 6%nat.
Proof.
  apply (@continuous_run_goes_on 6 quiet plan_continuous); reflexivity.
Defined.

(** ** What the last status tells *)

Lemma terminal_loop_events (l : list event) :
  Forall loop_event l -> terminal_state l = None.
Proof.
  induction 1 as [|ev l Hev _ IH]; [reflexivity|].
  simpl. rewrite IH. destruct ev; simpl in *; try contradiction; reflexivity.
Qed.

Lemma terminal_countdown_passed (e : Env) (w : World) (lc : list event)
    (wc : World) :
  countdown_part e w = (lc, wc, false) -> terminal_state lc = None.
Proof.
  unfold countdown_part. intros H.
  destruct (negb (countdown (self w)));
    [|destruct (requested_by e (clock w));
      [|destruct (requested_by e (clock w + countdown_tick));
        [|destruct (requested_by e (clock w + countdown_tick + countdown_tick))]]];
    inversion H; subst; reflexivity.
Qed.

Lemma terminal_listener (e : Env) : terminal_state (listener_events e) = None.
Proof.
  unfold listener_events.
  destruct (listener_new e); [|destruct (listener_start e)]; reflexivity.
Qed.

(** The way a run ended, by the way through [run]. *)
Lemma terminal_by_trace (fuel : nat) (e : Env) (w0 : World) (l : list event)
    (w : World) (r : result unit) :
  run_trace fuel e w0 l w r ->
  (terminal_state l = Some Stopped /\ r = Ok tt /\ count is_error l = O /\
   (exists lc wc, countdown_part e (reset w0) = (lc, wc, true)
                  /\ l = lc ++ teardown_events e wc /\ w = close wc)) \/
  (terminal_state l = Some Errored /\ r = Ok tt /\ count is_error l = 1%nat) \/
  (terminal_state l = None /\ r = Pending /\ count is_error l = O) \/
  (r = Ok tt /\ count is_error l = O /\
   exists lc wc ll w2 p,
     countdown_part e (reset w0) = (lc, wc, false) /\
     loop_run e (interval_of (self wc)) fuel 0 (listener_world e wc) ll w2 (Ok p) /\
     w = close (deliver e w2) /\
     terminal_state l
     = Some (if _stop_requested (self (deliver e w2)) then Stopped else Completed) /\
     progress_values l = progress_values ll).
Proof.
  intros H.
  destruct H as [lc wc Hcd | lc wc x Hcd Hlis | lc wc ll w2 Hcd Hlis Hloop
                | lc wc ll w2 x Hcd Hlis Hloop | lc wc ll w2 p Hcd Hlis Hloop];
    destruct (count_error_outside _ _ Hcd) as (Hec & Hel & Het);
    pose proof (countdown_part_spec _ _ Hcd) as (_ & Hp & _).
  - left. split; [|split; [reflexivity|split]].
    + rewrite (terminal_state_app_none _ _ (terminal_teardown e wc)).
      apply (terminal_countdown_returned _ _ Hcd).
    + count_steps. rewrite Hec, Het. reflexivity.
    + exists lc, wc. repeat split. exact Hcd.
  - right; left. split; [|split; [reflexivity|]].
    + apply terminal_state_app_some, terminal_state_app_some, terminal_error.
    + count_steps. rewrite Hec, Hel, Het. reflexivity.
  - right; right; left. split; [|split; [reflexivity|]].
    + rewrite app_assoc.
      change (running :: ll) with ([running] ++ ll). rewrite app_assoc.
      rewrite (terminal_state_app_none _ _
                 (terminal_loop_events (loop_events Hloop))).
      rewrite (terminal_state_app_none _ [running] eq_refl).
      rewrite (terminal_state_app_none _ _ (terminal_listener e)).
      apply (terminal_countdown_passed _ _ Hcd).
    + count_steps. rewrite Hec, Hel, (loop_count_error Hloop). reflexivity.
  - right; left. split; [|split; [reflexivity|]].
    + apply terminal_state_app_some, terminal_state_app_some,
        terminal_state_cons_some, terminal_state_app_some, terminal_error.
    + count_steps. rewrite Hec, Hel, Het, (loop_count_error Hloop). reflexivity.
  - right; right; right. split; [reflexivity|]. split.
    + count_steps. unfold closing_status. cbn [is_error].
      rewrite Hec, Hel, Het, (loop_count_error Hloop). reflexivity.
    + exists lc, wc, ll, w2, p. repeat split; try assumption.
      * apply terminal_state_app_some, terminal_state_app_some,
          terminal_state_cons_some, terminal_state_app_some.
        apply terminal_closing.
      * rewrite !progress_values_app, Hp, listener_no_progress. simpl.
        rewrite progress_values_app. simpl.
        rewrite teardown_no_progress, app_nil_r. reflexivity.
Qed.

(** The loop is left with the flag up or with the count reached. *)
Lemma loop_left (e : Env) (interval_s : time) (fuel : nat) :
  forall p w l w' r,
    loop_run e interval_s fuel p w l w' r ->
    forall p', r = Ok p' ->
    last (progress_values l) p = p' /\
    _stop_requested (self (deliver e w')) = _stop_requested (self w') /\
    (_stop_requested (self w') = false -> exhausted w' p' = true).
Proof.
  intros p w l w' r H.
  induction H as [p w | fuel p w Hf | fuel p w Hf Hx | fuel p w s Hf Hx Hm
                 | fuel p w s Hf Hx Hm Hc
                 | fuel p w lw w4 l w' r Hf Hx Hm Hc Hw Hrec IH];
    intros p' Hr; try discriminate.
  - inversion Hr; subst. rewrite deliver_idem.
    repeat split. congruence.
  - inversion Hr; subst. rewrite deliver_idem.
    repeat split. intros _. exact Hx.
  - destruct (idles_round _ _ _ Hw) as (Hlw & _).
    destruct (IH p' Hr) as (Hlast & Hrest).
    split; [|exact Hrest].
    unfold click_event. cbn [progress_values].
    rewrite progress_values_app, move_no_progress by exact e.
    cbn [app progress_values].
    rewrite progress_values_app, (wait_no_progress Hlw).
    cbn [app]. rewrite last_cons. exact Hlast.
Qed.

(** X3. Whatever happens around it, a run signals "Completed." only when
    it has a count and has performed it: its clicks are no fewer than the
    count, and exactly the count when this is not negative.  A continuous
    run never signals it. *)
Theorem completed_means_count_reached (fuel : nat) (e : Env) (s : ClickWorker) :
  terminal_state (log fuel e s) = Some Completed ->
  exists n,
    total_clicks s = Some n /\
    n <= performed_of (log fuel e s) /\
    (0 <= n -> performed_of (log fuel e s) = n).
Proof.
  intros Hdone.
  destruct (terminal_by_trace (exec_trace fuel e s))
    as [(Ht & _) | [(Ht & _) | [(Ht & _)
       | (_ & _ & lc & wc & ll & w2 & p & Hcd & Hloop & _ & Ht & Hpv)]]];
    try congruence.
  rewrite Ht in Hdone.
  destruct (loop_left Hloop eq_refl) as (Hlast & Hsame & Hcount).
  rewrite Hsame in Hdone.
  destruct (_stop_requested (self w2)) eqn:Hflag; [discriminate|].
  specialize (Hcount eq_refl).
  unfold exhausted, remaining_of in Hcount.
  rewrite (loop_total Hloop) in Hcount.
  destruct (total_at_loop _ _ Hcd) as (Htot & _). rewrite Htot in Hcount.
  destruct (total_clicks s) as [n|] eqn:Hn; [|discriminate].
  simpl in Hcount. apply Z.leb_le in Hcount.
  unfold performed_of. rewrite Hpv, Hlast.
  exists n. split; [reflexivity|]. split; [lia|].
  intros Hn0.
  destruct (loop_progress Hloop) as [_ Hbound].
  assert (Hall : Forall (fun v => v <= n) (progress_values ll))
    by (apply Hbound; [congruence | lia]).
  pose proof (last_bounded Hn0 Hall) as Hle.
  rewrite Hlast in Hle. lia.
Qed.

Lemma completed_means_count_reached_witness :
  terminal_state (log 8 quiet plan_right7) = Some Completed /\
  exists n,
    total_clicks plan_right7 = Some n /\
    n <= performed_of (log 8 quiet plan_right7) /\
    (0 <= n -> performed_of (log 8 quiet plan_right7) = n).
Proof.
  assert (H : terminal_state (log 8 quiet plan_right7) = Some Completed)
    by (vm_compute; reflexivity).
  split; [exact H|].
  exact (@completed_means_count_reached 8 quiet plan_right7 H).
Defined.

(** X4. A run emits at most one error signal, and it emits one exactly
    when it ends errored. *)
Theorem one_error_iff_errored (fuel : nat) (e : Env) (s : ClickWorker) :
  count is_error (log fuel e s)
  = match terminal_state (log fuel e s) with
    | Some Errored => 1%nat
    | _ => O
    end.
Proof.
  destruct (terminal_by_trace (exec_trace fuel e s))
    as [(Ht & _ & Hc & _) | [(Ht & _ & Hc) | [(Ht & _ & Hc)
       | (_ & Hc & lc & wc & ll & w2 & p & _ & _ & _ & Ht & _)]]];
    rewrite Ht, Hc; try reflexivity.
  destruct (_stop_requested (self (deliver e w2))); reflexivity.
Qed.

(** ** The counter and the clicks sent *)

Lemma click_total_app (l1 l2 : list event) :
  click_total (l1 ++ l2) = click_total l1 + click_total l2.
Proof.
  induction l1 as [|ev l1 IH]; [reflexivity|].
  destruct ev; simpl; rewrite IH; lia.
Qed.

Lemma click_total_no_action (l : list event) :
  no_action l -> click_total l = 0.
Proof.
  induction 1 as [|ev l Hev _ IH]; [reflexivity|].
  destruct ev; simpl in *; try discriminate; exact IH.
Qed.

Lemma move_events_no_action_but_move (e : Env) (w : World) :
  click_total (move_events w) = 0.
Proof. unfold move_events; destruct (fixed_target (self w)); reflexivity. Qed.

Lemma loop_counts_clicks (e : Env) (interval_s : time) (fuel : nat) :
  forall p w l w' r,
    loop_run e interval_s fuel p w l w' r ->
    (forall x, r <> Raised x) ->
    last (progress_values l) p = p + click_total l.
Proof.
  intros p w l w' r H.
  induction H as [p w | fuel p w Hf | fuel p w Hf Hx | fuel p w s Hf Hx Hm
                 | fuel p w s Hf Hx Hm Hc
                 | fuel p w lw w4 l w' r Hf Hx Hm Hc Hw Hrec IH];
    intros Hr; try (simpl; lia);
    try (exfalso; eapply Hr; reflexivity).
  destruct (idles_round _ _ _ Hw) as (Hlw & _).
  specialize (IH Hr).
  unfold click_event. cbn [progress_values click_total].
  rewrite progress_values_app, move_no_progress by exact e.
  rewrite click_total_app, move_events_no_action_but_move by exact e.
  cbn [app progress_values click_total].
  rewrite progress_values_app, (wait_no_progress Hlw).
  rewrite click_total_app, (click_total_no_action (wait_no_action Hlw)).
  cbn [app]. rewrite last_cons, IH. lia.
Qed.

(** X5. Unless the run emits an error signal, the count it signals is the
    number of clicks it has asked the driver for: no click is sent that is
    not counted, none counted that was not sent. *)
Theorem counter_is_clicks_sent (fuel : nat) (e : Env) (s : ClickWorker) :
  count is_error (log fuel e s) = O ->
  performed_of (log fuel e s) = click_total (log fuel e s).
Proof.
  intros Hnone.
  pose proof (exec_trace fuel e s) as H.
  destruct H as [lc wc Hcd | lc wc x Hcd Hlis | lc wc ll w2 Hcd Hlis Hloop
                | lc wc ll w2 x Hcd Hlis Hloop | lc wc ll w2 p Hcd Hlis Hloop];
    destruct (count_error_outside _ _ Hcd) as (Hec & Hel & Het);
    pose proof (countdown_part_spec _ _ Hcd) as (_ & Hp & _);
    pose proof (click_total_no_action (countdown_no_action _ _ Hcd)) as Hcl;
    pose proof (click_total_no_action (listener_no_action e)) as Hll;
    unfold performed_of.
  - rewrite progress_values_app, Hp, teardown_no_progress.
    rewrite click_total_app, Hcl,
      (click_total_no_action (teardown_no_action e wc)). reflexivity.
  - exfalso. revert Hnone. count_steps. rewrite Hec, Hel, Het. discriminate.
  - rewrite !progress_values_app, Hp, listener_no_progress.
    rewrite !click_total_app, Hcl, Hll. cbn [app progress_values click_total running].
    rewrite (loop_counts_clicks Hloop); [lia | discriminate].
  - exfalso. revert Hnone. count_steps.
    rewrite Hec, Hel, Het, (loop_count_error Hloop). discriminate.
  - rewrite !progress_values_app, Hp, listener_no_progress.
    rewrite !click_total_app, Hcl, Hll.
    cbn [app progress_values click_total running].
    rewrite progress_values_app, click_total_app.
    unfold closing_status. cbn [progress_values click_total].
    rewrite teardown_no_progress, app_nil_r.
    rewrite (click_total_no_action (teardown_no_action e (deliver e w2))).
    rewrite (loop_counts_clicks Hloop); [lia | discriminate].
Qed.

Lemma counter_is_clicks_sent_witness :
  count is_error (log 6 quiet plan_double5) = O /\
  performed_of (log 6 quiet plan_double5) = click_total (log 6 quiet plan_double5).
Proof.
  assert (H : count is_error (log 6 quiet plan_double5) = O)
    by (vm_compute; reflexivity).
  split; [exact H|].
  exact (@counter_is_clicks_sent 6 quiet plan_double5 H).
Defined.

(** ** The button *)

Lemma single_click_no_action (b : Button) (l : list event) :
  no_action l -> Forall (single_click b) l.
Proof.
  apply Forall_impl. intros [] H; simpl in *; try discriminate; exact I.
Qed.

Lemma loop_single_clicks (e : Env) (interval_s : time) (fuel : nat) :
  forall p w l w' r,
    loop_run e interval_s fuel p w l w' r ->
    (mode (self w) =? "Double (left)")%string = false ->
    Forall (single_click (click_button (mode (self w)))) l.
Proof.
  intros p w l w' r H.
  assert (Hmove : forall b w0, Forall (single_click b) (move_events w0)).
  { intros b w0. unfold move_events.
    destruct (fixed_target (self w0)); repeat constructor. }
  induction H as [p w | fuel p w Hf | fuel p w Hf Hx | fuel p w s Hf Hx Hm
                 | fuel p w s Hf Hx Hm Hc
                 | fuel p w lw w4 l w' r Hf Hx Hm Hc Hw Hrec IH];
    intros Hmode;
    try (pose proof (idles_mode (idles_deliver e w)) as Hmd;
         assert (Hclick : single_click (click_button (mode (self w)))
                            (click_event (deliver e w) p))
           by (unfold click_event, produced_by, click_width; rewrite Hmd, Hmode;
               split; reflexivity)).
  - constructor.
  - repeat constructor.
  - repeat constructor.
  - constructor; [exact I | apply Hmove].
  - constructor; [exact I|]. apply Forall_app; split; [apply Hmove|].
    constructor; [exact Hclick | constructor].
  - destruct (idles_round _ _ _ Hw) as (Hlw & _ & _ & Hm4 & _).
    constructor; [exact I|]. apply Forall_app; split; [apply Hmove|].
    constructor; [exact Hclick|]. constructor; [exact I|].
    apply Forall_app; split.
    + apply single_click_no_action, wait_no_action, Hlw.
    + rewrite <- Hm4. apply IH. rewrite Hm4. exact Hmode.
Qed.

Lemma run_single_clicks (fuel : nat) (e : Env) (s : ClickWorker) :
  (mode s =? "Double (left)")%string = false ->
  Forall (single_click (click_button (mode s))) (log fuel e s).
Proof.
  intros Hmode.
  pose proof (exec_trace fuel e s) as H.
  destruct H as [lc wc Hcd | lc wc x Hcd Hlis | lc wc ll w2 Hcd Hlis Hloop
                | lc wc ll w2 x Hcd Hlis Hloop | lc wc ll w2 p Hcd Hlis Hloop];
    pose proof (single_click_no_action (click_button (mode s))
                  (countdown_no_action _ _ Hcd)) as Hc;
    pose proof (single_click_no_action (click_button (mode s))
                  (listener_no_action e)) as Hl;
    destruct (total_at_loop _ _ Hcd) as (_ & Hm & _);
    try (assert (Hll : Forall (single_click (click_button (mode s))) ll)
           by (rewrite <- Hm; apply (loop_single_clicks Hloop);
               rewrite Hm; exact Hmode));
    repeat first [apply Forall_app; split | apply Forall_cons];
    try assumption; try exact I;
    apply single_click_no_action, teardown_no_action.
Qed.

(** X6. In mode "Right" every click call of a run is one click of the
    right button.  In every mode other than "Right" and "Double (left)",
    "Left" or a name the worker does not know, every click call is one
    click of the left button. *)
Theorem single_clicks_by_mode (fuel : nat) (e : Env) (s : ClickWorker) :
  (mode s = "Right"%string ->
   Forall (single_click ButtonRight) (log fuel e s)) /\
  (mode s <> "Right"%string -> mode s <> "Double (left)"%string ->
   Forall (single_click ButtonLeft) (log fuel e s)).
Proof.
  split.
  - intros Hm.
    assert (Hd : (mode s =? "Double (left)")%string = false)
      by (rewrite Hm; reflexivity).
    pose proof (run_single_clicks fuel e s Hd) as H.
    rewrite Hm in H. exact H.
  - intros Hr Hd.
    apply String.eqb_neq in Hr. apply String.eqb_neq in Hd.
    pose proof (run_single_clicks fuel e s Hd) as H.
    unfold click_button in H. rewrite Hr in H. exact H.
Qed.


Lemma single_clicks_by_mode_witness :
  mode plan_right7 = "Right"%string /\
  Forall (single_click ButtonRight) (log 8 quiet plan_right7) /\
  mode plan_unknown_mode <> "Right"%string /\
  mode plan_unknown_mode <> "Double (left)"%string /\
  Forall (single_click ButtonLeft) (log 8 quiet plan_unknown_mode).
Proof.
  assert (H1 : mode plan_unknown_mode <> "Right"%string) by discriminate.
  assert (H2 : mode plan_unknown_mode <> "Double (left)"%string) by discriminate.
  split; [reflexivity|].
  split; [apply (proj1 (single_clicks_by_mode 8 quiet plan_right7)); reflexivity|].
  split; [exact H1|]. split; [exact H2|].
  exact (proj2 (single_clicks_by_mode 8 quiet plan_unknown_mode) H1 H2).
Defined.

(** ** Moves without a fixed point *)

(** X7. The pointer is moved only in target mode "fixed" with a point
    set: without a point ([target_pos] is [None]), or in any other target
    mode, a run never moves the pointer and clicks where the cursor is. *)
Theorem no_move_without_fixed_point (fuel : nat) (e : Env) (s : ClickWorker) :
  target_pos s = None \/ target_mode s <> "fixed"%string ->
  filter is_move (log fuel e s) = [].
Proof.
  intros Hno.
  assert (Hft : fixed_target s = None).
  { unfold fixed_target. destruct Hno as [-> | Hm]; [reflexivity|].
    apply String.eqb_neq in Hm. rewrite Hm.
    destruct (target_pos s); reflexivity. }
  destruct (@run_filter _ action_of_move _ _ _ _ _ _ (exec_trace fuel e s))
    as [Hnone | (lc & wc & ll & w2 & rl & Hcd & _ & Hloop & Heq)].
  - exact Hnone.
  - rewrite Heq. destruct (total_at_loop _ _ Hcd) as (_ & _ & Htg).
    eapply loop_follow; [exact Hloop|]. congruence.
Qed.


Lemma no_move_without_fixed_point_witness :
  (target_pos plan_fixed_no_point = None
   \/ target_mode plan_fixed_no_point <> "fixed"%string) /\
  filter is_move (log 4 quiet plan_fixed_no_point) = [].
Proof.
  assert (H : target_pos plan_fixed_no_point = None
              \/ target_mode plan_fixed_no_point <> "fixed"%string)
    by (left; reflexivity).
  split; [exact H|].
  exact (@no_move_without_fixed_point 4 quiet plan_fixed_no_point H).
Defined.

(** ** The time slept between actions *)









(** ** The key listener and the countdown *)

Lemma from_listener_app (l1 l2 : list event) :
  count is_listener_new l1 = O ->
  from_listener (l1 ++ l2) = from_listener l2.
Proof.
  induction l1 as [|ev l1 IH]; [reflexivity|].
  rewrite count_cons. simpl. destruct (is_listener_new ev); [discriminate|].
  exact IH.
Qed.

Lemma from_listener_none (l : list event) :
  count is_listener_new l = O -> from_listener l = [].
Proof.
  induction l as [|ev l IH]; [reflexivity|].
  rewrite count_cons. simpl. destruct (is_listener_new ev); [discriminate|].
  exact IH.
Qed.

Lemma count_listener_free (f : event -> bool) (l : list event) :
  (forall ev, listener_free ev -> f ev = false) ->
  Forall listener_free l -> count f l = O.
Proof. intros Hf Hl. eapply count_none; eassumption. Qed.

Lemma listener_new_not_free (ev : event) :
  listener_free ev -> is_listener_new ev = false.
Proof. destruct ev; simpl; intros H; try contradiction; reflexivity. Qed.

Lemma teardown_no_listener_new (e : Env) (w : World) :
  count is_listener_new (teardown_events e w) = O.
Proof. unfold teardown_events; destruct (_kb_listener (self w)); reflexivity. Qed.

Lemma teardown_no_starting (e : Env) (w : World) :
  count is_starting (teardown_events e w) = O.
Proof. unfold teardown_events; destruct (_kb_listener (self w)); reflexivity. Qed.

Lemma loop_no_starting (l : list event) :
  Forall loop_event l -> count is_starting l = O.
Proof.
  apply count_none. intros [] H; simpl in *; try contradiction; reflexivity.
Qed.

(** What follows the creation of the listener in [listener_events]. *)
Lemma from_listener_events (e : Env) (rest : list event) :
  exists tl,
    from_listener (listener_events e ++ rest) = tl ++ rest /\
    count is_starting tl = O.
Proof.
  unfold listener_events.
  destruct (listener_new e); [exists []; split; reflexivity|].
  destruct (listener_start e).
  - exists [ListenerStart false]. split; reflexivity.
  - exists [ListenerStart true]. split; reflexivity.
Qed.

(** X9. The key listener is created only when the countdown is over: in
    the log of a run no status of the countdown ("Starting in ...") comes
    after the creation of a listener, and a run whose countdown is
    cancelled creates none.  So while the countdown shows
    "(press ESC to cancel)" there is no hook that could hear the key. *)
Theorem listener_created_after_countdown (fuel : nat) (e : Env)
    (s : ClickWorker) :
  count is_starting (from_listener (log fuel e s)) = O /\
  (countdown_cancelled e s = true ->
   count is_listener_new (log fuel e s) = O).
Proof.
  pose proof (exec_trace fuel e s) as H.
  destruct H as [lc wc Hcd | lc wc x Hcd Hlis | lc wc ll w2 Hcd Hlis Hloop
                | lc wc ll w2 x Hcd Hlis Hloop | lc wc ll w2 p Hcd Hlis Hloop];
    pose proof (count_listener_free _ listener_new_not_free
                  (countdown_listener_free _ _ Hcd)) as Hnew;
    pose proof (countdown_cancelled_eq _ _ Hcd) as Hb.
  - split.
    + rewrite from_listener_none; [reflexivity|].
      rewrite count_app, Hnew, teardown_no_listener_new. reflexivity.
    + intros _. rewrite count_app, Hnew, teardown_no_listener_new. reflexivity.
  - split; [|congruence].
    rewrite from_listener_app by exact Hnew.
    destruct (from_listener_events e
                (Error (error_text x) :: teardown_events e (listener_world e wc)))
      as (tl & -> & Htl).
    count_steps. rewrite Htl, teardown_no_starting. reflexivity.
  - split; [|congruence].
    rewrite from_listener_app by exact Hnew.
    destruct (from_listener_events e (running :: ll)) as (tl & -> & Htl).
    count_steps. rewrite Htl, (loop_no_starting (loop_events Hloop)).
    reflexivity.
  - split; [|congruence].
    rewrite from_listener_app by exact Hnew.
    destruct (from_listener_events e
                (running :: ll ++ Error (error_text x) :: teardown_events e w2))
      as (tl & -> & Htl).
    count_steps. rewrite Htl, (loop_no_starting (loop_events Hloop)),
      teardown_no_starting. reflexivity.
  - split; [|congruence].
    rewrite from_listener_app by exact Hnew.
    destruct (from_listener_events e
                (running :: ll
                   ++ Poll (_stop_requested (self (deliver e w2)))
                   :: closing_status (_stop_requested (self (deliver e w2)))
                   :: teardown_events e (deliver e w2)))
      as (tl & -> & Htl).
    count_steps. rewrite Htl, (loop_no_starting (loop_events Hloop)),
      teardown_no_starting.
    destruct (_stop_requested (self (deliver e w2))); reflexivity.
Qed.

Lemma listener_created_after_countdown_witness :
  countdown_cancelled (stop_after (1500 * ns_per_ms)) plan_fixed2 = true /\
  count is_starting
    (from_listener (log 5 (stop_after (1500 * ns_per_ms)) plan_fixed2)) = O /\
  count is_listener_new (log 5 (stop_after (1500 * ns_per_ms)) plan_fixed2) = O.
Proof.
  assert (H : countdown_cancelled (stop_after (1500 * ns_per_ms)) plan_fixed2
              = true) by reflexivity.
  split; [exact H|].
  destruct (listener_created_after_countdown 5
              (stop_after (1500 * ns_per_ms)) plan_fixed2) as [H1 H2].
  split; [exact H1 | exact (H2 H)].
Defined.

(** ** A stop that nobody asked for *)

Lemma countdown_return_requested (e : Env) (w : World) (lc : list event)
    (wc : World) :
  countdown_part e w = (lc, wc, true) -> requested_by e (clock wc) = true.
Proof.
  unfold countdown_part. intros H.
  destruct (negb (countdown (self w))); [discriminate|].
  destruct (requested_by e (clock w)) eqn:H0;
    [inversion H; subst; exact H0|].
  destruct (requested_by e (clock w + countdown_tick)) eqn:H1;
    [inversion H; subst; exact H1|].
  destruct (requested_by e (clock w + countdown_tick + countdown_tick)) eqn:H2;
    [inversion H; subst; exact H2 | discriminate].
Qed.

(** The flag goes up in the loop only on a request. *)
Lemma loop_flag_sound (e : Env) (interval_s : time) (fuel : nat) :
  forall p w l w' r,
    loop_run e interval_s fuel p w l w' r ->
    _stop_requested (self w) = false ->
    _stop_requested (self w') = true ->
    requested_by e (clock w') = true.
Proof.
  intros p w l w' r H.
  induction H as [p w | fuel p w Hf | fuel p w Hf Hx | fuel p w s Hf Hx Hm
                 | fuel p w s Hf Hx Hm Hc
                 | fuel p w lw w4 l w' r Hf Hx Hm Hc Hw Hrec IH];
    intros Hdown Hup;
    rewrite ?self_after_click, ?self_after_move in Hup; try congruence.
  - rewrite flag_deliver, Hdown in Hup. rewrite clock_deliver. exact Hup.
  - destruct (idles_round _ _ _ Hw) as (_ & (_ & _ & _ & Hs) & _).
    destruct (_stop_requested (self w4)) eqn:Hf4;
      [|apply IH; [reflexivity | assumption]].
    destruct Hs as [Hs | [_ Hreq]].
    + rewrite Hs, self_after_click, self_after_move in Hf4. congruence.
    + assert (Hd4 : _stop_requested (self (deliver e w4)) = true)
        by (rewrite flag_deliver, Hf4; reflexivity).
      inversion Hrec; subst; try congruence;
        rewrite ?clock_deliver; exact Hreq.
Qed.

(** X10. A run ends stopped only on a request: when its last status is
    "Start aborted." or "Stopped by user.", another thread has called
    [request_stop] during the run, no later than the run ended. *)
Theorem stopped_only_on_request (fuel : nat) (e : Env) (s : ClickWorker) :
  terminal_state (log fuel e s) = Some Stopped ->
  exists T, stop_at e = Some T /\ 0 <= T <= clock (final fuel e s).
Proof.
  intros Hstopped.
  assert (Hreq : requested_by e (clock (final fuel e s)) = true).
  { destruct (terminal_by_trace (exec_trace fuel e s))
      as [(_ & _ & _ & lc & wc & Hcd & _ & ->) | [(Ht & _) | [(Ht & _)
         | (_ & _ & lc & wc & ll & w2 & p & Hcd & Hloop & -> & Ht & _)]]];
      try congruence.
    - exact (countdown_return_requested _ _ Hcd).
    - rewrite Ht in Hstopped.
      cbn [close with_self clock]. rewrite clock_deliver.
      destruct (_stop_requested (self (deliver e w2))) eqn:Hflag;
        [|discriminate].
      rewrite flag_deliver in Hflag. apply orb_true_iff in Hflag.
      destruct Hflag as [Hup | Hr]; [|exact Hr].
      destruct (loop_start_world _ _ Hcd) as (Hdown & _).
      exact (loop_flag_sound Hloop Hdown Hup). }
  unfold requested_by in Hreq.
  destruct (stop_at e) as [T|]; [|discriminate].
  apply andb_true_iff in Hreq as [H0 H1].
  apply Z.leb_le in H0. apply Z.leb_le in H1.
  exists T. split; [reflexivity | lia].
Qed.

Lemma stopped_only_on_request_witness :
  terminal_state (log 5 (stop_after (25 * ns_per_ms)) plan_left3) = Some Stopped /\
  exists T, stop_at (stop_after (25 * ns_per_ms)) = Some T
            /\ 0 <= T <= clock (final 5 (stop_after (25 * ns_per_ms)) plan_left3).
Proof.
  assert (H : terminal_state (log 5 (stop_after (25 * ns_per_ms)) plan_left3)
              = Some Stopped) by (vm_compute; reflexivity).
  split; [exact H|].
  exact (@stopped_only_on_request 5 _ _ H).
Defined.

(** * What an error signal says *)

Lemma not_in_error (msg : string) (l : list event) :
  count is_error l = O -> ~ In (Error msg) l.
Proof.
  unfold count. intros H Hin.
  assert (Hf : In (Error msg) (filter is_error l))
    by (apply filter_In; split; [exact Hin | reflexivity]).
  destruct (filter is_error l); [exact Hf | discriminate H].
Qed.

Lemma fixed_target_some (s : ClickWorker) (pos : Z * Z) :
  fixed_target s = Some pos ->
  target_mode s = "fixed"%string /\ target_pos s = Some pos.
Proof.
  unfold fixed_target. destruct (target_pos s) as [q|]; [|discriminate].
  destruct (target_mode s =? "fixed")%string eqn:Hm; [|discriminate].
  intros H. apply String.eqb_eq in Hm. split; [exact Hm | exact H].
Qed.

(** The exception that leaves the loop is that of the last driver call
    made. *)
Lemma loop_raised_cause (e : Env) (interval_s : time) (fuel : nat) :
  forall p w l w' r,
    loop_run e interval_s fuel p w l w' r ->
    forall x, r = Raised x ->
    (exists k cause,
        n_clicks w' = S k /\
        snd (click_call e k) = Some cause /\
        x = mkExn RuntimeError cause) \/
    (exists k cause pos,
        n_moves w' = S k /\
        snd (move_call e k) = Some cause /\
        fixed_target (self w) = Some pos /\
        x = mkExn RuntimeError (move_failure_text pos cause)).
Proof.
  intros p w l w' r H.
  induction H as [p w | fuel p w Hf | fuel p w Hf Hx | fuel p w s Hf Hx Hm
                 | fuel p w s Hf Hx Hm Hc
                 | fuel p w lw w4 l w' r Hf Hx Hm Hc Hw Hrec IH];
    intros x Hr; try discriminate Hr.
  - injection Hr as <-. right.
    unfold move_failure in Hm. unfold after_move.
    rewrite <- (idles_target (idles_deliver e w)).
    destruct (fixed_target (self (deliver e w))) as [pos|]; [|discriminate].
    destruct (snd (move_call e (n_moves (deliver e w)))) as [cause|] eqn:Hcall;
      [|discriminate].
    injection Hm as <-.
    exists (n_moves (deliver e w)), cause, pos. repeat split. exact Hcall.
  - injection Hr as <-. left.
    exists (n_clicks (after_move e (deliver e w))), s.
    repeat split. exact Hc.
  - destruct (idles_round _ _ _ Hw) as (_ & _ & _ & _ & Htg & _).
    destruct (IH x Hr) as [Hclick | (k & cause & pos & Hk & Hcall & Hpos & Hx')].
    + left. exact Hclick.
    + right. exists k, cause, pos. repeat split; congruence.
Qed.

(** X18. An error signal names a call that did fail.  Its text is that
    given to the exception of the key listener that could not be started;
    or "Automation error: " and the text of the exception of a click call;
    or "Automation error: Failed to move to target (x, y): " and the text
    of the exception of a move to the fixed point [(x, y)].  The driver
    call in question is the last one the run has made. *)
Theorem error_names_the_cause (fuel : nat) (e : Env) (s : ClickWorker)
    (msg : string) :
  In (Error msg) (log fuel e s) ->
  (exists x, listener_failure e = Some x /\ msg = error_text x) \/
  (exists k cause,
      count is_click (log fuel e s) = S k /\
      snd (click_call e k) = Some cause /\
      msg = ("Automation error: " ++ cause)%string) \/
  (exists k cause pos,
      count is_move (log fuel e s) = S k /\
      snd (move_call e k) = Some cause /\
      target_mode s = "fixed"%string /\ target_pos s = Some pos /\
      msg = ("Automation error: Failed to move to target " ++ repr_pos pos
             ++ ": " ++ cause)%string).
Proof.
  intros Hin.
  pose proof (exec_trace fuel e s) as H.
  revert Hin H.
  generalize (log fuel e s) (final fuel e s) (outcome fuel e s).
  intros l w r Hin H.
  destruct H as [lc wc Hcd | lc wc x Hcd Hlis | lc wc ll w2 Hcd Hlis Hloop
                | lc wc ll w2 x Hcd Hlis Hloop | lc wc ll w2 p Hcd Hlis Hloop];
    destruct (count_error_outside _ _ Hcd) as (Hec & Hel & Het);
    repeat (apply in_app_or in Hin; destruct Hin as [Hin | Hin];
            [exfalso;
             first [exact (@not_in_error msg _ Hec Hin)
                   | exact (@not_in_error msg _ Hel Hin)
                   | exact (@not_in_error msg _ (Het _) Hin)]|]);
    try (exfalso; exact (@not_in_error msg _ (Het _) Hin)).
  - destruct Hin as [Hin | Hin];
      [|exfalso; exact (@not_in_error msg _ (Het _) Hin)].
    injection Hin as <-. left. exists x. split; [exact Hlis | reflexivity].
  - destruct Hin as [Hin | Hin]; [discriminate Hin|].
    exfalso. exact (@not_in_error msg _ (loop_count_error Hloop) Hin).
  - destruct Hin as [Hin | Hin]; [discriminate Hin|].
    apply in_app_or in Hin. destruct Hin as [Hin | Hin];
      [exfalso; exact (@not_in_error msg _ (loop_count_error Hloop) Hin)|].
    destruct Hin as [Hin | Hin];
      [|exfalso; exact (@not_in_error msg _ (Het _) Hin)].
    injection Hin as <-. right.
    destruct (loop_counters Hloop) as (Hnc & Hnm).
    destruct (loop_start_world _ _ Hcd) as (_ & Hm0 & Hc0).
    destruct (total_at_loop _ _ Hcd) as (_ & _ & Htg).
    rewrite Hc0 in Hnc. rewrite Hm0 in Hnm.
    assert (Hout : forall f,
               (forall ev, f ev = true -> is_action ev = true) ->
               count f (lc ++ listener_events e
                           ++ running :: ll
                           ++ Error (error_text x) :: teardown_events e w2)
               = count f ll).
    { intros f Hf.
      assert (Hst : forall m, f (Status m) = false).
      { intros m. destruct (f (Status m)) eqn:Hm; [|reflexivity].
        apply Hf in Hm. discriminate Hm. }
      assert (Her : forall m, f (Error m) = false).
      { intros m. destruct (f (Error m)) eqn:Hm; [|reflexivity].
        apply Hf in Hm. discriminate Hm. }
      rewrite !count_app, !count_cons, !count_app, !count_cons.
      unfold running. rewrite Hst, Her.
      rewrite (count_no_action f Hf (countdown_no_action _ _ Hcd)),
        (count_no_action f Hf (listener_no_action e)),
        (count_no_action f Hf (teardown_no_action e w2)).
      lia. }
    rewrite (Hout is_click action_of_click), (Hout is_move action_of_move).
    destruct (loop_raised_cause Hloop eq_refl)
      as [(k & cause & Hk & Hcall & ->)
         | (k & cause & pos & Hk & Hcall & Hpos & ->)].
    + left. exists k, cause. split; [lia|]. split; [exact Hcall | reflexivity].
    + right. exists k, cause, pos. split; [lia|]. split; [exact Hcall|].
      rewrite Htg in Hpos. destruct (fixed_target_some _ Hpos) as (Hmode & Hp).
      split; [exact Hmode|]. split; [exact Hp | reflexivity].
  - destruct Hin as [Hin | Hin]; [discriminate Hin|].
    apply in_app_or in Hin. destruct Hin as [Hin | Hin];
      [exfalso; exact (@not_in_error msg _ (loop_count_error Hloop) Hin)|].
    destruct Hin as [Hin | Hin]; [discriminate Hin|].
    destruct Hin as [Hin | Hin];
      [unfold closing_status in Hin; discriminate Hin|].
    exfalso. exact (@not_in_error msg _ (Het _) Hin).
Qed.

Lemma error_names_the_cause_witness :
  In (Error "Automation error: access denied")
    (log 5 third_click_fails plan_left10) /\
  ((exists x,
       listener_failure third_click_fails = Some x /\
       "Automation error: access denied"%string = error_text x) \/
   (exists k cause,
       count is_click (log 5 third_click_fails plan_left10) = S k /\
       snd (click_call third_click_fails k) = Some cause /\
       "Automation error: access denied"%string
       = ("Automation error: " ++ cause)%string) \/
   (exists k cause pos,
       count is_move (log 5 third_click_fails plan_left10) = S k /\
       snd (move_call third_click_fails k) = Some cause /\
       target_mode plan_left10 = "fixed"%string /\
       target_pos plan_left10 = Some pos /\
       "Automation error: access denied"%string
       = ("Automation error: Failed to move to target " ++ repr_pos pos
          ++ ": " ++ cause)%string)).
Proof.
  assert (H : In (Error "Automation error: access denied")
                (log 5 third_click_fails plan_left10)).
  { vm_compute. repeat first [left; reflexivity | right]. }
  split; [exact H|].
  exact (@error_names_the_cause 5 third_click_fails plan_left10 _ H).
Defined.

(** * Properties of the main window *)

(** ** Starting a run *)

Lemma progress_within_total (fuel : nat) (e : Env) (s : ClickWorker) (n : Z) :
  total_clicks s = Some n -> 0 <= n ->
  Forall (fun v => v <= n) (progress_values (log fuel e s))
  /\ performed_of (log fuel e s) <= n.
Proof.
  intros Hn Hpos.
  destruct (run_progress (exec_trace fuel e s))
    as [Hnone | (lc & wc & ll & w2 & rl & Hcd & _ & Hloop & Heq)].
  - unfold performed_of. rewrite Hnone. simpl. split; [constructor | exact Hpos].
  - unfold performed_of. rewrite Heq.
    destruct (loop_progress Hloop) as [_ Hbound].
    destruct (total_at_loop _ _ Hcd) as (Ht & _).
    assert (Hall : Forall (fun v => v <= n) (progress_values ll))
      by (apply Hbound; [congruence | exact Hpos]).
    split; [exact Hall | apply last_bounded; [exact Hpos | exact Hall]].
Qed.

Lemma moves_to_fixed_target (fuel : nat) (e : Env) (s : ClickWorker) (pos : Z * Z) :
  fixed_target s = Some pos ->
  moved_then_clicked pos (driver_calls (log fuel e s)).
Proof.
  intros Hpos.
  destruct (@run_filter _ action_of_driver _ _ _ _ _ _ (exec_trace fuel e s))
    as [Hnone | (lc & wc & ll & w2 & rl & Hcd & _ & Hloop & Heq)];
    unfold driver_calls.
  - rewrite Hnone. exact I.
  - rewrite Heq. destruct (total_at_loop _ _ Hcd) as (_ & _ & Htg).
    eapply loop_fixed; [exact Hloop|]. congruence.
Qed.

Lemma no_moves_without_target (fuel : nat) (e : Env) (s : ClickWorker) :
  fixed_target s = None -> filter is_move (log fuel e s) = [].
Proof.
  intros Hft.
  destruct (@run_filter _ action_of_move _ _ _ _ _ _ (exec_trace fuel e s))
    as [Hnone | (lc & wc & ll & w2 & rl & Hcd & _ & Hloop & Heq)].
  - exact Hnone.
  - rewrite Heq. destruct (total_at_loop _ _ Hcd) as (_ & _ & Htg).
    eapply loop_follow; [exact Hloop|]. congruence.
Qed.

Lemma validate_inputs_none (win : MainWindow) :
  validate_inputs win = None ->
  1 <= interval_box win /\
  (continuous_chk win = false -> 1 <= count_box win) /\
  (fixed_radio win = true ->
   Z.abs (x_box win) <= 20000 /\ Z.abs (y_box win) <= 20000).
Proof.
  unfold validate_inputs. intros H.
  destruct (interval_box win <? 1) eqn:Hi; [discriminate|].
  destruct (negb (continuous_chk win) && (count_box win <? 1)) eqn:Hc;
    [discriminate|].
  destruct (fixed_radio win
            && ((Z.abs (x_box win) >? 20000) || (Z.abs (y_box win) >? 20000)))
    eqn:Hf; [discriminate|].
  split; [lia|]. split.
  - intros Hcont. rewrite Hcont in Hc. simpl in Hc. lia.
  - intros Hfix. rewrite Hfix in Hf. simpl in Hf.
    apply orb_false_iff in Hf as [Hx Hy]. lia.
Qed.

Lemma start_clicking_valid (d : Desktop) (win : MainWindow) :
  validate_inputs win = None ->
  worker (start_clicking d win) = Some (new_worker d win).
Proof. unfold start_clicking. intros ->. reflexivity. Qed.

Lemma start_clicking_invalid (d : Desktop) (win : MainWindow) (err : string) :
  validate_inputs win = Some err ->
  start_clicking d win = show_box (WarningBox "Invalid input" err) win.
Proof. unfold start_clicking. intros ->. reflexivity. Qed.

Lemma started_worker (d : Desktop) (win : MainWindow) (s : ClickWorker) :
  worker win = None ->
  worker (start_clicking d win) = Some s ->
  validate_inputs win = None /\ s = new_worker d win.
Proof.
  intros Hnone Hs.
  destruct (validate_inputs win) as [err|] eqn:Hv.
  - rewrite (start_clicking_invalid d _ Hv) in Hs. simpl in Hs. congruence.
  - rewrite (start_clicking_valid d _ Hv) in Hs. injection Hs as <-.
    split; reflexivity.
Qed.

(** X11. When [start_clicking] starts a worker that the window did not
    have, the inputs were valid: the worker's interval is that of the
    interval box, at least 1 ms, and unless "continuous" is checked its
    count is that of the count box, at least 1, which no progress signal
    of any run of that worker exceeds. *)
Theorem started_run_stays_within_count (d : Desktop) (win : MainWindow)
    (s : ClickWorker) :
  worker win = None ->
  worker (start_clicking d win) = Some s ->
  valid_plan s /\
  interval_ms s = interval_box win /\
  total_clicks s = (if continuous_chk win then None else Some (count_box win)) /\
  (continuous_chk win = false ->
   forall fuel e,
     Forall (fun v => v <= count_box win) (progress_values (log fuel e s))
     /\ performed_of (log fuel e s) <= count_box win).
Proof.
  intros Hnone Hs.
  destruct (started_worker d win Hnone Hs) as [Hv ->].
  destruct (validate_inputs_none _ Hv) as (Hi & Hc & _).
  assert (Hint : interval_ms (new_worker d win) = interval_box win)
    by (unfold new_worker; simpl; lia).
  assert (Htot : total_clicks (new_worker d win)
                 = if continuous_chk win then None else Some (count_box win))
    by reflexivity.
  split.
  { unfold valid_plan. rewrite Hint, Htot. split; [exact Hi|].
    destruct (continuous_chk win); [exact I | apply Hc; reflexivity]. }
  split; [exact Hint|]. split; [exact Htot|].
  intros Hcont fuel e. apply progress_within_total.
  - rewrite Htot, Hcont. reflexivity.
  - specialize (Hc Hcont). lia.
Qed.

Lemma started_run_stays_within_count_witness :
  worker default_window = None /\
  worker (start_clicking linux_desktop default_window)
  = Some (new_worker linux_desktop default_window) /\
  valid_plan (new_worker linux_desktop default_window) /\
  interval_ms (new_worker linux_desktop default_window) = 100 /\
  total_clicks (new_worker linux_desktop default_window) = Some 100 /\
  (continuous_chk default_window = false ->
   forall fuel e,
     Forall (fun v => v <= 100)
       (progress_values (log fuel e (new_worker linux_desktop default_window)))
     /\ performed_of (log fuel e (new_worker linux_desktop default_window)) <= 100).
Proof.
  assert (H0 : worker default_window = None) by reflexivity.
  assert (H1 : worker (start_clicking linux_desktop default_window)
               = Some (new_worker linux_desktop default_window)) by reflexivity.
  split; [exact H0|]. split; [exact H1|].
  exact (started_run_stays_within_count linux_desktop default_window H0 H1).
Defined.

(** X12. Where the runs of a worker that [start_clicking] has started
    click, by the radio button checked: with "fixed point", at the point of
    the two boxes, which lies within 20000 of the origin on both axes; with
    "screen centre", at the centre of the current screen; with "active
    window centre", at the centre of the foreground window, or at the
    centre of the screen when the desktop gives no such window; and with
    none of the three, where the cursor is, without any move of the
    pointer.  The point is resolved once, at the start: every move of the
    run goes there. *)
Theorem started_run_clicks_at_chosen_target (d : Desktop) (win : MainWindow)
    (s : ClickWorker) (fuel : nat) (e : Env) :
  worker win = None ->
  worker (start_clicking d win) = Some s ->
  (fixed_radio win = true ->
   Z.abs (x_box win) <= 20000 /\ Z.abs (y_box win) <= 20000 /\
   moved_then_clicked (x_box win, y_box win) (driver_calls (log fuel e s))) /\
  (fixed_radio win = false -> screen_center_radio win = true ->
   moved_then_clicked (screen_center d) (driver_calls (log fuel e s))) /\
  (fixed_radio win = false -> screen_center_radio win = false ->
   win_center_radio win = true ->
   moved_then_clicked
     (match _active_window_center_windows d with
      | Some c => c
      | None => screen_center d
      end)
     (driver_calls (log fuel e s))) /\
  (fixed_radio win = false -> screen_center_radio win = false ->
   win_center_radio win = false ->
   filter is_move (log fuel e s) = []).
Proof.
  intros Hnone Hs.
  destruct (started_worker d win Hnone Hs) as [Hv ->].
  destruct (validate_inputs_none _ Hv) as (_ & _ & Hxy).
  assert (Hft : fixed_target (new_worker d win) = snd (resolve_target d win)).
  { unfold fixed_target, new_worker, resolve_target. simpl.
    destruct (fixed_radio win); [reflexivity|].
    destruct (screen_center_radio win); [reflexivity|].
    destruct (win_center_radio win); [|reflexivity].
    destruct (_active_window_center_windows d); reflexivity. }
  unfold resolve_target, _current_screen_center in Hft.
  split; [|split; [|split]].
  - intros Hf. destruct (Hxy Hf) as [Hx Hy]. rewrite Hf in Hft.
    split; [exact Hx|]. split; [exact Hy|].
    apply moves_to_fixed_target. exact Hft.
  - intros Hf Hsc. rewrite Hf, Hsc in Hft.
    apply moves_to_fixed_target. exact Hft.
  - intros Hf Hsc Hw. rewrite Hf, Hsc, Hw in Hft.
    apply moves_to_fixed_target. rewrite Hft.
    destruct (_active_window_center_windows d); reflexivity.
  - intros Hf Hsc Hw. rewrite Hf, Hsc, Hw in Hft.
    apply no_moves_without_target. exact Hft.
Qed.

Lemma started_run_clicks_at_chosen_target_witness :
  worker window_center_window = None /\
  worker (start_clicking windows_desktop window_center_window)
  = Some (new_worker windows_desktop window_center_window) /\
  fixed_radio window_center_window = false /\
  screen_center_radio window_center_window = false /\
  win_center_radio window_center_window = true /\
  moved_then_clicked (-960, 300)
    (driver_calls
       (log 3 quiet (new_worker windows_desktop window_center_window))).
Proof.
  assert (H0 : worker window_center_window = None) by reflexivity.
  assert (H1 : worker (start_clicking windows_desktop window_center_window)
               = Some (new_worker windows_desktop window_center_window))
    by reflexivity.
  split; [exact H0|]. split; [exact H1|].
  split; [reflexivity|]. split; [reflexivity|]. split; [reflexivity|].
  exact (proj1 (proj2 (proj2
           (started_run_clicks_at_chosen_target windows_desktop
              window_center_window 3 quiet H0 H1)))
         eq_refl eq_refl eq_refl).
Defined.

(** ** The centre of the active window *)

(** X13. [_active_window_center_windows] gives a point only on Windows,
    with a foreground window whose rectangle could be read; the point is
    then the middle of the rectangle, rounded down on both axes, and lies
    between its edges (when the rectangle is not inverted).  On any other
    platform it gives nothing. *)
Theorem window_center_inside_rect (d : Desktop) :
  (forall c,
      _active_window_center_windows d = Some c ->
      platform_system d = "Windows"%string /\
      foreground_window d <> 0 /\
      exists r,
        window_rect d = Some r /\
        2 * fst c <= rect_left r + rect_right r < 2 * fst c + 2 /\
        2 * snd c <= rect_top r + rect_bottom r < 2 * snd c + 2 /\
        (rect_left r <= rect_right r -> rect_left r <= fst c <= rect_right r) /\
        (rect_top r <= rect_bottom r -> rect_top r <= snd c <= rect_bottom r)) /\
  (platform_system d <> "Windows"%string ->
   _active_window_center_windows d = None).
Proof.
  unfold _active_window_center_windows. split.
  - intros c H.
    destruct (platform_system d =? "Windows")%string eqn:Hp; [|discriminate].
    simpl in H. apply String.eqb_eq in Hp.
    destruct (foreground_window d =? 0) eqn:Hw; [discriminate|].
    apply Z.eqb_neq in Hw.
    destruct (window_rect d) as [r|]; [|discriminate].
    injection H as <-. cbn [fst snd].
    split; [exact Hp|]. split; [exact Hw|].
    exists r. split; [reflexivity|].
    clear Hp Hw.
    assert (Hx : (rect_left r + rect_right r) mod 2 = 0
                 \/ (rect_left r + rect_right r) mod 2 = 1)
      by (pose proof (Z.mod_pos_bound (rect_left r + rect_right r) 2); lia).
    assert (Hy : (rect_top r + rect_bottom r) mod 2 = 0
                 \/ (rect_top r + rect_bottom r) mod 2 = 1)
      by (pose proof (Z.mod_pos_bound (rect_top r + rect_bottom r) 2); lia).
    pose proof (Z.div_mod (rect_left r + rect_right r) 2) as Hdx.
    pose proof (Z.div_mod (rect_top r + rect_bottom r) 2) as Hdy.
    split; [lia|]. split; [lia|]. split; intros Hle; lia.
  - intros Hp. apply String.eqb_neq in Hp. rewrite Hp. reflexivity.
Qed.

Lemma window_center_inside_rect_witness :
  _active_window_center_windows windows_desktop = Some (-960, 300) /\
  (platform_system windows_desktop = "Windows"%string /\
   foreground_window windows_desktop <> 0 /\
   exists r,
     window_rect windows_desktop = Some r /\
     2 * -960 <= rect_left r + rect_right r < 2 * -960 + 2 /\
     2 * 300 <= rect_top r + rect_bottom r < 2 * 300 + 2 /\
     (rect_left r <= rect_right r -> rect_left r <= -960 <= rect_right r) /\
     (rect_top r <= rect_bottom r -> rect_top r <= 300 <= rect_bottom r)) /\
  platform_system linux_desktop <> "Windows"%string /\
  _active_window_center_windows linux_desktop = None.
Proof.
  assert (H0 : _active_window_center_windows windows_desktop = Some (-960, 300))
    by reflexivity.
  assert (H1 : platform_system linux_desktop <> "Windows"%string)
    by (intros H; discriminate H).
  split; [exact H0|]. split.
  - exact (proj1 (window_center_inside_rect windows_desktop) (-960, 300) H0).
  - split; [exact H1|].
    exact (proj2 (window_center_inside_rect linux_desktop) H1).
Defined.

(** ** The coordinates HUD *)

(** X14. [CoordHUD._tick] never places the HUD left of or above the
    available geometry of the screen.  When the HUD is no wider than the
    distance between the left and the right edge, it ends at or before the
    right edge, and likewise for its height and the bottom edge; and when
    it fits at the offset (18, 18) from the cursor, that is where it is
    placed. *)
Theorem hud_stays_on_screen (pos : Z * Z) (geom : Geometry)
    (horizontalAdvance : string -> Z) (height : Z) :
  let '(x, y, w, h) := snd (_tick pos geom horizontalAdvance height) in
  geom_left geom <= x /\ geom_top geom <= y /\
  (w <= geom_right geom - geom_left geom -> x + w <= geom_right geom) /\
  (h <= geom_bottom geom - geom_top geom -> y + h <= geom_bottom geom) /\
  (geom_left geom <= fst pos + 18 -> fst pos + 18 + w <= geom_right geom ->
   x = fst pos + 18) /\
  (geom_top geom <= snd pos + 18 -> snd pos + 18 + h <= geom_bottom geom ->
   y = snd pos + 18).
Proof.
  unfold _tick. cbn [snd].
  set (w := horizontalAdvance _ + 8 * 2).
  set (h := height + 8 * 2).
  destruct (fst pos + 18 + w >? geom_right geom) eqn:Hx1;
    destruct (snd pos + 18 + h >? geom_bottom geom) eqn:Hy1;
    match goal with
    | |- context [?a <? geom_left geom] =>
        destruct (a <? geom_left geom) eqn:Hx2
    end;
    match goal with
    | |- context [?a <? geom_top geom] =>
        destruct (a <? geom_top geom) eqn:Hy2
    end;
    repeat split; lia.
Qed.

Lemma hud_stays_on_screen_witness :
  let '(x, y, w, h) :=
    snd (_tick (1900, 10) (mkGeometry 0 0 1919 1039) (fun _ => 100) 14) in
  0 <= x /\ 0 <= y /\
  (w <= 1919 - 0 -> x + w <= 1919) /\
  (h <= 1039 - 0 -> y + h <= 1039) /\
  (0 <= 1900 + 18 -> 1900 + 18 + w <= 1919 -> x = 1900 + 18) /\
  (0 <= 10 + 18 -> 10 + 18 + h <= 1039 -> y = 10 + 18).
Proof.
  exact (hud_stays_on_screen (1900, 10) (mkGeometry 0 0 1919 1039)
           (fun _ => 100) 14).
Defined.

(** ** The slots of the worker's signals *)

Lemma deliver_signals_app (l1 l2 : list event) (win : MainWindow) :
  deliver_signals (l1 ++ l2) win = deliver_signals l2 (deliver_signals l1 win).
Proof. apply fold_left_app. Qed.

Lemma on_status_cases (msg : string) (win : MainWindow) :
  exists state, on_status msg win = _set_status msg state win.
Proof.
  unfold on_status.
  destruct (contains "stop" (lower msg) || contains "completed" (lower msg));
    [eexists; reflexivity|].
  destruct (contains "error" (lower msg)); eexists; reflexivity.
Qed.

Lemma on_finished_cases (win : MainWindow) :
  on_finished win = set_worker None (_toggle_controls false win)
  \/ on_finished win
     = _set_status "Idle." "idle" (set_worker None (_toggle_controls false win)).
Proof.
  unfold on_finished.
  destruct (negb _); [right | left]; reflexivity.
Qed.

(** *** The count label *)

Lemma perf_lbl_slot (ev : event) (win : MainWindow) :
  perf_lbl (slot ev win)
  = match ev with
    | Progress v => ("Clicks performed: " ++ repr_int v)%string
    | _ => perf_lbl win
    end.
Proof.
  destruct ev; try reflexivity.
  - simpl. destruct (on_status_cases msg win) as [st ->]. reflexivity.
  - simpl. destruct (on_finished_cases win) as [-> | ->]; reflexivity.
Qed.

Lemma perf_lbl_deliver (l : list event) :
  forall win,
    perf_lbl (deliver_signals l win)
    = match progress_values l with
      | [] => perf_lbl win
      | v :: vs => ("Clicks performed: " ++ repr_int (last vs v))%string
      end.
Proof.
  induction l as [|ev l IH]; intros win; [reflexivity|].
  change (deliver_signals (ev :: l) win) with (deliver_signals l (slot ev win)).
  rewrite IH, perf_lbl_slot.
  destruct ev; try reflexivity.
  cbn [progress_values].
  destruct (progress_values l) as [|v vs]; [reflexivity|].
  rewrite last_cons. reflexivity.
Qed.

(** *** The buttons and the worker *)

Lemma controls_slot (ev : event) (win : MainWindow) :
  is_finished ev = false ->
  start_btn (slot ev win) = start_btn win /\
  stop_btn (slot ev win) = stop_btn win /\
  worker (slot ev win) = worker win.
Proof.
  destruct ev; intros H; try discriminate; try (repeat split; reflexivity).
  simpl. destruct (on_status_cases msg win) as [st ->]. repeat split.
Qed.

Lemma controls_on_finished (win : MainWindow) :
  start_btn (on_finished win) = true /\
  stop_btn (on_finished win) = false /\
  worker (on_finished win) = None.
Proof. destruct (on_finished_cases win) as [-> | ->]; repeat split. Qed.

Lemma controls_unfinished (l : list event) :
  forall win,
    count is_finished l = O ->
    start_btn (deliver_signals l win) = start_btn win /\
    stop_btn (deliver_signals l win) = stop_btn win /\
    worker (deliver_signals l win) = worker win.
Proof.
  induction l as [|ev l IH]; intros win H; [repeat split|].
  rewrite count_cons in H.
  destruct (is_finished ev) eqn:Hev; [discriminate|].
  change (deliver_signals (ev :: l) win) with (deliver_signals l (slot ev win)).
  destruct (IH (slot ev win) H) as (H1 & H2 & H3).
  destruct (controls_slot ev win Hev) as (H4 & H5 & H6).
  repeat split; congruence.
Qed.

Lemma controls_finished (l : list event) :
  forall win,
    count is_finished l <> O ->
    start_btn (deliver_signals l win) = true /\
    stop_btn (deliver_signals l win) = false /\
    worker (deliver_signals l win) = None.
Proof.
  induction l as [|ev l IH]; intros win H; [contradiction H; reflexivity|].
  change (deliver_signals (ev :: l) win) with (deliver_signals l (slot ev win)).
  destruct (Nat.eq_dec (count is_finished l) O) as [Hl | Hl].
  - rewrite count_cons, Hl in H.
    destruct ev; try (contradiction H; reflexivity).
    destruct (controls_unfinished l (slot Finished win) Hl) as (H1 & H2 & H3).
    destruct (controls_on_finished win) as (H4 & H5 & H6).
    change (slot Finished win) with (on_finished win) in *.
    repeat split; congruence.
  - apply IH. exact Hl.
Qed.

(** *** The message boxes *)

Lemma boxes_slot (ev : event) (win : MainWindow) :
  boxes (slot ev win)
  = match ev with
    | Error msg => boxes win ++ [CriticalBox "Error" msg]
    | _ => boxes win
    end.
Proof.
  destruct ev; try reflexivity.
  - simpl. destruct (on_status_cases msg win) as [st ->]. reflexivity.
  - simpl. destruct (on_finished_cases win) as [-> | ->]; reflexivity.
Qed.

Lemma boxes_deliver (l : list event) :
  forall win,
    count is_error l = O -> boxes (deliver_signals l win) = boxes win.
Proof.
  induction l as [|ev l IH]; intros win H; [reflexivity|].
  rewrite count_cons in H.
  change (deliver_signals (ev :: l) win) with (deliver_signals l (slot ev win)).
  destruct (is_error ev) eqn:Hev; [discriminate|].
  rewrite (IH _ H), boxes_slot.
  destruct ev; try reflexivity. discriminate.
Qed.

(** *** The status label *)

Lemma status_slot_congr (ev : event) (w1 w2 : MainWindow) :
  status_lbl w1 = status_lbl w2 ->
  status_lbl (slot ev w1) = status_lbl (slot ev w2).
Proof.
  intros H. destruct ev; try exact H.
  - simpl. unfold on_status. rewrite H.
    destruct (contains "stop" (lower msg) || contains "completed" (lower msg));
      [reflexivity|].
    destruct (contains "error" (lower msg)); reflexivity.
  - reflexivity.
  - simpl. unfold on_finished. cbn [status_lbl set_worker _toggle_controls].
    rewrite H. destruct (negb _); [reflexivity | exact H].
Qed.

Lemma status_deliver_congr (l : list event) :
  forall w1 w2,
    status_lbl w1 = status_lbl w2 ->
    status_lbl (deliver_signals l w1) = status_lbl (deliver_signals l w2).
Proof.
  induction l as [|ev l IH]; intros w1 w2 H; [exact H|].
  apply IH, status_slot_congr, H.
Qed.

Lemma status_loop (l : list event) (win : MainWindow) :
  Forall loop_event l ->
  status_lbl (deliver_signals l win) = status_lbl win.
Proof.
  intros H. revert win.
  induction H as [|ev l Hev _ IH]; intros win; [reflexivity|].
  change (deliver_signals (ev :: l) win) with (deliver_signals l (slot ev win)).
  rewrite IH. destruct ev; simpl in *; try contradiction; reflexivity.
Qed.

Lemma status_listener (e : Env) (win : MainWindow) :
  deliver_signals (listener_events e) win = win.
Proof.
  unfold listener_events.
  destruct (listener_new e); [|destruct (listener_start e)]; reflexivity.
Qed.

Lemma status_teardown (e : Env) (w : World) (win : MainWindow) :
  deliver_signals (teardown_events e w) win = on_finished win.
Proof.
  unfold teardown_events. destruct (_kb_listener (self w)); reflexivity.
Qed.

Lemma on_status_neutral (msg : string) (win : MainWindow) :
  contains "stop" (lower msg) || contains "completed" (lower msg) = false ->
  contains "error" (lower msg) = false ->
  status_state win = "running"%string ->
  on_status msg win = _set_status msg "running" win.
Proof.
  unfold on_status, status_state. intros -> -> ->. reflexivity.
Qed.

Lemma on_status_running (win : MainWindow) :
  slot running win = _set_status "Running (ESC to stop)…" "stopped" win.
Proof. reflexivity. Qed.

Lemma on_status_closing (b : bool) (win : MainWindow) :
  slot (closing_status b) win
  = _set_status (if b then "Stopped by user." else "Completed.") "stopped" win.
Proof. destruct b; reflexivity. Qed.

Lemma on_finished_running (win : MainWindow) :
  status_state win = "running"%string ->
  status_lbl (on_finished win) = ("Status: Idle."%string, "idle"%string).
Proof.
  unfold on_finished, status_state.
  cbn [status_lbl set_worker _toggle_controls]. intros ->. reflexivity.
Qed.

Lemma status_tick (i : Z) (win : MainWindow) :
  i = 3 \/ i = 2 \/ i = 1 ->
  status_state win = "running"%string ->
  status_state (deliver_signals (tick_events i) win) = "running"%string.
Proof.
  intros Hi Hs. unfold tick_events, starting_in.
  cbn [deliver_signals fold_left slot].
  rewrite on_status_neutral; [reflexivity | | | exact Hs];
    destruct Hi as [-> | [-> | ->]]; reflexivity.
Qed.

Lemma status_abort (win : MainWindow) :
  status_state win = "running"%string ->
  status_lbl (deliver_signals abort_events win)
  = ("Status: Idle."%string, "idle"%string).
Proof.
  intros Hs. unfold abort_events. cbn [deliver_signals fold_left slot].
  rewrite on_status_neutral; [|reflexivity|reflexivity|exact Hs].
  apply on_finished_running. reflexivity.
Qed.

Lemma status_countdown_passed (e : Env) (w : World) (lc : list event)
    (wc : World) (win : MainWindow) :
  countdown_part e w = (lc, wc, false) ->
  status_state win = "running"%string ->
  status_state (deliver_signals lc win) = "running"%string.
Proof.
  intros H Hs.
  replace lc with (fst (fst (countdown_part e w))) by (rewrite H; reflexivity).
  assert (Hb : snd (countdown_part e w) = false) by (rewrite H; reflexivity).
  clear H. unfold countdown_part in *.
  destruct (negb (countdown (self w)));
    [|destruct (requested_by e (clock w));
      [|destruct (requested_by e (clock w + countdown_tick));
        [|destruct (requested_by e (clock w + countdown_tick + countdown_tick))]]];
    cbn [fst snd] in *; try discriminate Hb; [exact Hs|].
  rewrite !deliver_signals_app.
  repeat (apply status_tick; [tauto|]). exact Hs.
Qed.

Lemma status_countdown_returned (e : Env) (w : World) (lc : list event)
    (wc : World) (win : MainWindow) :
  countdown_part e w = (lc, wc, true) ->
  status_state win = "running"%string ->
  status_lbl (deliver_signals lc win) = ("Status: Idle."%string, "idle"%string).
Proof.
  intros H Hs.
  replace lc with (fst (fst (countdown_part e w))) by (rewrite H; reflexivity).
  assert (Hb : snd (countdown_part e w) = true) by (rewrite H; reflexivity).
  clear H. unfold countdown_part in *.
  destruct (negb (countdown (self w)));
    [|destruct (requested_by e (clock w));
      [|destruct (requested_by e (clock w + countdown_tick));
        [|destruct (requested_by e (clock w + countdown_tick + countdown_tick))]]];
    cbn [fst snd] in *; try discriminate Hb;
    rewrite ?deliver_signals_app; apply status_abort;
    repeat (apply status_tick; [tauto|]); exact Hs.
Qed.

Lemma on_finished_status (win : MainWindow) :
  status_lbl (on_finished win)
  = if negb ((status_state win =? "stopped")%string
             || (status_state win =? "error")%string)
    then ("Status: Idle."%string, "idle"%string)
    else status_lbl win.
Proof.
  unfold on_finished, status_state.
  cbn [status_lbl set_worker _toggle_controls].
  destruct (negb _); reflexivity.
Qed.

(** The label after a log that ends with an error signal and the
    [finally] block of [run]. *)
Lemma status_error_teardown (e : Env) (w : World) (pre : list event)
    (msg : string) (win : MainWindow) :
  status_lbl (deliver_signals (pre ++ Error msg :: teardown_events e w) win)
  = (("Status: " ++ msg)%string, "error"%string).
Proof.
  rewrite deliver_signals_app.
  change (deliver_signals (Error msg :: teardown_events e w)
            (deliver_signals pre win))
    with (deliver_signals (teardown_events e w)
            (on_error msg (deliver_signals pre win))).
  rewrite status_teardown, on_finished_status. reflexivity.
Qed.

Lemma boxes_error_teardown (e : Env) (w : World) (pre : list event)
    (msg : string) (win : MainWindow) :
  count is_error pre = O ->
  boxes (deliver_signals (pre ++ Error msg :: teardown_events e w) win)
  = boxes win ++ [CriticalBox "Error" msg].
Proof.
  intros Hpre. rewrite deliver_signals_app.
  change (deliver_signals (Error msg :: teardown_events e w)
            (deliver_signals pre win))
    with (deliver_signals (teardown_events e w)
            (slot (Error msg) (deliver_signals pre win))).
  rewrite status_teardown.
  change (on_finished (slot (Error msg) (deliver_signals pre win)))
    with (slot Finished (slot (Error msg) (deliver_signals pre win))).
  rewrite !boxes_slot, (boxes_deliver _ _ Hpre). reflexivity.
Qed.

(** The label after a log that ends with the status after the loop and
    the [finally] block of [run]. *)
Lemma status_closing_teardown (e : Env) (w : World) (pre : list event)
    (b : bool) (win : MainWindow) :
  status_lbl
    (deliver_signals (pre ++ Poll b :: closing_status b :: teardown_events e w)
       win)
  = (("Status: " ++ if b then "Stopped by user." else "Completed.")%string,
     "stopped"%string).
Proof.
  rewrite deliver_signals_app.
  change (deliver_signals (Poll b :: closing_status b :: teardown_events e w)
            (deliver_signals pre win))
    with (deliver_signals (teardown_events e w)
            (slot (closing_status b) (deliver_signals pre win))).
  rewrite status_teardown, on_status_closing, on_finished_status.
  destruct b; reflexivity.
Qed.

(** The window after a run that has returned, by the way through [run]. *)
Lemma window_by_trace (fuel : nat) (e : Env) (w0 : World) (l : list event)
    (w : World) (win : MainWindow) :
  run_trace fuel e w0 l w (Ok tt) ->
  status_state win = "running"%string ->
  count is_finished l <> O /\
  ((exists lc wc,
       countdown_part e (reset w0) = (lc, wc, true) /\
       terminal_state l = Some Stopped /\
       status_lbl (deliver_signals l win)
       = ("Status: Idle."%string, "idle"%string) /\
       boxes (deliver_signals l win) = boxes win) \/
   (exists lc wc,
       countdown_part e (reset w0) = (lc, wc, false) /\
       ((terminal_state l = Some Errored /\
         exists msg,
           status_lbl (deliver_signals l win)
           = (("Status: " ++ msg)%string, "error"%string) /\
           boxes (deliver_signals l win)
           = boxes win ++ [CriticalBox "Error" msg]) \/
        (exists b : bool,
            terminal_state l = Some (if b then Stopped else Completed) /\
            status_lbl (deliver_signals l win)
            = (("Status: "
                ++ if b then "Stopped by user." else "Completed.")%string,
               "stopped"%string) /\
            boxes (deliver_signals l win) = boxes win)))).
Proof.
  intros H Hs. remember (Ok tt) as r eqn:Hr.
  destruct H as [lc wc Hcd | lc wc x Hcd Hlis | lc wc ll w2 Hcd Hlis Hloop
                | lc wc ll w2 x Hcd Hlis Hloop | lc wc ll w2 p Hcd Hlis Hloop];
    try discriminate Hr;
    destruct (count_error_outside _ _ Hcd) as (Hec & Hel & Het);
    (split; [count_steps; rewrite teardown_count_finished; lia|]).
  - left. exists lc, wc. split; [exact Hcd|]. split; [|split].
    + rewrite (terminal_state_app_none _ _ (terminal_teardown e wc)).
      apply (terminal_countdown_returned _ _ Hcd).
    + rewrite deliver_signals_app, status_teardown, on_finished_status.
      unfold status_state.
      rewrite (status_countdown_returned _ _ win Hcd Hs). reflexivity.
    + apply boxes_deliver. count_steps. rewrite Hec, Het. reflexivity.
  - right. exists lc, wc. split; [exact Hcd|]. left. split.
    + apply terminal_state_app_some, terminal_state_app_some, terminal_error.
    + exists (error_text x). rewrite !app_assoc. split.
      * apply status_error_teardown.
      * apply boxes_error_teardown. count_steps. rewrite Hec, Hel. reflexivity.
  - right. exists lc, wc. split; [exact Hcd|]. left. split.
    + apply terminal_state_app_some, terminal_state_app_some,
        terminal_state_cons_some, terminal_state_app_some, terminal_error.
    + exists (error_text x).
      change (running :: ll ++ Error (error_text x) :: teardown_events e w2)
        with ((running :: ll) ++ Error (error_text x) :: teardown_events e w2).
      rewrite !app_assoc. split.
      * apply status_error_teardown.
      * apply boxes_error_teardown. count_steps. unfold running.
        cbn [is_error]. rewrite Hec, Hel, (loop_count_error Hloop). reflexivity.
  - right. exists lc, wc. split; [exact Hcd|]. right.
    exists (_stop_requested (self (deliver e w2))). split; [|split].
    + apply terminal_state_app_some, terminal_state_app_some,
        terminal_state_cons_some, terminal_state_app_some.
      apply terminal_closing.
    + change (running
              :: ll
                 ++ Poll (_stop_requested (self (deliver e w2)))
                    :: closing_status (_stop_requested (self (deliver e w2)))
                       :: teardown_events e (deliver e w2))
        with ((running :: ll)
                ++ Poll (_stop_requested (self (deliver e w2)))
                   :: closing_status (_stop_requested (self (deliver e w2)))
                      :: teardown_events e (deliver e w2)).
      rewrite !app_assoc. apply status_closing_teardown.
    + apply boxes_deliver. count_steps. unfold running, closing_status.
      cbn [is_error]. rewrite Hec, Hel, Het, (loop_count_error Hloop).
      reflexivity.
Qed.

Lemma start_clicking_window (d : Desktop) (win : MainWindow) :
  validate_inputs win = None ->
  status_lbl (start_clicking d win) = ("Status: Arming…"%string, "running"%string) /\
  perf_lbl (start_clicking d win) = "Clicks performed: 0"%string /\
  start_btn (start_clicking d win) = false /\
  stop_btn (start_clicking d win) = true /\
  boxes (start_clicking d win) = boxes win.
Proof. unfold start_clicking. intros ->. repeat split. Qed.

Lemma perf_lbl_performed (l : list event) (win : MainWindow) :
  perf_lbl win = "Clicks performed: 0"%string ->
  perf_lbl (deliver_signals l win)
  = ("Clicks performed: " ++ repr_int (performed_of l))%string.
Proof.
  intros H. rewrite perf_lbl_deliver. unfold performed_of.
  destruct (progress_values l) as [|v vs]; [exact H|].
  rewrite last_cons. reflexivity.
Qed.

(** *** The status of the key listener *)

(** A status changes the status label only. *)
Lemma key_press_slot (ev : event) (win : MainWindow) :
  is_key_press ev = true ->
  perf_lbl (slot ev win) = perf_lbl win /\
  start_btn (slot ev win) = start_btn win /\
  stop_btn (slot ev win) = stop_btn win /\
  worker (slot ev win) = worker win /\
  boxes (slot ev win) = boxes win /\
  status_state (slot ev win) = "stopped"%string.
Proof.
  destruct ev; try discriminate. simpl. intros H.
  apply String.eqb_eq in H. subst msg. repeat split.
Qed.

(** Apart from the status label, a slot takes windows that agree to
    windows that agree. *)
Lemma slot_agree (ev : event) (w1 w2 : MainWindow) :
  perf_lbl w1 = perf_lbl w2 /\ start_btn w1 = start_btn w2 /\
  stop_btn w1 = stop_btn w2 /\ worker w1 = worker w2 /\ boxes w1 = boxes w2 ->
  perf_lbl (slot ev w1) = perf_lbl (slot ev w2) /\
  start_btn (slot ev w1) = start_btn (slot ev w2) /\
  stop_btn (slot ev w1) = stop_btn (slot ev w2) /\
  worker (slot ev w1) = worker (slot ev w2) /\
  boxes (slot ev w1) = boxes (slot ev w2).
Proof.
  intros (Hp & Hs & Ht & Hw & Hb).
  destruct ev; cbn [slot]; try (repeat split; assumption).
  - destruct (on_status_cases msg w1) as [s1 ->].
    destruct (on_status_cases msg w2) as [s2 ->]. repeat split; assumption.
  - unfold on_error. cbn. rewrite Hb. repeat split; assumption.
  - destruct (on_finished_cases w1) as [-> | ->];
      destruct (on_finished_cases w2) as [-> | ->]; cbn;
      repeat split; assumption.
Qed.

(** The statuses of the key listener change nothing but the status
    label. *)
Lemma key_presses_agree (l' : list event) :
  forall w1 w2,
    perf_lbl w1 = perf_lbl w2 /\ start_btn w1 = start_btn w2 /\
    stop_btn w1 = stop_btn w2 /\ worker w1 = worker w2 /\ boxes w1 = boxes w2 ->
    perf_lbl (deliver_signals l' w1)
    = perf_lbl (deliver_signals (without_key_presses l') w2) /\
    start_btn (deliver_signals l' w1)
    = start_btn (deliver_signals (without_key_presses l') w2) /\
    stop_btn (deliver_signals l' w1)
    = stop_btn (deliver_signals (without_key_presses l') w2) /\
    worker (deliver_signals l' w1)
    = worker (deliver_signals (without_key_presses l') w2) /\
    boxes (deliver_signals l' w1)
    = boxes (deliver_signals (without_key_presses l') w2).
Proof.
  induction l' as [|ev l' IH]; intros w1 w2 H; [exact H|].
  change (deliver_signals (ev :: l') w1) with (deliver_signals l' (slot ev w1)).
  unfold without_key_presses. cbn [filter].
  destruct (is_key_press ev) eqn:Hev; cbn [negb].
  - apply IH.
    destruct (key_press_slot ev w1 Hev) as (Hp & Hs & Ht & Hw & Hb & _).
    rewrite Hp, Hs, Ht, Hw, Hb. exact H.
  - change (deliver_signals (ev :: filter (fun ev0 => negb (is_key_press ev0)) l') w2)
      with (deliver_signals (without_key_presses l') (slot ev w2)).
    apply IH, slot_agree, H.
Qed.

(** Once the label is in state "stopped", the events of the loop and the
    statuses of the key listener leave it there. *)
Lemma stopped_in_loop (l' : list event) :
  forall win,
    Forall loop_event (without_key_presses l') ->
    status_state win = "stopped"%string ->
    status_state (deliver_signals l' win) = "stopped"%string.
Proof.
  induction l' as [|ev l' IH]; intros win Hl Hs; [exact Hs|].
  change (deliver_signals (ev :: l') win) with (deliver_signals l' (slot ev win)).
  unfold without_key_presses in Hl. cbn [filter] in Hl.
  destruct (is_key_press ev) eqn:Hev; cbn [negb] in Hl.
  - apply IH; [exact Hl|]. apply (key_press_slot ev win Hev).
  - inversion Hl as [|ev0 l0 Hev0 Hl0]; subst.
    apply IH; [exact Hl0|].
    destruct ev; simpl in Hev0; try contradiction; exact Hs.
Qed.

Lemma stopped_after_running (l' : list event) :
  forall l1 ll win,
    without_key_presses l' = l1 ++ running :: ll ->
    Forall loop_event ll ->
    status_state (deliver_signals l' win) = "stopped"%string.
Proof.
  induction l' as [|ev l' IH]; intros l1 ll win Hl Hll.
  { destruct l1; discriminate Hl. }
  change (deliver_signals (ev :: l') win) with (deliver_signals l' (slot ev win)).
  unfold without_key_presses in Hl. cbn [filter] in Hl.
  destruct (is_key_press ev) eqn:Hev; cbn [negb] in Hl.
  - eapply IH; [exact Hl | exact Hll].
  - destruct l1 as [|ev1 l1]; cbn [app] in Hl; injection Hl as Hev1 Hrest.
    + subst ev. apply stopped_in_loop.
      * unfold without_key_presses. rewrite Hrest. exact Hll.
      * reflexivity.
    + eapply IH; [exact Hrest | exact Hll].
Qed.

(** No event of [run] is a status of the key listener. *)
Lemma run_no_key_press (fuel : nat) (e : Env) (w0 : World) (l : list event)
    (w : World) (r : result unit) :
  run_trace fuel e w0 l w r -> without_key_presses l = l.
Proof.
  intros H. unfold without_key_presses.
  apply forallb_filter_id. apply forallb_forall. intros ev Hin.
  destruct ev; try reflexivity.
  destruct (is_key_press (Status msg)) eqn:Hk; [|reflexivity].
  simpl in Hk. apply String.eqb_eq in Hk. subst msg. exfalso.
  assert (Hc : forall lc wc b, countdown_part e (reset w0) = (lc, wc, b) ->
               ~ In (Status "Panic stop requested (ESC).") lc).
  { intros lc wc b Hcd Hi. unfold countdown_part in Hcd.
    destruct (negb (countdown (self (reset w0))));
      [|destruct (requested_by e (clock (reset w0)));
        [|destruct (requested_by e (clock (reset w0) + countdown_tick));
          [|destruct (requested_by e
                        (clock (reset w0) + countdown_tick + countdown_tick))]]];
      injection Hcd as <- _ _; simpl in Hi;
      repeat (destruct Hi as [Hi | Hi]; [discriminate Hi|]); exact Hi. }
  assert (Hli : ~ In (Status "Panic stop requested (ESC).") (listener_events e)).
  { unfold listener_events. intros Hi.
    destruct (listener_new e); [|destruct (listener_start e)]; simpl in Hi;
      repeat (destruct Hi as [Hi | Hi]; [discriminate Hi|]); exact Hi. }
  assert (Htd : forall w', ~ In (Status "Panic stop requested (ESC).")
                             (teardown_events e w')).
  { intros w' Hi. unfold teardown_events in Hi.
    destruct (_kb_listener (self w')); simpl in Hi;
      repeat (destruct Hi as [Hi | Hi]; [discriminate Hi|]); exact Hi. }
  assert (Hlo : forall i f p w1 ll w2 rl,
             loop_run e i f p w1 ll w2 rl ->
             ~ In (Status "Panic stop requested (ESC).") ll).
  { intros i f p w1 ll w2 rl Hloop Hi. apply loop_events in Hloop.
    rewrite Forall_forall in Hloop. apply Hloop in Hi. exact Hi. }
  destruct H as [lc wc Hcd | lc wc x Hcd Hlis | lc wc ll w2 Hcd Hlis Hloop
                | lc wc ll w2 x Hcd Hlis Hloop | lc wc ll w2 p Hcd Hlis Hloop];
    repeat (apply in_app_or in Hin; destruct Hin as [Hin | Hin];
            [first [exact (Hc _ _ _ Hcd Hin) | exact (Hli Hin)
                   | exact (Hlo _ _ _ _ _ _ _ Hloop Hin)]|]);
    repeat first
      [ exact (Htd _ Hin)
      | exact (Hlo _ _ _ _ _ _ _ Hloop Hin)
      | destruct Hin as [Hin | Hin];
        [first [discriminate Hin
               | unfold closing_status in Hin;
                 destruct (_stop_requested _); discriminate Hin]|]
      | apply in_app_or in Hin; destruct Hin as [Hin | Hin] ].
Qed.

(** X15. The window once a run that [start_clicking] has started has
    returned and its signals have been delivered, with any statuses of the
    key listener in between: Start is enabled and Stop disabled, the
    worker is dropped, the count label shows the last count signalled, and
    a critical box has been shown exactly when the run ended with an error,
    with the message of the error signal.  When ESC was not pressed, the
    status label reads "Completed." or "Stopped by user.", both in state
    "stopped"; after an error it shows the message in state "error"; and
    after a countdown that was cancelled it reads "Idle." in state "idle",
    the status "Start aborted." being overwritten. *)
Theorem window_after_run (d : Desktop) (win : MainWindow) (s : ClickWorker)
    (fuel : nat) (e : Env) (l' : list event) :
  worker win = None ->
  worker (start_clicking d win) = Some s ->
  outcome fuel e s = Ok tt ->
  without_key_presses l' = log fuel e s ->
  let win' := deliver_signals l' (start_clicking d win) in
  start_btn win' = true /\ stop_btn win' = false /\ worker win' = None /\
  perf_lbl win'
  = ("Clicks performed: " ++ repr_int (performed_of (log fuel e s)))%string /\
  match terminal_state (log fuel e s) with
  | Some Completed =>
      boxes win' = boxes win /\
      (l' = log fuel e s ->
       status_lbl win' = ("Status: Completed."%string, "stopped"%string))
  | Some Stopped =>
      boxes win' = boxes win /\
      (l' = log fuel e s ->
       status_lbl win'
       = if countdown_cancelled e s
         then ("Status: Idle."%string, "idle"%string)
         else ("Status: Stopped by user."%string, "stopped"%string))
  | Some Errored =>
      exists msg,
        boxes win' = boxes win ++ [CriticalBox "Error" msg] /\
        (l' = log fuel e s ->
         status_lbl win' = (("Status: " ++ msg)%string, "error"%string))
  | None => False
  end.
Proof.
  intros Hnone Hs Hout Hl' win'.
  destruct (started_worker d win Hnone Hs) as [Hv ->].
  destruct (start_clicking_window d win Hv) as (Hst & Hperf & _ & _ & Hbox).
  pose proof (exec_trace fuel e (new_worker d win)) as Ht.
  rewrite Hout in Ht.
  assert (Hrun : status_state (start_clicking d win) = "running"%string)
    by (unfold status_state; rewrite Hst; reflexivity).
  destruct (window_by_trace (start_clicking d win) Ht Hrun) as (Hfin & Hcases).
  destruct (controls_finished _ (start_clicking d win) Hfin) as (H1 & H2 & H3).
  destruct (key_presses_agree l' (start_clicking d win) (start_clicking d win))
    as (Kp & Ks & Kt & Kw & Kb); [repeat split|].
  rewrite Hl' in Kp, Ks, Kt, Kw, Kb. fold win' in Kp, Ks, Kt, Kw, Kb.
  split; [congruence|]. split; [congruence|]. split; [congruence|].
  split; [rewrite Kp; apply perf_lbl_performed; exact Hperf|].
  rewrite Kb. rewrite Hbox in Hcases.
  destruct Hcases as [(lc & wc & Hcd & Hterm & Hlbl & Hb)
                     | (lc & wc & Hcd & [(Hterm & msg & Hlbl & Hb)
                                        | (b & Hterm & Hlbl & Hb)])];
    rewrite Hterm; apply countdown_cancelled_eq in Hcd.
  - rewrite <- Hcd. split; [exact Hb|]. intros El. subst win'.
    rewrite El. exact Hlbl.
  - exists msg. split; [exact Hb|]. intros El. subst win'.
    rewrite El. exact Hlbl.
  - destruct b; [rewrite <- Hcd|]; (split; [exact Hb|]); intros El;
      subst win'; rewrite El; exact Hlbl.
Qed.

Lemma window_after_run_witness :
  worker window_center_window = None /\
  worker (start_clicking windows_desktop window_center_window)
  = Some (new_worker windows_desktop window_center_window) /\
  outcome 5 quiet (new_worker windows_desktop window_center_window) = Ok tt /\
  without_key_presses
    (log 5 quiet (new_worker windows_desktop window_center_window))
  = log 5 quiet (new_worker windows_desktop window_center_window) /\
  let win' :=
    deliver_signals
      (log 5 quiet (new_worker windows_desktop window_center_window))
      (start_clicking windows_desktop window_center_window) in
  start_btn win' = true /\ stop_btn win' = false /\ worker win' = None /\
  perf_lbl win'
  = ("Clicks performed: "
     ++ repr_int
          (performed_of
             (log 5 quiet (new_worker windows_desktop window_center_window))))%string /\
  match terminal_state
          (log 5 quiet (new_worker windows_desktop window_center_window)) with
  | Some Completed =>
      boxes win' = boxes window_center_window /\
      (log 5 quiet (new_worker windows_desktop window_center_window)
       = log 5 quiet (new_worker windows_desktop window_center_window) ->
       status_lbl win' = ("Status: Completed."%string, "stopped"%string))
  | Some Stopped =>
      boxes win' = boxes window_center_window /\
      (log 5 quiet (new_worker windows_desktop window_center_window)
       = log 5 quiet (new_worker windows_desktop window_center_window) ->
       status_lbl win'
       = if countdown_cancelled quiet
              (new_worker windows_desktop window_center_window)
         then ("Status: Idle."%string, "idle"%string)
         else ("Status: Stopped by user."%string, "stopped"%string))
  | Some Errored =>
      exists msg,
        boxes win' = boxes window_center_window ++ [CriticalBox "Error" msg] /\
        (log 5 quiet (new_worker windows_desktop window_center_window)
         = log 5 quiet (new_worker windows_desktop window_center_window) ->
         status_lbl win' = (("Status: " ++ msg)%string, "error"%string))
  | None => False
  end.
Proof.
  assert (H0 : worker window_center_window = None) by reflexivity.
  assert (H1 : worker (start_clicking windows_desktop window_center_window)
               = Some (new_worker windows_desktop window_center_window))
    by reflexivity.
  assert (H2 : outcome 5 quiet (new_worker windows_desktop window_center_window)
               = Ok tt) by (vm_compute; reflexivity).
  assert (H3 : without_key_presses
                 (log 5 quiet (new_worker windows_desktop window_center_window))
               = log 5 quiet (new_worker windows_desktop window_center_window))
    by (vm_compute; reflexivity).
  split; [exact H0|]. split; [exact H1|]. split; [exact H2|].
  split; [exact H3|].
  exact (window_after_run windows_desktop window_center_window 5 quiet _
           H0 H1 H2 H3).
Defined.

(** X16. The window while a started run is in its loop, after the signals
    of any number of rounds have been delivered, with any statuses of the
    key listener in between: Start is disabled and Stop enabled, the
    worker is kept, the count label shows the last count signalled, no box
    has been shown, and the status label is in state "stopped", not
    "running": [on_status] finds "stop" in the text "Running (ESC to
    stop)…", which is what the label reads when ESC was not pressed. *)
Theorem window_while_running (d : Desktop) (win : MainWindow) (s : ClickWorker)
    (fuel : nat) (e : Env) (l' : list event) :
  worker win = None ->
  worker (start_clicking d win) = Some s ->
  outcome fuel e s = Pending ->
  without_key_presses l' = log fuel e s ->
  let win' := deliver_signals l' (start_clicking d win) in
  start_btn win' = false /\ stop_btn win' = true /\ worker win' = Some s /\
  perf_lbl win'
  = ("Clicks performed: " ++ repr_int (performed_of (log fuel e s)))%string /\
  boxes win' = boxes win /\
  status_state win' = "stopped"%string /\
  (l' = log fuel e s ->
   status_lbl win'
   = ("Status: Running (ESC to stop)…"%string, "stopped"%string)).
Proof.
  intros Hnone Hs Hout Hl' win'.
  destruct (started_worker d win Hnone Hs) as [Hv Heq].
  destruct (start_clicking_window d win Hv) as (Hst & Hperf & Hsb & Hpb & Hbox).
  destruct (key_presses_agree l' (start_clicking d win) (start_clicking d win))
    as (Kp & Ks & Kt & Kw & Kb); [repeat split|].
  rewrite Hl' in Kp, Ks, Kt, Kw, Kb. fold win' in Kp, Ks, Kt, Kw, Kb.
  pose proof (exec_trace fuel e s) as Ht.
  rewrite Hout in Ht. remember Pending as r eqn:Hr.
  subst win'. revert Ht Hl' Kp Ks Kt Kw Kb.
  generalize (log fuel e s) (final fuel e s).
  intros l w Ht Hl' Kp Ks Kt Kw Kb.
  destruct Ht as [lc wc Hcd | lc wc x Hcd Hlis | lc wc ll w2 Hcd Hlis Hloop
                 | lc wc ll w2 x Hcd Hlis Hloop | lc wc ll w2 p Hcd Hlis Hloop];
    try discriminate Hr.
  destruct (count_error_outside _ _ Hcd) as (Hec & Hel & _).
  pose proof (countdown_part_spec _ _ Hcd) as (_ & _ & _ & _ & Hfc & _).
  assert (Hfin : count is_finished (lc ++ listener_events e ++ running :: ll) = O).
  { count_steps. unfold running. cbn [is_finished].
    rewrite Hfc, listener_count_finished, (loop_count_finished Hloop).
    reflexivity. }
  assert (Herr : count is_error (lc ++ listener_events e ++ running :: ll) = O).
  { count_steps. unfold running. cbn [is_error].
    rewrite Hec, Hel, (loop_count_error Hloop). reflexivity. }
  destruct (controls_unfinished _ (start_clicking d win) Hfin) as (H1 & H2 & H3).
  split; [congruence|]. split; [congruence|]. split; [congruence|].
  split; [rewrite Kp; apply perf_lbl_performed; exact Hperf|].
  split; [rewrite Kb, (boxes_deliver _ _ Herr); exact Hbox|].
  split.
  - rewrite app_assoc in Hl'.
    exact (stopped_after_running l' _ (start_clicking d win) Hl'
             (loop_events Hloop)).
  - intros ->. rewrite !deliver_signals_app, status_listener.
    change (deliver_signals (running :: ll) ?w0)
      with (deliver_signals ll (slot running w0)).
    rewrite (status_loop _ (loop_events Hloop)), on_status_running. reflexivity.
Qed.

Lemma window_while_running_witness :
  worker window_center_window = None /\
  worker (start_clicking windows_desktop window_center_window)
  = Some (new_worker windows_desktop window_center_window) /\
  outcome 1 quiet (new_worker windows_desktop window_center_window) = Pending /\
  without_key_presses
    (log 1 quiet (new_worker windows_desktop window_center_window))
  = log 1 quiet (new_worker windows_desktop window_center_window) /\
  let win' :=
    deliver_signals
      (log 1 quiet (new_worker windows_desktop window_center_window))
      (start_clicking windows_desktop window_center_window) in
  start_btn win' = false /\ stop_btn win' = true /\
  worker win' = Some (new_worker windows_desktop window_center_window) /\
  perf_lbl win'
  = ("Clicks performed: "
     ++ repr_int
          (performed_of
             (log 1 quiet (new_worker windows_desktop window_center_window))))%string /\
  boxes win' = boxes window_center_window /\
  status_state win' = "stopped"%string /\
  (log 1 quiet (new_worker windows_desktop window_center_window)
   = log 1 quiet (new_worker windows_desktop window_center_window) ->
   status_lbl win'
   = ("Status: Running (ESC to stop)…"%string, "stopped"%string)).
Proof.
  assert (H0 : worker window_center_window = None) by reflexivity.
  assert (H1 : worker (start_clicking windows_desktop window_center_window)
               = Some (new_worker windows_desktop window_center_window))
    by reflexivity.
  assert (H2 : outcome 1 quiet (new_worker windows_desktop window_center_window)
               = Pending) by (vm_compute; reflexivity).
  assert (H3 : without_key_presses
                 (log 1 quiet (new_worker windows_desktop window_center_window))
               = log 1 quiet (new_worker windows_desktop window_center_window))
    by (vm_compute; reflexivity).
  split; [exact H0|]. split; [exact H1|]. split; [exact H2|].
  split; [exact H3|].
  exact (window_while_running windows_desktop window_center_window 1 quiet _
           H0 H1 H2 H3).
Defined.

(** ** A stop requested before the run has begun *)

(** X17. [run] begins by taking the stop flag down, so a stop that was
    requested on the worker before its run began is lost: the run is, event
    for event, the run of a worker on which nothing was requested. *)
Theorem stop_before_start_is_lost (fuel : nat) (e : Env) (s : ClickWorker) :
  log fuel e (request_stop s) = log fuel e s /\
  outcome fuel e (request_stop s) = outcome fuel e s /\
  final fuel e (request_stop s) = final fuel e s.
Proof.
  assert (H : exec fuel e (request_stop s) = exec fuel e s).
  { unfold exec, run. unfold_m. reflexivity. }
  unfold log, outcome, final. rewrite H. repeat split.
Qed.
